(** * DopeScope: the Owon VDS1022 driver and its sample decoder

    A shallow embedding of [src/driver/owon.ts] (command framing, flash
    dump parsing, FPGA bitstream upload, channel and trigger
    configuration, the acquisition loop) and of the sample decoder
    [gotData] and the handler [connect] of
    [src/components/HelloWorld.vue], followed by the properties of the
    device-control protocol that hold of them.

    Conventions.
    - A JavaScript integer is a [Z]; the wrap-around of every typed store
      ([setUint8], [setUint16], [setUint32], [Int8Array.from], ...) is
      written out.
    - An [ArrayBuffer], a [DataView] and a one-byte typed array are a
      [list Z] of element values.
    - A function that may throw returns an [Outcome]; an [async] method
      of the driver is a state transformer over the [Owon] object whose
      result is an [Outcome] (a rejected promise is a thrown error).
    - The USB device is a script: the responses it will give, in order,
      and the log of the bulk transfers performed on it. *)

From Stdlib Require Import ZArith List Lia Floats Uint63.
From Stdlib Require Import Strings.String Strings.Ascii.
From stdpp Require Import base list.
Import ListNotations.

#[local] Open Scope Z_scope.

(* ================================================================== *)
(** ** Outcomes of JavaScript computations *)

(** The errors the driver and the decoder can raise. *)
Inductive Exn : Type :=
| RangeError
    (* DataView access or typed-array view outside its buffer *)
| DeviceTypeError (actual : Z)
    (* "expected device type to be 86, but was ..." *)
| FlashHeaderError (actual : Z)
    (* "Expected flash header to be 0xaa55, but was 0x..." *)
| FlashVersionError (actual : Z)
    (* "Expected flash version to be 2, but was ..." *)
| MissingOutEndpoint
    (* "The device is missing the out endpoint" *)
| MissingInEndpoint
    (* "The device is missing the in endpoint" *)
| ResponseError (expected actual : Z).
    (* "Expected a response of 0x..., but got 0x..." *)

(** [Ok a]: normal completion.  [Throw e]: an exception (or a rejected
    promise).  [Pending]: the awaited transfer never completes because
    the device has nothing more to say.  [OutOfFuel]: a data-dependent
    loop was cut by the fuel of the model. *)
Inductive Outcome (A : Type) : Type :=
| Ok (a : A)
| Throw (e : Exn)
| Pending
| OutOfFuel.

Arguments Ok {A} a.
Arguments Throw {A} e.
Arguments Pending {A}.
Arguments OutOfFuel {A}.

Definition obind {A B : Type} (m : Outcome A) (k : A -> Outcome B) : Outcome B :=
  match m with
  | Ok a => k a
  | Throw e => Throw e
  | Pending => Pending
  | OutOfFuel => OutOfFuel
  end.

Declare Scope outcome_scope.
Delimit Scope outcome_scope with outcome.
Notation "x <~ e ;; k" := (obind e (fun x => k))
  (at level 100, e at next level, right associativity) : outcome_scope.

(* ================================================================== *)
(** ** Typed arrays and DataView *)

Module DataView.

Definition byteLength (buf : list Z) : Z := Z.of_nat (length buf).

(** The bounds check of every DataView accessor: [size] bytes at
    [byteOffset] lie inside the view. *)
Definition in_bounds (buf : list Z) (byteOffset size : Z) : bool :=
  (0 <=? byteOffset) && (byteOffset + size <=? byteLength buf).

Definition byteAt (buf : list Z) (i : Z) : Z :=
  default 0 (buf !! Z.to_nat i).

(** Byte [k] (0 = least significant) of an integer. *)
Definition byteOf (v : Z) (k : Z) : Z := Z.land (Z.shiftr v (8 * k)) 0xff.

Definition le16 (v : Z) : list Z := [byteOf v 0; byteOf v 1].
Definition le32 (v : Z) : list Z := [byteOf v 0; byteOf v 1; byteOf v 2; byteOf v 3].

(** Overwrite [buf] from index [at_] on with [bytes]. *)
Fixpoint store (buf : list Z) (at_ : nat) (bytes : list Z) : list Z :=
  match bytes with
  | [] => buf
  | b :: bytes' => store (<[at_ := b]> buf) (Datatypes.S at_) bytes'
  end.

Definition getUint8 (buf : list Z) (byteOffset : Z) : Outcome Z :=
  if in_bounds buf byteOffset 1 then Ok (byteAt buf byteOffset)
  else Throw RangeError.

Definition getUint16 (buf : list Z) (byteOffset : Z) (littleEndian : bool) : Outcome Z :=
  if in_bounds buf byteOffset 2 then
    let b0 := byteAt buf byteOffset in
    let b1 := byteAt buf (byteOffset + 1) in
    Ok (if littleEndian then Z.lor b0 (Z.shiftl b1 8)
        else Z.lor (Z.shiftl b0 8) b1)
  else Throw RangeError.

Definition getInt16 (buf : list Z) (byteOffset : Z) (littleEndian : bool) : Outcome Z :=
  obind (getUint16 buf byteOffset littleEndian)
        (fun u => Ok (if 0x8000 <=? u then u - 0x10000 else u)).

Definition getUint32 (buf : list Z) (byteOffset : Z) (littleEndian : bool) : Outcome Z :=
  if in_bounds buf byteOffset 4 then
    let b0 := byteAt buf byteOffset in
    let b1 := byteAt buf (byteOffset + 1) in
    let b2 := byteAt buf (byteOffset + 2) in
    let b3 := byteAt buf (byteOffset + 3) in
    Ok (if littleEndian
        then Z.lor (Z.lor b0 (Z.shiftl b1 8)) (Z.lor (Z.shiftl b2 16) (Z.shiftl b3 24))
        else Z.lor (Z.lor (Z.shiftl b0 24) (Z.shiftl b1 16)) (Z.lor (Z.shiftl b2 8) b3))
  else Throw RangeError.

Definition setUint8 (buf : list Z) (byteOffset value : Z) : Outcome (list Z) :=
  if in_bounds buf byteOffset 1
  then Ok (store buf (Z.to_nat byteOffset) [byteOf value 0])
  else Throw RangeError.

Definition setUint16 (buf : list Z) (byteOffset value : Z) (littleEndian : bool)
  : Outcome (list Z) :=
  if in_bounds buf byteOffset 2
  then Ok (store buf (Z.to_nat byteOffset)
             (if littleEndian then le16 value else rev (le16 value)))
  else Throw RangeError.

Definition setUint32 (buf : list Z) (byteOffset value : Z) (littleEndian : bool)
  : Outcome (list Z) :=
  if in_bounds buf byteOffset 4
  then Ok (store buf (Z.to_nat byteOffset)
             (if littleEndian then le32 value else rev (le32 value)))
  else Throw RangeError.

End DataView.

Module TypedArray.

(** [new ArrayBuffer(n)], [new Uint8Array(n)], [new Float32Array(n)]:
    zero-filled; a negative length is a RangeError. *)
Definition alloc {A : Type} (zero : A) (n : Z) : Outcome (list A) :=
  if n <? 0 then Throw RangeError else Ok (replicate (Z.to_nat n) zero).

Definition toUint8 (x : Z) : Z := x mod 256.
Definition toInt8 (x : Z) : Z := (x + 128) mod 256 - 128.

(** [Uint8Array.from(values)] and [Int8Array.from(values)]. *)
Definition Uint8Array_from (values : list Z) : list Z := map toUint8 values.
Definition Int8Array_from (values : list Z) : list Z := map toInt8 values.

(** [new Uint8Array(buffer, byteOffset, length)]: a view on part of a
    buffer. *)
Definition view (buffer : list Z) (byteOffset len : Z) : Outcome (list Z) :=
  if (0 <=? byteOffset) && (0 <=? len)
     && (byteOffset + len <=? DataView.byteLength buffer)
  then Ok (take (Z.to_nat len) (drop (Z.to_nat byteOffset) buffer))
  else Throw RangeError.

(** [target.set(source, offset)] on a Uint8Array target: every element
    of the source is converted to an unsigned byte. *)
Definition set (target source : list Z) (offset : Z) : Outcome (list Z) :=
  if (0 <=? offset) && (offset + DataView.byteLength source <=? DataView.byteLength target)
  then Ok (DataView.store target (Z.to_nat offset) (map toUint8 source))
  else Throw RangeError.

End TypedArray.

(* ================================================================== *)
(** ** Command framing *)

(** [packCommand(address, data)], for [data] a Uint8Array or an
    Int8Array (one byte per element, as at every call site). *)
Definition packCommand (address : Z) (data : list Z) : Outcome (list Z) :=
  let headerSize := 4 + 1 in
  (buffer <~ TypedArray.alloc 0 (headerSize + DataView.byteLength data) ;;
   buffer <~ DataView.setUint32 buffer 0 address true ;;
   buffer <~ DataView.setUint8 buffer 4 (DataView.byteLength data) ;;
   TypedArray.set buffer data headerSize)%outcome.

(** The frame [packCommand] builds, written out. *)
Definition frameOf (address : Z) (data : list Z) : list Z :=
  DataView.le32 address
    ++ [DataView.byteOf (DataView.byteLength data) 0]
    ++ map TypedArray.toUint8 data.

(* ================================================================== *)
(** ** State and exceptions *)

(** A computation over a mutable state [St] that may throw: the state
    reached is kept when it throws, so what was done before the error
    stays done. *)
Definition Eff (St A : Type) : Type := St -> Outcome A * St.

Section Eff.
Context {St : Type}.

Definition ret {A : Type} (a : A) : Eff St A := fun s => (Ok a, s).

Definition bind {A B : Type} (m : Eff St A) (k : A -> Eff St B) : Eff St B :=
  fun s =>
    match m s with
    | (Ok a, s') => k a s'
    | (Throw e, s') => (Throw e, s')
    | (Pending, s') => (Pending, s')
    | (OutOfFuel, s') => (OutOfFuel, s')
    end.

Definition throw {A : Type} (e : Exn) : Eff St A := fun s => (Throw e, s).

(** A pure computation that may throw, run inside an effectful one. *)
Definition lift {A : Type} (r : Outcome A) : Eff St A := fun s => (r, s).

Definition get_state : Eff St St := fun s => (Ok s, s).
Definition modify (f : St -> St) : Eff St unit := fun s => (Ok tt, f s).

(** [try { m } catch (error) { handler error }]. *)
Definition try_catch {A : Type} (m : Eff St A) (handler : Exn -> Eff St A) : Eff St A :=
  fun s =>
    match m s with
    | (Throw e, s') => handler e s'
    | r => r
    end.

(** [for (...; cond v; v = update v) body], with the update folded
    into the body's result; cut after [fuel] iterations. *)
Fixpoint while_ {V : Type} (fuel : nat) (cond : V -> bool)
    (body : V -> Eff St V) (v : V) : Eff St V :=
  if cond v then
    match fuel with
    | O => fun s => (OutOfFuel, s)
    | Datatypes.S fuel' => bind (body v) (while_ fuel' cond body)
    end
  else ret v.

(** [for (let i = start; i < start + count; i++) body], for a constant
    count. *)
Fixpoint for_ {V : Type} (count : nat) (i : Z)
    (body : Z -> V -> Eff St V) (v : V) : Eff St V :=
  match count with
  | O => ret v
  | Datatypes.S count' => bind (body i v) (for_ count' (i + 1) body)
  end.

End Eff.

Declare Scope eff_scope.
Delimit Scope eff_scope with eff.
Notation "x <- e ;; k" := (bind e (fun x => k))
  (at level 100, e at next level, right associativity) : eff_scope.
Notation "e ;;; k" := (bind e (fun _ => k))
  (at level 100, right associativity) : eff_scope.

(* ================================================================== *)
(** ** Enumerations and the register map *)

Inductive Voltage := MV5 | MV10 | MV20 | MV50 | MV100 | MV200 | MV500 | V1 | V2 | V5.

Definition Voltage_code (v : Voltage) : Z :=
  match v with
  | MV5 => 0 | MV10 => 1 | MV20 => 2 | MV50 => 3 | MV100 => 4
  | MV200 => 5 | MV500 => 6 | V1 => 7 | V2 => 8 | V5 => 9
  end.

Inductive Coupling := AC | DC | GND.

Definition Coupling_code (c : Coupling) : Z :=
  match c with AC => 0 | DC => 1 | GND => 2 end.

Inductive Channel := CH1 | CH2.

Definition Channel_code (c : Channel) : Z :=
  match c with CH1 => 0 | CH2 => 1 end.

Record ChannelOptions := {
  co_channel : Channel;
  co_on : bool;
  co_voltage : Voltage;
  co_coupling : Coupling
}.

Inductive Timebase :=
| msps100 | msps50 | msps32 | msps16 | msps8 | msps4 | mspsCopiedFromOwon
| msps2 | msps1 | ksps500 | ksps250 | ksps125 | ksps62.

Definition Timebase_code (t : Timebase) : Z :=
  match t with
  | msps100 => 0x1 | msps50 => 0x2 | msps32 => 0x3 | msps16 => 0x6
  | msps8 => 0x18 | msps4 => 0x30 | mspsCopiedFromOwon => 0x50
  | msps2 => 0x60 | msps1 => 0xc0 | ksps500 => 0x180 | ksps250 => 0x300
  | ksps125 => 0x600 | ksps62 => 0xc00
  end.

Inductive TriggerSource := TS_CH1 | TS_CH2 | TS_EXTERNAL.

Definition TriggerSource_code (s : TriggerSource) : Z :=
  match s with TS_CH1 => 0 | TS_CH2 => 1 | TS_EXTERNAL => 2 end.

Inductive TriggerType := EDGE | SLOPE | VIDEO | PULSE.

Definition TriggerType_code (t : TriggerType) : Z :=
  match t with EDGE => 0 | SLOPE => 1 | VIDEO => 2 | PULSE => 3 end.

Inductive TriggerMode := SINGLE | ALTERNATE.

Definition TriggerMode_code (m : TriggerMode) : Z :=
  match m with SINGLE => 0 | ALTERNATE => 1 end.

Inductive TriggerSlope := RISING | FALLING.

Definition TriggerSlope_code (s : TriggerSlope) : Z :=
  match s with RISING => 0 | FALLING => 1 end.

(** [holdoffSeconds] is carried by the options and read by nothing; the
    trigger level is an integer here. *)
Record EdgeTriggerOptions := {
  eo_source : TriggerSource;
  eo_mode : TriggerMode;
  eo_type : TriggerType;
  eo_slope : TriggerSlope;
  eo_triggerLevel : Z
}.

(** As declared: the field [type] holds a TriggerMode and the field
    [mode] a TriggerType. *)
Record TriggerOptions := {
  to_source : TriggerSource;
  to_type : TriggerMode;
  to_mode : TriggerType
}.

Module Address.
Definition CH1 := 0x111.
Definition CH2 := 0x110.
Definition CH1_VOLT_GAIN := 0x116.
Definition CH2_VOLT_GAIN := 0x114.
Definition CH1_ZERO_OFFSET := 0x10a.
Definition CH2_ZERO_OFFSET := 0x108.
Definition CH1_FREQUENCY_REFERENCE := 0x4a.
Definition CH2_FREQUENCY_REFERENCE := 0x4b.
Definition TIMEBASE := 0x52.
Definition PHASE_FINE := 0x18.
Definition TRIGGER := 0x24.
Definition TRIGGER_D := 0x1.
Definition CH1_TRIGGER_HOLDOFF_ARG := 0x26.
Definition CH1_TRIGGER_HOLDOFF_INDEX := 0x27.
Definition CH2_TRIGGER_HOLDOFF_ARG := 0x2a.
Definition CH2_TRIGGER_HOLDOFF_INDEX := 0x2b.
Definition EXT_TRIGGER_HOLDOFF_ARG := 0x26.
Definition EXT_TRIGGER_HOLDOFF_INDEX := 0x27.
Definition CH1_TRIGGER_EDGE_LEVEL := 0x2e.
Definition CH2_TRIGGER_EDGE_LEVEL := 0x30.
Definition EXT_TRIGGER_EDGE_LEVEL := 0x10c.
Definition PRE_TRIGGER := 0x5a.
Definition SUF_TRIGGER := 0x56.
Definition DEEP_MEMORY := 0x5c.
Definition SLOW_MOVE := 0xa.
Definition CHANNEL_ON := 0xb.
Definition SYNC_OUTPUT := 0x6.
Definition SAMPLE := 0x9.
Definition EMPTY := 0x10c.
Definition HAS_DATA := 0x1.
Definition DATA_FINISHED := 0x7a.
Definition GET_DATA := 0x1000.
Definition FPGA_UPLOAD_QUERY := 0x223.
Definition FPGA_UPLOAD := 0x4000.
End Address.

Definition TRIGGER_EDGE_LEVEL_ADDRESS (s : TriggerSource) : Z :=
  match s with
  | TS_CH1 => Address.CH1_TRIGGER_EDGE_LEVEL
  | TS_CH2 => Address.CH2_TRIGGER_EDGE_LEVEL
  | TS_EXTERNAL => Address.EXT_TRIGGER_EDGE_LEVEL
  end.

Definition CHANNEL_ADDRESS (c : Channel) : Z :=
  match c with CH1 => Address.CH1 | CH2 => Address.CH2 end.

Definition VOLT_GAIN_ADDRESS (c : Channel) : Z :=
  match c with CH1 => Address.CH1_VOLT_GAIN | CH2 => Address.CH2_VOLT_GAIN end.

Definition ZERO_OFFSET_ADDRESS (c : Channel) : Z :=
  match c with CH1 => Address.CH1_ZERO_OFFSET | CH2 => Address.CH2_ZERO_OFFSET end.

Inductive CalibrationField := GAIN | AMPLITUDE | COMPENSATION.

Definition CalibrationField_code (f : CalibrationField) : Z :=
  match f with GAIN => 0 | AMPLITUDE => 1 | COMPENSATION => 2 end.

Definition DEVICE_TYPE := 0x56.
Definition FLASH_HEADER := 0xaa55.
Definition CALIBRATION_INFO_COUNT := 3.
Definition CHANNEL_COUNT := 2.
Definition VOLTBASE_COUNT := 10.
Definition AFFIRMATIVE_RESPONSE := 0x53.
Definition FPGA_ACCEPTING_UPLOAD_RESPONSE := 0x44.

(* ================================================================== *)
(** ** The calibration table: a three-dimensional ndarray *)

Module ndarray.

(** [ndarray(data, [d0, d1, d2])]: a row-major view of a flat
    Uint16Array, offset 0. *)
Record t := {
  data : list Z;
  shape : Z * Z * Z;
  stride : Z * Z * Z
}.

Definition make (data : list Z) (shape : Z * Z * Z) : t :=
  let '(d0, d1, d2) := shape in
  {| data := data; shape := shape; stride := (d1 * d2, d2, 1) |}.

Definition index (a : t) (i j k : Z) : Z :=
  let '(s0, s1, s2) := stride a in s0 * i + s1 * j + s2 * k.

(** Reading outside the typed array gives [undefined], which every
    use below turns into 0. *)
Definition get (a : t) (i j k : Z) : Z :=
  let n := index a i j k in
  if 0 <=? n then default 0 (data a !! Z.to_nat n) else 0.

(** Writing stores the value as an unsigned 16-bit integer; a write
    outside the typed array is ignored. *)
Definition set (a : t) (i j k : Z) (v : Z) : t :=
  let n := index a i j k in
  if 0 <=? n
  then {| data := <[Z.to_nat n := v mod 0x10000]> (data a);
          shape := shape a; stride := stride a |}
  else a.

End ndarray.

(* ================================================================== *)
(** ** The USB device and the driver object *)

Inductive Direction := dir_in | dir_out.

Definition Direction_eqb (a b : Direction) : bool :=
  match a, b with
  | dir_in, dir_in | dir_out, dir_out => true
  | _, _ => false
  end.

Record USBEndpoint := {
  endpointNumber : Z;
  direction : Direction
}.

(** What is asked of the device, oldest first. *)
Inductive USBCall :=
| DeviceOpen
| SelectConfiguration (configurationValue : Z)
| ClaimInterface (interfaceNumber : Z)
| TransferOut (endpointNumber : Z) (data : list Z)
| TransferIn (endpointNumber : Z) (len : Z)
| DeviceClose.

(** [endpoints]: those of [configuration.interfaces[0].alternates[0]].
    [responses]: the data of the bulk-in transfers to come.
    [calls]: the log. *)
Record USBDevice := {
  endpoints : list USBEndpoint;
  responses : list (list Z);
  calls : list USBCall
}.

Record Owon := {
  device_ : USBDevice;
  inEndpoint_ : option USBEndpoint;
  outEndpoint_ : option USBEndpoint;
  calibrationData_ : ndarray.t;
  firmwareVersion_ : string;
  serialNumber_ : string
}.

Definition Promise (A : Type) : Type := Eff Owon A.

Definition set_device (d : USBDevice) (this : Owon) : Owon :=
  {| device_ := d;
     inEndpoint_ := inEndpoint_ this;
     outEndpoint_ := outEndpoint_ this;
     calibrationData_ := calibrationData_ this;
     firmwareVersion_ := firmwareVersion_ this;
     serialNumber_ := serialNumber_ this |}.

Definition set_endpoints (i o : option USBEndpoint) (this : Owon) : Owon :=
  {| device_ := device_ this;
     inEndpoint_ := i;
     outEndpoint_ := o;
     calibrationData_ := calibrationData_ this;
     firmwareVersion_ := firmwareVersion_ this;
     serialNumber_ := serialNumber_ this |}.

Definition set_calibrationData (c : ndarray.t) (this : Owon) : Owon :=
  {| device_ := device_ this;
     inEndpoint_ := inEndpoint_ this;
     outEndpoint_ := outEndpoint_ this;
     calibrationData_ := c;
     firmwareVersion_ := firmwareVersion_ this;
     serialNumber_ := serialNumber_ this |}.

Definition set_firmwareVersion (v : string) (this : Owon) : Owon :=
  {| device_ := device_ this;
     inEndpoint_ := inEndpoint_ this;
     outEndpoint_ := outEndpoint_ this;
     calibrationData_ := calibrationData_ this;
     firmwareVersion_ := v;
     serialNumber_ := serialNumber_ this |}.

Definition set_serialNumber (v : string) (this : Owon) : Owon :=
  {| device_ := device_ this;
     inEndpoint_ := inEndpoint_ this;
     outEndpoint_ := outEndpoint_ this;
     calibrationData_ := calibrationData_ this;
     firmwareVersion_ := firmwareVersion_ this;
     serialNumber_ := v |}.

(** The device after one more call, and after giving its next answer. *)
Definition logged (c : USBCall) (d : USBDevice) : USBDevice :=
  {| endpoints := endpoints d; responses := responses d; calls := calls d ++ [c] |}.

Definition answered (d : USBDevice) : USBDevice :=
  {| endpoints := endpoints d; responses := tail (responses d); calls := calls d |}.

Module USB.

Definition call (c : USBCall) : Promise unit :=
  modify (fun this => set_device (logged c (device_ this)) this).

(** [device.transferOut(endpointNumber, data)]. *)
Definition transferOut (endpointNumber : Z) (data : list Z) : Promise unit :=
  call (TransferOut endpointNumber data).

(** [device.transferIn(endpointNumber, length)], resolved with
    [response.data]: the device's next answer, at most [length] bytes
    of it; never resolved when the device has no answer left. *)
Definition transferIn (endpointNumber : Z) (len : Z) : Promise (list Z) :=
  fun this =>
    let d := logged (TransferIn endpointNumber len) (device_ this) in
    match responses d with
    | [] => (Pending, set_device d this)
    | r :: _ => (Ok (take (Z.to_nat len) r), set_device (answered d) this)
    end.

End USB.

(** [String.fromCharCode.apply(null, Array.from(bytes))]. *)
Definition fromCharCodes (bytes : list Z) : string :=
  fold_right (fun b s => String (ascii_of_N (Z.to_N b)) s) EmptyString bytes.

(** [new Owon(device)]. *)
Definition Owon_new (device : USBDevice) : Owon :=
  {| device_ := device;
     inEndpoint_ := None;
     outEndpoint_ := None;
     calibrationData_ :=
       ndarray.make (replicate 60 0) (CHANNEL_COUNT, CALIBRATION_INFO_COUNT, VOLTBASE_COUNT);
     firmwareVersion_ := EmptyString;
     serialNumber_ := EmptyString |}.

#[local] Open Scope eff_scope.

Definition transferOut (packedCommand : list Z) : Promise unit :=
  this <- get_state ;;
  match outEndpoint_ this with
  | None => throw MissingOutEndpoint
  | Some ep => USB.transferOut (endpointNumber ep) packedCommand
  end.

Definition transferIn (len : Z) : Promise (list Z) :=
  this <- get_state ;;
  match inEndpoint_ this with
  | None => throw MissingInEndpoint
  | Some ep => USB.transferIn (endpointNumber ep) len
  end.

Definition expectResponse (expected : Z) : Promise (list Z) :=
  data <- transferIn 5 ;;
  actual <- lift (DataView.getUint8 data 0) ;;
  if negb (actual =? expected) then throw (ResponseError expected actual)
  else ret data.

(** [this.transferOut(packCommand(address, data))]: the frame is built
    before the transfer is attempted. *)
Definition sendCommand (address : Z) (data : list Z) : Promise unit :=
  frame <- lift (packCommand address data) ;;
  transferOut frame.

Definition getDeviceType : Promise Z :=
  sendCommand 0x4001 (TypedArray.Uint8Array_from [0x56]) ;;;
  receivedData <- transferIn 5 ;;
  lift (DataView.getUint8 receivedData 0).

Definition open : Promise unit :=
  USB.call DeviceOpen ;;;
  USB.call (SelectConfiguration 1) ;;;
  USB.call (ClaimInterface 0) ;;;
  modify (fun this =>
    let eps := endpoints (device_ this) in
    set_endpoints
      (head (filter (fun endpoint => Direction_eqb (direction endpoint) dir_in = true) eps))
      (head (filter (fun endpoint => Direction_eqb (direction endpoint) dir_out = true) eps))
      this) ;;;
  deviceType <- getDeviceType ;;
  if negb (deviceType =? DEVICE_TYPE) then throw (DeviceTypeError deviceType)
  else ret tt.

Definition close : Promise unit := USB.call DeviceClose.

(** The three nested loops of [readFlash], innermost first; each
    threads [bufferOffset]. *)
Definition readVoltbases (receivedData : list Z)
    (calibrationInfoIndex channelIndex bufferOffset : Z) : Promise Z :=
  for_ (Z.to_nat VOLTBASE_COUNT) 0 (fun voltbaseIndex bufferOffset =>
    value <- lift (DataView.getUint16 receivedData bufferOffset true) ;;
    modify (fun this =>
      set_calibrationData
        (ndarray.set (calibrationData_ this)
           channelIndex calibrationInfoIndex voltbaseIndex value)
        this) ;;;
    ret (bufferOffset + 2))
  bufferOffset.

Definition readChannels (receivedData : list Z)
    (calibrationInfoIndex bufferOffset : Z) : Promise Z :=
  for_ (Z.to_nat CHANNEL_COUNT) 0 (fun channelIndex bufferOffset =>
    readVoltbases receivedData calibrationInfoIndex channelIndex bufferOffset)
  bufferOffset.

Definition readCalibrationInfos (receivedData : list Z) (bufferOffset : Z) : Promise Z :=
  for_ (Z.to_nat CALIBRATION_INFO_COUNT) 0 (fun calibrationInfoIndex bufferOffset =>
    readChannels receivedData calibrationInfoIndex bufferOffset)
  bufferOffset.

(** [readFlash()].  The CRC of the dump is computed and logged only;
    nothing depends on it. *)
Definition readFlash : Promise (list Z) :=
  sendCommand 0x01b0 (TypedArray.Uint8Array_from [0x1]) ;;;
  receivedData <- transferIn 2002 ;;
  header <- lift (DataView.getUint16 receivedData 0 false) ;;
  if negb (header =? FLASH_HEADER) then throw (FlashHeaderError header) else
  version <- lift (DataView.getUint32 receivedData 2 true) ;;
  if negb (version =? 2) then throw (FlashVersionError version) else
  let bufferOffset := 6 in
  bufferOffset <- readCalibrationInfos receivedData bufferOffset ;;
  firmwareVersion <- lift (TypedArray.view receivedData 207 4) ;;
  modify (set_firmwareVersion (fromCharCodes firmwareVersion)) ;;;
  serialNumber <- lift (TypedArray.view receivedData 212 15) ;;
  modify (set_serialNumber (fromCharCodes serialNumber)) ;;;
  ret receivedData.

(** The inner loop of [uploadFpgaBitstream]: the frame buffer goes out
    in transfers of at most 64 bytes.  The loop variable is
    [chunkOffset]. *)
Definition transferChunk (mcuBuffer : list Z) (transmitBufferSize chunkOffset : Z)
  : Promise Z :=
  let chunkBufferSize := Z.min 64 (transmitBufferSize - chunkOffset) in
  chunk <- lift (TypedArray.view mcuBuffer chunkOffset chunkBufferSize) ;;
  transferOut chunk ;;;
  ret (chunkOffset + 64).

Definition transferChunks (fuel : nat) (mcuBuffer : list Z) (transmitBufferSize : Z)
  : Promise Z :=
  while_ fuel
    (fun chunkOffset => chunkOffset <? transmitBufferSize)
    (transferChunk mcuBuffer transmitBufferSize)
    0.

(** One turn of the frame loop of [uploadFpgaBitstream]; the loop
    variables are [(i, mcuFrameIndex)]. *)
Definition uploadFrameStep (fuel : nat) (fpgaFirmware : list Z) (mcuDataSize : Z)
    (v : Z * Z) : Promise (Z * Z) :=
  let '(i, mcuFrameIndex) := v in
  let transmitDataSize := Z.min mcuDataSize (DataView.byteLength fpgaFirmware - i) in
  let transmitBufferSize := transmitDataSize + 4 in
  mcuBuffer <- lift (TypedArray.alloc 0 transmitBufferSize) ;;
  mcuBuffer <- lift (DataView.setUint32 mcuBuffer 0 mcuFrameIndex true) ;;
  firmwareSlice <- lift (TypedArray.view fpgaFirmware i transmitDataSize) ;;
  mcuBuffer <- lift (TypedArray.set mcuBuffer firmwareSlice 4) ;;
  transferChunks fuel mcuBuffer transmitBufferSize ;;;
  expectResponse AFFIRMATIVE_RESPONSE ;;;
  ret (i + mcuDataSize, mcuFrameIndex + 1).

Definition uploadFrames (fuel : nat) (fpgaFirmware : list Z) (mcuDataSize : Z)
    (v : Z * Z) : Promise (Z * Z) :=
  while_ fuel
    (fun v => fst v <? DataView.byteLength fpgaFirmware)
    (uploadFrameStep fuel fpgaFirmware mcuDataSize)
    v.

(** [uploadFpgaBitstream()], for [fpgaFirmware] the bytes read from the
    firmware URL. *)
Definition uploadFpgaBitstream (fuel : nat) (fpgaFirmware : list Z) : Promise unit :=
  firmwareSizeBuffer <- lift (TypedArray.alloc 0 4) ;;
  firmwareSizeBuffer <-
    lift (DataView.setUint32 firmwareSizeBuffer 0 (DataView.byteLength fpgaFirmware) true) ;;
  sendCommand Address.FPGA_UPLOAD firmwareSizeBuffer ;;;
  uploadResponseData <- expectResponse FPGA_ACCEPTING_UPLOAD_RESPONSE ;;
  mcuBufferSize <- lift (DataView.getUint32 uploadResponseData 1 true) ;;
  let mcuDataSize := mcuBufferSize - 4 in
  uploadFrames fuel fpgaFirmware mcuDataSize (0, 0) ;;;
  ret tt.

Definition configurePhaseFine : Promise unit :=
  sendCommand Address.PHASE_FINE (TypedArray.Uint8Array_from [0x00; 0x00]) ;;;
  expectResponse AFFIRMATIVE_RESPONSE ;;;
  ret tt.

Definition configureChannel (options : ChannelOptions) : Promise unit :=
  let channelBitField := 0 in
  let channelBitField :=
    if co_on options then Z.lor channelBitField 0x80 else channelBitField in
  let channelBitField :=
    Z.lor channelBitField (Z.shiftl (Coupling_code (co_coupling options)) 5) in
  let channelBitField := Z.lor channelBitField 0x2 in
  sendCommand (CHANNEL_ADDRESS (co_channel options))
              (TypedArray.Uint8Array_from [channelBitField]) ;;;
  expectResponse AFFIRMATIVE_RESPONSE ;;;
  this <- get_state ;;
  let voltGain :=
    ndarray.get (calibrationData_ this)
      (Channel_code (co_channel options))
      (CalibrationField_code GAIN)
      (Voltage_code (co_voltage options)) in
  voltGainBuffer <- lift (TypedArray.alloc 0 2) ;;
  voltGainBuffer <- lift (DataView.setUint16 voltGainBuffer 0 voltGain true) ;;
  sendCommand (VOLT_GAIN_ADDRESS (co_channel options)) voltGainBuffer ;;;
  expectResponse AFFIRMATIVE_RESPONSE ;;;
  this <- get_state ;;
  let compensation :=
    ndarray.get (calibrationData_ this)
      (Channel_code (co_channel options))
      (CalibrationField_code COMPENSATION)
      (Voltage_code (co_voltage options)) in
  let amplitude :=
    ndarray.get (calibrationData_ this)
      (Channel_code (co_channel options))
      (CalibrationField_code AMPLITUDE)
      (Voltage_code (co_voltage options)) in
  let zeroOffset := compensation - amplitude / 100 in
  zeroOffsetBuffer <- lift (TypedArray.alloc 0 2) ;;
  zeroOffsetBuffer <- lift (DataView.setUint16 zeroOffsetBuffer 0 zeroOffset true) ;;
  sendCommand (ZERO_OFFSET_ADDRESS (co_channel options)) zeroOffsetBuffer ;;;
  expectResponse AFFIRMATIVE_RESPONSE ;;;
  ret tt.

Definition configureTimebase (timebase : Timebase) : Promise unit :=
  timebaseBuffer <- lift (TypedArray.alloc 0 4) ;;
  timebaseBuffer <- lift (DataView.setUint32 timebaseBuffer 0 (Timebase_code timebase) true) ;;
  sendCommand Address.TIMEBASE timebaseBuffer ;;;
  expectResponse AFFIRMATIVE_RESPONSE ;;;
  ret tt.

Definition configureTrigger (options : TriggerOptions) : Promise unit :=
  let triggerBitField := 0 in
  let triggerBitField :=
    Z.lor triggerBitField (Z.shiftl (TriggerMode_code (to_type options)) 8) in
  ret tt.

(** The edge levels [(upperBound, lowerBound)] of [configureEdgeTrigger],
    as they stand when the Int8Array is built from them. *)
Definition edgeLevels (options : EdgeTriggerOptions) : Z * Z :=
  let upperBound :=
    match eo_slope options with
    | RISING => eo_triggerLevel options
    | FALLING => eo_triggerLevel options + 10
    end in
  let lowerBound :=
    match eo_slope options with
    | RISING => eo_triggerLevel options - 10
    | FALLING => eo_triggerLevel options
    end in
  let '(upperBound, lowerBound) :=
    if 128 <? upperBound then (128, 128 - 10) else (upperBound, lowerBound) in
  let '(upperBound, lowerBound) :=
    if lowerBound <? -128 then (-128 + 10, -128) else (upperBound, lowerBound) in
  (upperBound, lowerBound).

(** The trigger-type word [triggerTypeBitField] of
    [configureEdgeTrigger], as it stands when it is stored. *)
Definition triggerTypeWord (options : EdgeTriggerOptions) : Z :=
  let type := TriggerType_code (eo_type options) in
  let source := TriggerSource_code (eo_source options) in
  let slope := TriggerSlope_code (eo_slope options) in
  let triggerTypeBitField := 0 in
  let triggerTypeBitField :=
    match eo_mode options with
    | SINGLE =>
        let b := Z.lor triggerTypeBitField (Z.shiftl (Z.land type 0x1) 8) in
        let b := Z.lor b (Z.shiftl (Z.land (Z.shiftr type 1) 0x1) 14) in
        match eo_source options with
        | TS_EXTERNAL => Z.lor b 0x1
        | _ => Z.lor b (Z.shiftl (Z.land source 0x1) 13)
        end
    | ALTERNATE =>
        let b := Z.lor triggerTypeBitField (Z.shiftl 1 15) in
        let b := Z.lor b (Z.shiftl (Z.land type 0x1) 13) in
        let b := Z.lor b (Z.shiftl (Z.land (Z.shiftr type 1) 0x1) 8) in
        Z.lor b (Z.shiftl (Z.land source 0x1) 14)
    end in
  let sweep := 0 in
  let triggerTypeBitField :=
    Z.lor triggerTypeBitField (Z.shiftl (Z.land slope 0x1) 12) in
  match eo_mode options with
  | SINGLE =>
      let b := Z.lor triggerTypeBitField (Z.shiftl (Z.land sweep 0x1) 10) in
      Z.lor b (Z.shiftl (Z.land (Z.shiftr sweep 1) 0x1) 11)
  | ALTERNATE => triggerTypeBitField
  end.

Definition configureEdgeTrigger (options : EdgeTriggerOptions) : Promise unit :=
  (* Edge level *)
  let '(upperBound, lowerBound) := edgeLevels options in
  sendCommand (TRIGGER_EDGE_LEVEL_ADDRESS (eo_source options))
              (TypedArray.Int8Array_from [upperBound; lowerBound]) ;;;
  expectResponse AFFIRMATIVE_RESPONSE ;;;
  (* Trigger type *)
  let triggerTypeBitField := triggerTypeWord options in
  triggerTypeBuffer <- lift (TypedArray.alloc 0 2) ;;
  triggerTypeBuffer <- lift (DataView.setUint16 triggerTypeBuffer 0 triggerTypeBitField true) ;;
  sendCommand Address.TRIGGER triggerTypeBuffer ;;;
  expectResponse AFFIRMATIVE_RESPONSE ;;;
  ret tt.

Definition turnOnChannel1 : Promise unit :=
  sendCommand Address.CHANNEL_ON (TypedArray.Uint8Array_from [0x1]) ;;;
  expectResponse AFFIRMATIVE_RESPONSE ;;;
  ret tt.

Definition getData : Promise unit :=
  sendCommand Address.GET_DATA (TypedArray.Uint8Array_from [0x05; 0x05]) ;;;
  receivedData <- transferIn 5211 ;;
  channel <- lift (DataView.getUint8 receivedData 0) ;;
  ret tt.

(** One turn of the loop of [sampleInfinitely]. *)
Definition sampleCycle (gotData : list Z -> Outcome unit) : Promise unit :=
  sendCommand Address.TRIGGER_D (TypedArray.Uint8Array_from [0x00]) ;;;
  expectResponse AFFIRMATIVE_RESPONSE ;;;
  sendCommand Address.DATA_FINISHED (TypedArray.Uint8Array_from [0x00]) ;;;
  expectResponse AFFIRMATIVE_RESPONSE ;;;
  sendCommand 4096 (TypedArray.Uint8Array_from [0x05; 0x04]) ;;;
  receivedData <- transferIn 5211 ;;
  lift (gotData receivedData).

(** The writes of [sampleInfinitely] before its loop. *)
Definition sampleSetup : Promise unit :=
  sendCommand Address.CH1_TRIGGER_HOLDOFF_ARG (TypedArray.Uint8Array_from [0x00]) ;;;
  expectResponse AFFIRMATIVE_RESPONSE ;;;
  sendCommand Address.CH1_TRIGGER_HOLDOFF_INDEX (TypedArray.Uint8Array_from [0x42]) ;;;
  expectResponse AFFIRMATIVE_RESPONSE ;;;
  sendCommand Address.DEEP_MEMORY (TypedArray.Uint8Array_from [0xec; 0x13]) ;;;
  expectResponse AFFIRMATIVE_RESPONSE ;;;
  sendCommand Address.SYNC_OUTPUT (TypedArray.Uint8Array_from [0x00]) ;;;
  expectResponse AFFIRMATIVE_RESPONSE ;;;
  sendCommand Address.SAMPLE (TypedArray.Uint8Array_from [0x00]) ;;;
  expectResponse AFFIRMATIVE_RESPONSE ;;;
  sendCommand Address.PRE_TRIGGER (TypedArray.Uint8Array_from [0xf1; 0x09]) ;;;
  expectResponse AFFIRMATIVE_RESPONSE ;;;
  sendCommand Address.SUF_TRIGGER (TypedArray.Uint8Array_from [0xfb; 0x09; 0x00; 0x00]) ;;;
  expectResponse AFFIRMATIVE_RESPONSE ;;;
  sendCommand Address.EMPTY (TypedArray.Uint8Array_from [0x1]) ;;;
  expectResponse AFFIRMATIVE_RESPONSE ;;;
  ret tt.

(** [sampleInfinitely(gotData)]: [gotData] is the caller's callback, run
    synchronously on each frame; what it returns is only logged. *)
Definition sampleInfinitely (gotData : list Z -> Outcome unit) : Promise unit :=
  sampleSetup ;;;
  for_ (Z.to_nat 5000) 0 (fun i (_ : unit) => sampleCycle gotData) tt.

(* ================================================================== *)
(** ** The sample decoder of the waveform view *)

Module HelloWorld.

(** An integer as a double (exact in the range of the decoder). *)
Definition float_of_Z (z : Z) : float :=
  if z <? 0 then PrimFloat.opp (PrimFloat.of_uint63 (Uint63.of_Z (- z)))
  else PrimFloat.of_uint63 (Uint63.of_Z z).

(** The conversion of a store into a Float32Array: the double rounded
    to the nearest single-precision value, ties to even. *)
Definition fround (x : float) : float :=
  match Prim2SF x with
  | S754_finite s m e => SF2Prim (binary_round 24 128 s m e)
  | _ => x
  end.

(** The loop of [gotData]: the loop variables are
    [(byteIndex, timeIndex)], the state is [floatData]; a store outside
    the Float32Array is ignored. *)
Definition decodeLoop (fuel : nat) (dataView : list Z) (v : Z * Z)
  : Eff (list float) (Z * Z) :=
  let multiplier := PrimFloat.div 1%float 3096.0%float in
  while_ fuel
    (fun '(byteIndex, timeIndex) => byteIndex <? DataView.byteLength dataView)
    (fun '(byteIndex, timeIndex) =>
       raw <- lift (DataView.getInt16 dataView byteIndex true) ;;
       let value := PrimFloat.mul (float_of_Z raw) multiplier in
       modify (fun floatData : list float =>
                 <[Z.to_nat timeIndex := fround value]> floatData) ;;;
       ret (byteIndex + 4, timeIndex + 1))
    v.

(** [gotData(dataView)], resolved with the [floatData] handed to the
    chart line. *)
Definition gotData (fuel : nat) (dataView : list Z) : Outcome (list float) :=
  (channel <~ DataView.getUint8 dataView 0 ;;
   floatData <~ TypedArray.alloc 0%float 1275 ;;
   let '(completion, floatData) :=
     try_catch
       (decodeLoop fuel dataView (11 + 100, 0) ;;; ret tt)
       (fun error => ret tt)
       floatData in
   _ <~ completion ;;
   Ok floatData)%outcome.

(** The callback [data => this.gotData(data)] given to
    [sampleInfinitely]: [gotData] is [async], so the call itself
    returns a promise and never throws. *)
Definition callback (data : list Z) : Outcome unit := Ok tt.

(** [connect()], from [new Owon(device)] on: [device] is the device
    picked (the first paired one, or the one the user selects) and
    [fpgaFirmware] the image the upload fetches.  The statements follow
    each other with no [try] around them; [close] is the last one. *)
Definition connect (fuel : nat) (device : USBDevice) (fpgaFirmware : list Z)
  : Outcome unit * Owon :=
  (open ;;;
   readFlash ;;;
   uploadFpgaBitstream fuel fpgaFirmware ;;;
   configurePhaseFine ;;;
   configureEdgeTrigger
     {| eo_source := TS_CH1; eo_type := EDGE; eo_mode := SINGLE;
        eo_slope := RISING; eo_triggerLevel := 36 |} ;;;
   configureTimebase mspsCopiedFromOwon ;;;
   configureChannel
     {| co_channel := CH1; co_on := true; co_voltage := V2; co_coupling := DC |} ;;;
   turnOnChannel1 ;;;
   sampleInfinitely callback ;;;
   close ;;;
   ret tt)
    (Owon_new device).

End HelloWorld.

(* ================================================================== *)
(** ** Vocabulary of the statements *)

(** A driver object whose endpoints are known, as [open] leaves it:
    [rs] are the answers the device still has to give, [cs] the calls
    made so far. *)
Definition session (eps : list USBEndpoint) (ei eo : USBEndpoint)
    (cal : ndarray.t) (fv sn : string)
    (rs : list (list Z)) (cs : list USBCall) : Owon :=
  {| device_ := {| endpoints := eps; responses := rs; calls := cs |};
     inEndpoint_ := Some ei;
     outEndpoint_ := Some eo;
     calibrationData_ := cal;
     firmwareVersion_ := fv;
     serialNumber_ := sn |}.

(** The calls of one command: the frame written, then the status read. *)
Definition commandCalls (ei eo : USBEndpoint) (address : Z) (data : list Z)
  : list USBCall :=
  [TransferOut (endpointNumber eo) (frameOf address data);
   TransferIn (endpointNumber ei) 5].

(** The trigger-type word as the specification words it, bit by bit:
    in SINGLE mode bit 8 = type & 1, bit 14 = (type >> 1) & 1, bit 0 set
    for the external source and bit 13 = source & 1 otherwise; in
    ALTERNATE mode bit 15 set, bit 13 = type & 1, bit 8 = (type >> 1) & 1,
    bit 14 = source & 1; in both bit 12 = slope & 1; nothing else. *)
Definition triggerTypeBit_spec (options : EdgeTriggerOptions) (n : Z) : bool :=
  let type := TriggerType_code (eo_type options) in
  let source := TriggerSource_code (eo_source options) in
  let slope := TriggerSlope_code (eo_slope options) in
  match eo_mode options with
  | SINGLE =>
      (n =? 8) && Z.testbit type 0
      || (n =? 14) && Z.testbit type 1
      || match eo_source options with
         | TS_EXTERNAL => n =? 0
         | _ => (n =? 13) && Z.testbit source 0
         end
      || (n =? 12) && Z.testbit slope 0
  | ALTERNATE =>
      (n =? 15)
      || (n =? 13) && Z.testbit type 0
      || (n =? 8) && Z.testbit type 1
      || (n =? 14) && Z.testbit source 0
      || (n =? 12) && Z.testbit slope 0
  end.

(** A device with one bulk endpoint each way, and the five-byte answer
    that acknowledges a command. *)
Definition bulkIn : USBEndpoint := {| endpointNumber := 1; direction := dir_in |}.
Definition bulkOut : USBEndpoint := {| endpointNumber := 3; direction := dir_out |}.
Definition ack : list Z := [AFFIRMATIVE_RESPONSE; 0; 0; 0; 0].

(** The calibration table of a freshly constructed driver object. *)
Definition blankCalibration : ndarray.t :=
  ndarray.make (replicate 60 0) (CHANNEL_COUNT, CALIBRATION_INFO_COUNT, VOLTBASE_COUNT).

(** The channel bit field of [configureChannel], as it stands when it is
    written. *)
Definition channelBitFieldOf (options : ChannelOptions) : Z :=
  Z.lor (Z.lor (if co_on options then Z.lor 0 0x80 else 0)
               (Z.shiftl (Coupling_code (co_coupling options)) 5))
        0x2.

(** The calls of the arm sequence of [sampleInfinitely] when each of
    its eight commands is acknowledged. *)
Definition setupCalls (ei eo : USBEndpoint) : list USBCall :=
  commandCalls ei eo Address.CH1_TRIGGER_HOLDOFF_ARG (TypedArray.Uint8Array_from [0x00])
  ++ commandCalls ei eo Address.CH1_TRIGGER_HOLDOFF_INDEX (TypedArray.Uint8Array_from [0x42])
  ++ commandCalls ei eo Address.DEEP_MEMORY (TypedArray.Uint8Array_from [0xec; 0x13])
  ++ commandCalls ei eo Address.SYNC_OUTPUT (TypedArray.Uint8Array_from [0x00])
  ++ commandCalls ei eo Address.SAMPLE (TypedArray.Uint8Array_from [0x00])
  ++ commandCalls ei eo Address.PRE_TRIGGER (TypedArray.Uint8Array_from [0xf1; 0x09])
  ++ commandCalls ei eo Address.SUF_TRIGGER
       (TypedArray.Uint8Array_from [0xfb; 0x09; 0x00; 0x00])
  ++ commandCalls ei eo Address.EMPTY (TypedArray.Uint8Array_from [0x1]).

(** The calls of one acquisition cycle that runs to its end: two
    acknowledged resets, the data request, the read of the frame. *)
Definition cycleCalls (ei eo : USBEndpoint) : list USBCall :=
  commandCalls ei eo Address.TRIGGER_D (TypedArray.Uint8Array_from [0x00])
  ++ commandCalls ei eo Address.DATA_FINISHED (TypedArray.Uint8Array_from [0x00])
  ++ [TransferOut (endpointNumber eo) [0x00; 0x10; 0x00; 0x00; 0x02; 0x05; 0x04];
      TransferIn (endpointNumber ei) 5211].

(** What the device answers in one such cycle: two acknowledgements
    (status byte, then the rest) and a sample frame. *)
Definition cycleResponses (c : list Z * list Z * list Z) : list (list Z) :=
  let '(r1, r2, frame) := c in
  [AFFIRMATIVE_RESPONSE :: r1; AFFIRMATIVE_RESPONSE :: r2; frame].

(** The number of data requests (writes to register 0x1000) in a log. *)
Definition isDataRequest (c : USBCall) : bool :=
  match c with
  | TransferOut _ (0x00 :: 0x10 :: 0x00 :: 0x00 :: _) => true
  | _ => false
  end.

Definition dataRequests (cs : list USBCall) : nat :=
  length (List.filter isDataRequest cs).

(** The little-endian 16-bit value at an offset of a buffer. *)
Definition u16le (buf : list Z) (byteOffset : Z) : Z :=
  Z.lor (DataView.byteAt buf byteOffset)
        (Z.shiftl (DataView.byteAt buf (byteOffset + 1)) 8).

(** The flash dump as the specification lays it out: 60 little-endian
    16-bit values from offset 6 on, nested field (outermost), channel,
    voltage range (innermost). *)
Definition flashCell (dump : list Z) (field channel range : Z) : Z :=
  u16le dump (6 + 2 * (20 * field + 10 * channel + range)).

Definition zrange (n : nat) : list Z := map Z.of_nat (seq 0 n).

(** The table filled from the dump in that nesting order. *)
Definition loadRow (dump : list Z) (field channel : Z) (cal : ndarray.t) : ndarray.t :=
  fold_left (fun c range => ndarray.set c channel field range (flashCell dump field channel range))
            (zrange 10) cal.

Definition loadField (dump : list Z) (field : Z) (cal : ndarray.t) : ndarray.t :=
  fold_left (fun c channel => loadRow dump field channel c) (zrange 2) cal.

Definition loadTable (dump : list Z) (cal : ndarray.t) : ndarray.t :=
  fold_left (fun c field => loadField dump field c) (zrange 3) cal.

(** Frame [j] of a firmware upload with [D] data bytes per frame: the
    frame index as 32 bits little-endian, then the bytes [j * D] to
    [j * D + D - 1] of the image (fewer in the last frame). *)
Definition uploadFrame (fpgaFirmware : list Z) (D : Z) (j : nat) : list Z :=
  DataView.le32 (Z.of_nat j)
    ++ map TypedArray.toUint8
         (take (Z.to_nat D) (drop (Z.to_nat (Z.of_nat j * D)) fpgaFirmware)).

(** A frame cut in the pieces of at most 64 bytes that are handed to the
    transport. *)
Definition subChunks (frame : list Z) : list (list Z) :=
  map (fun c => take 64 (drop (64 * c) frame))
      (seq 0 (Nat.div (length frame + 63) 64)).

(** The calls of one frame: its pieces written, then one status read. *)
Definition frameCalls (ei eo : USBEndpoint) (frame : list Z) : list USBCall :=
  map (TransferOut (endpointNumber eo)) (subChunks frame)
    ++ [TransferIn (endpointNumber ei) 5].

(** The number of frames of an image of [len] bytes: [len / D], rounded
    up. *)
Definition frameCount (len D : Z) : nat := Z.to_nat ((len + D - 1) / D).

(** The little-endian signed 16-bit value at an offset of a buffer, and
    the sample the decoder makes of it: the value times 1/3096, as a
    single-precision number. *)
Definition i16le (buf : list Z) (byteOffset : Z) : Z :=
  let u := u16le buf byteOffset in
  if 0x8000 <=? u then u - 0x10000 else u.

Definition sampleOf (raw : Z) : float :=
  HelloWorld.fround
    (PrimFloat.mul (HelloWorld.float_of_Z raw) (PrimFloat.div 1%float 3096.0%float)).

(** Sample [k] lies whole inside the buffer. *)
Definition sampleInside (dataView : list Z) (k : nat) : bool :=
  111 + 4 * Z.of_nat k + 2 <=? DataView.byteLength dataView.

(** A 5211-byte frame of zeros but for the 16-bit value 3096 at
    offset 111. *)
Definition unitFrame : list Z :=
  replicate 111 0 ++ [0x18; 0x0c] ++ replicate (Z.to_nat 5098) 0.

(** [m] writes at most [k] data requests, whatever the driver object it
    starts from and however it ends. *)
Definition requestsAtMost {A : Type} (k : nat) (m : Promise A) : Prop :=
  forall this : Owon,
    (dataRequests (calls (device_ (snd (m this))))
     <= dataRequests (calls (device_ this)) + k)%nat.

(** A bulk transfer, in either direction; and the call that closes the
    device. *)
Definition isTransfer (c : USBCall) : bool :=
  match c with
  | TransferOut _ _ | TransferIn _ _ => true
  | _ => false
  end.

Definition isClose (c : USBCall) : bool :=
  match c with
  | DeviceClose => true
  | _ => false
  end.

Definition notClose (c : USBCall) : bool := negb (isClose c).

(** [this'] is [this] after more calls to the device, each of them
    satisfying [P]: the log is extended, never rewritten. *)
Definition appended (P : USBCall -> bool) (this this' : Owon) : Prop :=
  exists new : list USBCall,
    calls (device_ this') = calls (device_ this) ++ new
    /\ forallb P new = true.

(** The fields of the driver object and the endpoints of its device are
    those of [this]. *)
Definition sameFields (this this' : Owon) : Prop :=
  inEndpoint_ this' = inEndpoint_ this
  /\ outEndpoint_ this' = outEndpoint_ this
  /\ calibrationData_ this' = calibrationData_ this
  /\ firmwareVersion_ this' = firmwareVersion_ this
  /\ serialNumber_ this' = serialNumber_ this
  /\ endpoints (device_ this') = endpoints (device_ this).

Definition transfersOnly (this this' : Owon) : Prop :=
  sameFields this this' /\ appended isTransfer this this'.

(** [m] relates by [R] the driver object it starts from and the one it
    leaves, however it ends. *)
Definition keeps {A : Type} (R : Owon -> Owon -> Prop) (m : Promise A) : Prop :=
  forall this : Owon, R this (snd (m this)).

(** A run [r] of the page's handler from [this] closed the device, as
    its last call, if it completed, and not at all otherwise. *)
Definition closedIffCompleted (this : Owon) (r : Outcome unit * Owon) : Prop :=
  exists new : list USBCall,
    calls (device_ (snd r)) = calls (device_ this) ++ new
    /\ match fst r with
       | Ok _ =>
           exists before : list USBCall,
             new = before ++ [DeviceClose] /\ forallb notClose before = true
       | _ => forallb notClose new = true
       end.

(** The calls of [open] and of [readFlash] on a device that answers. *)
Definition openCalls (ei eo : USBEndpoint) : list USBCall :=
  [DeviceOpen; SelectConfiguration 1; ClaimInterface 0;
   TransferOut (endpointNumber eo) [0x01; 0x40; 0; 0; 1; 0x56];
   TransferIn (endpointNumber ei) 5].

Definition flashCalls (ei eo : USBEndpoint) : list USBCall :=
  [TransferOut (endpointNumber eo) [0xb0; 0x01; 0; 0; 1; 0x01];
   TransferIn (endpointNumber ei) 2002].

(* ================================================================== *)
(** * Properties *)

(** ** Running the monad *)

Section Running.
Context {St : Type}.

Lemma bind_run {A B : Type} (m : Eff St A) (k : A -> Eff St B) (s : St) :
  bind m k s =
  match m s with
  | (Ok a, s') => k a s'
  | (Throw e, s') => (Throw e, s')
  | (Pending, s') => (Pending, s')
  | (OutOfFuel, s') => (OutOfFuel, s')
  end.
Proof. reflexivity. Qed.

Lemma bind_lift_ok {A B : Type} (r : Outcome A) (a : A) (k : A -> Eff St B) (s : St) :
  r = Ok a -> bind (lift r) k s = k a s.
Proof. intros ->. reflexivity. Qed.

End Running.

(** ** Bytes and buffers *)

Lemma byteOf_0 (v : Z) : DataView.byteOf v 0 = v mod 256.
Proof.
  unfold DataView.byteOf. rewrite Z.shiftr_0_r.
  change 0xff with (Z.ones 8). now rewrite Z.land_ones by lia.
Qed.

Lemma byteOf_div (v k : Z) :
  0 <= k -> DataView.byteOf v k = (v / 2 ^ (8 * k)) mod 256.
Proof.
  intros Hk. unfold DataView.byteOf.
  rewrite Z.shiftr_div_pow2 by lia.
  change 0xff with (Z.ones 8). now rewrite Z.land_ones by lia.
Qed.

Lemma store_app (bytes pre mid post : list Z) :
  length mid = length bytes ->
  DataView.store (pre ++ mid ++ post) (length pre) bytes = pre ++ bytes ++ post.
Proof.
  revert pre mid. induction bytes as [|b bytes IH]; intros pre mid Hlen.
  - destruct mid; [reflexivity | discriminate].
  - destruct mid as [|m mid]; [discriminate|]. simpl in Hlen.
    cbn [DataView.store].
    replace (<[length pre := b]> (pre ++ (m :: mid) ++ post))
      with ((pre ++ [b]) ++ mid ++ post).
    + replace (Datatypes.S (length pre)) with (length (pre ++ [b]))
        by (rewrite length_app; simpl; lia).
      rewrite IH by lia. now rewrite <- app_assoc.
    + rewrite insert_app_r_alt by lia.
      rewrite Nat.sub_diag. simpl. now rewrite <- app_assoc.
Qed.

Lemma store_at_0 (bytes mid post : list Z) :
  length mid = length bytes ->
  DataView.store (mid ++ post) 0 bytes = bytes ++ post.
Proof. intros H. exact (store_app bytes [] mid post H). Qed.

Lemma alloc_ok {A : Type} (zero : A) (n : Z) :
  0 <= n -> TypedArray.alloc zero n = Ok (replicate (Z.to_nat n) zero).
Proof.
  intros H. unfold TypedArray.alloc.
  destruct (Z.ltb_spec n 0); [lia | reflexivity].
Qed.

Lemma getUint8_head (b : Z) (l : list Z) : DataView.getUint8 (b :: l) 0 = Ok b.
Proof.
  unfold DataView.getUint8, DataView.in_bounds, DataView.byteLength.
  destruct (Z.leb_spec (0 + 1) (Z.of_nat (length (b :: l)))); [reflexivity|].
  simpl length in *. lia.
Qed.

Lemma setUint16_alloc (v : Z) :
  DataView.setUint16 (replicate 2 0) 0 v true = Ok (DataView.le16 v).
Proof. reflexivity. Qed.

Lemma setUint32_alloc (v : Z) :
  DataView.setUint32 (replicate 4 0) 0 v true = Ok (DataView.le32 v).
Proof. reflexivity. Qed.

(** ** Command framing *)

Lemma packCommand_frameOf (address : Z) (data : list Z) :
  packCommand address data = Ok (frameOf address data).
Proof.
  unfold packCommand, frameOf. set (n := length data).
  assert (Hn : DataView.byteLength data = Z.of_nat n) by reflexivity.
  rewrite Hn, alloc_ok by lia. cbn [obind].
  replace (Z.to_nat (4 + 1 + Z.of_nat n)) with (4 + (1 + n))%nat by lia.
  rewrite !replicate_add.
  unfold DataView.setUint32, DataView.in_bounds, DataView.byteLength.
  rewrite !length_app, !length_replicate.
  destruct (Z.leb_spec (0 + 4) (Z.of_nat (4 + (1 + n)))); [|lia].
  cbn [andb Z.leb Z.compare obind].
  rewrite (store_at_0 (DataView.le32 address) (replicate 4 0)) by reflexivity.
  unfold DataView.setUint8, DataView.in_bounds, DataView.byteLength.
  rewrite !length_app, !length_replicate.
  destruct (Z.leb_spec (4 + 1) (Z.of_nat (length (DataView.le32 address) + (1 + n))));
    [|simpl length in *; lia].
  cbn [andb Z.leb Z.compare obind].
  change (Z.to_nat 4) with (length (DataView.le32 address)).
  rewrite (store_app [DataView.byteOf (Z.of_nat n) 0] (DataView.le32 address)
             (replicate 1 0) (replicate n 0)) by reflexivity.
  unfold TypedArray.set, DataView.byteLength.
  rewrite !length_app, !length_replicate. fold n.
  destruct (Z.leb_spec (4 + 1 + Z.of_nat n)
              (Z.of_nat (length (DataView.le32 address)
                         + (length [DataView.byteOf (Z.of_nat n) 0] + n))));
    [|simpl length in *; lia].
  cbn [andb Z.leb Z.compare].
  rewrite (app_assoc (DataView.le32 address)).
  replace (Z.to_nat (4 + 1))
    with (length (DataView.le32 address ++ [DataView.byteOf (Z.of_nat n) 0]))
    by reflexivity.
  rewrite <- (app_nil_r (replicate n 0)).
  rewrite (store_app (map TypedArray.toUint8 data) _ (replicate n 0) [])
    by (now rewrite length_replicate, length_map).
  now rewrite app_nil_r, <- app_assoc.
Qed.

Lemma frameOf_length (address : Z) (data : list Z) :
  length (frameOf address data) = (5 + length data)%nat.
Proof. unfold frameOf. simpl. now rewrite length_map. Qed.

(** C4 (as amended): for every address and every payload, whatever its
    length, [packCommand] returns a frame and never throws; the frame
    has [5 + payload.length] bytes: the address as 32 bits little-endian,
    then the payload length reduced modulo 256 in one byte (the length
    itself when it is at most 255), then the payload bytes. *)
Theorem packCommand_total_layout (address : Z) (data : list Z) :
  exists frame : list Z,
    packCommand address data = Ok frame
    /\ length frame = (5 + length data)%nat
    /\ take 4 frame = [address mod 256; (address / 2 ^ 8) mod 256;
                       (address / 2 ^ 16) mod 256; (address / 2 ^ 24) mod 256]
    /\ frame !! 4%nat = Some (Z.of_nat (length data) mod 256)
    /\ drop 5 frame = map (fun b => b mod 256) data.
Proof.
  exists (frameOf address data). split; [apply packCommand_frameOf|].
  split; [apply frameOf_length|].
  unfold frameOf, DataView.le32. cbn [app take drop lookup list_lookup].
  rewrite !byteOf_0, !byteOf_div by lia.
  repeat split.
Qed.

(** C4, the claim as stated fails: a payload of 256 bytes is framed, not
    refused; the frame has 261 bytes and its length byte is 0. *)
Lemma packCommand_256_no_error :
  exists frame : list Z,
    packCommand Address.GET_DATA (replicate 256 0x05) = Ok frame
    /\ length frame = 261%nat
    /\ frame !! 4%nat = Some 0.
Proof.
  eexists. split; [vm_compute; reflexivity|]. split; reflexivity.
Qed.

(** ** Trigger configuration *)

(** C10: whatever the options and whatever the driver object,
    [configureTrigger] resolves at once and leaves the object as it was:
    the device's log of calls and its pending answers, the endpoints,
    the calibration table and the two strings are untouched. *)
Theorem configureTrigger_no_effect (options : TriggerOptions) (this : Owon) :
  configureTrigger options this = (Ok tt, this).
Proof. reflexivity. Qed.

Lemma triggerTypeWord_range (options : EdgeTriggerOptions) :
  0 <= triggerTypeWord options < 2 ^ 16.
Proof.
  destruct options as [[] [] [] [] level]; vm_compute; split; congruence.
Qed.

Lemma zrange_forallb (m : nat) (P : Z -> bool) :
  forallb P (zrange m) = true ->
  forall n : Z, 0 <= n < Z.of_nat m -> P n = true.
Proof.
  intros H n Hn. rewrite forallb_forall in H. apply H.
  unfold zrange. apply in_map_iff. exists (Z.to_nat n).
  split; [lia|]. apply in_seq. lia.
Qed.

Lemma triggerTypeBit_spec_outside (options : EdgeTriggerOptions) (n : Z) :
  n < 0 \/ 16 <= n -> triggerTypeBit_spec options n = false.
Proof.
  intros Hn.
  destruct options as [[] [] [] [] level]; unfold triggerTypeBit_spec;
    cbn [eo_mode eo_source eo_type eo_slope];
    repeat match goal with
           | |- context [n =? ?k] => destruct (Z.eqb_spec n k); [lia|]
           end; reflexivity.
Qed.

Lemma triggerTypeWord_bits (options : EdgeTriggerOptions) (n : Z) :
  Z.testbit (triggerTypeWord options) n = triggerTypeBit_spec options n.
Proof.
  destruct (Z.ltb_spec n 0) as [Hneg|Hpos].
  { rewrite Z.testbit_neg_r by lia.
    symmetry. apply triggerTypeBit_spec_outside. now left. }
  destruct (Z.ltb_spec n 16) as [Hlt|Hge].
  - apply Bool.eqb_prop.
    apply (zrange_forallb 16
             (fun i => Bool.eqb (Z.testbit (triggerTypeWord options) i)
                                (triggerTypeBit_spec options i)));
      [|cbn; lia].
    destruct options as [[] [] [] [] level]; vm_compute; reflexivity.
  - rewrite triggerTypeBit_spec_outside by now right.
    pose proof (triggerTypeWord_range options) as Hr.
    destruct (Z.eq_dec (triggerTypeWord options) 0) as [->|Hne].
    + apply Z.testbit_0_l.
    + apply Z.bits_above_log2; [lia|].
      apply Z.lt_le_trans with 16; [|lia].
      apply Z.log2_lt_pow2; lia.
Qed.

(** ** Commands on an open session *)

Section Session.
Variables (eps : list USBEndpoint) (ei eo : USBEndpoint) (fv sn : string).

Lemma transferOut_run cal rs cs (packedCommand : list Z) :
  transferOut packedCommand (session eps ei eo cal fv sn rs cs)
  = (Ok tt, session eps ei eo cal fv sn rs
              (cs ++ [TransferOut (endpointNumber eo) packedCommand])).
Proof. reflexivity. Qed.

Lemma sendCommand_run cal rs cs (address : Z) (data : list Z) :
  sendCommand address data (session eps ei eo cal fv sn rs cs)
  = (Ok tt, session eps ei eo cal fv sn rs
              (cs ++ [TransferOut (endpointNumber eo) (frameOf address data)])).
Proof.
  unfold sendCommand. rewrite bind_run. unfold lift.
  rewrite packCommand_frameOf. apply transferOut_run.
Qed.

Lemma transferIn_run cal r rs cs (len : Z) :
  transferIn len (session eps ei eo cal fv sn (r :: rs) cs)
  = (Ok (take (Z.to_nat len) r),
     session eps ei eo cal fv sn rs (cs ++ [TransferIn (endpointNumber ei) len])).
Proof. reflexivity. Qed.

Lemma transferIn_pending cal cs (len : Z) :
  transferIn len (session eps ei eo cal fv sn [] cs)
  = (Pending,
     session eps ei eo cal fv sn [] (cs ++ [TransferIn (endpointNumber ei) len])).
Proof. reflexivity. Qed.

Lemma expectResponse_ok cal r rs cs (expected : Z) :
  expectResponse expected (session eps ei eo cal fv sn ((expected :: r) :: rs) cs)
  = (Ok (take 5 (expected :: r)),
     session eps ei eo cal fv sn rs (cs ++ [TransferIn (endpointNumber ei) 5])).
Proof.
  unfold expectResponse. rewrite bind_run, transferIn_run.
  change (Z.to_nat 5) with 5%nat. cbn [take].
  rewrite bind_run. unfold lift. rewrite getUint8_head. now rewrite Z.eqb_refl.
Qed.

Lemma expectResponse_reject cal b r rs cs (expected : Z) :
  b <> expected ->
  expectResponse expected (session eps ei eo cal fv sn ((b :: r) :: rs) cs)
  = (Throw (ResponseError expected b),
     session eps ei eo cal fv sn rs (cs ++ [TransferIn (endpointNumber ei) 5])).
Proof.
  intros Hb. unfold expectResponse. rewrite bind_run, transferIn_run.
  change (Z.to_nat 5) with 5%nat. cbn [take].
  rewrite bind_run. unfold lift. rewrite getUint8_head.
  destruct (Z.eqb_spec b expected); [contradiction | reflexivity].
Qed.

(** A command whose status is the expected one, then the rest. *)
Lemma command_ok {A : Type} cal r rs cs (address expected : Z) (data : list Z)
    (k : Promise A) :
  (sendCommand address data ;;; expectResponse expected ;;; k)
    (session eps ei eo cal fv sn ((expected :: r) :: rs) cs)
  = k (session eps ei eo cal fv sn rs (cs ++ commandCalls ei eo address data)).
Proof.
  rewrite bind_run, sendCommand_run, bind_run, expectResponse_ok.
  unfold commandCalls. now rewrite <- app_assoc.
Qed.

(** A command whose status is another one: the error, and nothing more
    is done. *)
Lemma command_reject {A : Type} cal b r rs cs (address expected : Z) (data : list Z)
    (k : Promise A) :
  b <> expected ->
  (sendCommand address data ;;; expectResponse expected ;;; k)
    (session eps ei eo cal fv sn ((b :: r) :: rs) cs)
  = (Throw (ResponseError expected b),
     session eps ei eo cal fv sn rs (cs ++ commandCalls ei eo address data)).
Proof.
  intros Hb.
  rewrite bind_run, sendCommand_run, bind_run, expectResponse_reject by assumption.
  unfold commandCalls. now rewrite <- app_assoc.
Qed.

Lemma toUint8_byteOf (v k : Z) :
  TypedArray.toUint8 (DataView.byteOf v k) = DataView.byteOf v k.
Proof.
  unfold TypedArray.toUint8, DataView.byteOf.
  change 0xff with (Z.ones 8). rewrite Z.land_ones by lia.
  apply Z.mod_mod. lia.
Qed.

Lemma toUint8_idem (x : Z) :
  TypedArray.toUint8 (TypedArray.toUint8 x) = x mod 256.
Proof. unfold TypedArray.toUint8. apply Z.mod_mod. lia. Qed.

Lemma frameOf_le16 (address v : Z) :
  frameOf address (DataView.le16 v)
  = DataView.le32 address ++ [2; v mod 256; (v / 2 ^ 8) mod 256].
Proof.
  unfold frameOf, DataView.le16. cbn [map app].
  rewrite !toUint8_byteOf, !byteOf_0, (byteOf_div v 1) by lia.
  reflexivity.
Qed.

Lemma configureEdgeTrigger_run cal r1 r2 rs cs (options : EdgeTriggerOptions) :
  configureEdgeTrigger options
    (session eps ei eo cal fv sn
       ((AFFIRMATIVE_RESPONSE :: r1) :: (AFFIRMATIVE_RESPONSE :: r2) :: rs) cs)
  = (Ok tt,
     session eps ei eo cal fv sn rs
       (cs ++ commandCalls ei eo (TRIGGER_EDGE_LEVEL_ADDRESS (eo_source options))
                (TypedArray.Int8Array_from
                   [fst (edgeLevels options); snd (edgeLevels options)])
           ++ commandCalls ei eo Address.TRIGGER
                (DataView.le16 (triggerTypeWord options)))).
Proof.
  unfold configureEdgeTrigger.
  destruct (edgeLevels options) as [upperBound lowerBound]. cbn [fst snd].
  rewrite command_ok.
  rewrite bind_lift_ok with (a := replicate 2 0) by reflexivity.
  rewrite bind_lift_ok with (a := DataView.le16 (triggerTypeWord options))
    by apply setUint16_alloc.
  rewrite command_ok. unfold ret. now rewrite <- app_assoc.
Qed.

End Session.

(** C6: the trigger-type word is the one the specification words: every
    bit of it is the bit laid down for the mode (SINGLE: bit 8 = type & 1,
    bit 14 = (type >> 1) & 1, bit 0 for the external source, else
    bit 13 = source & 1; ALTERNATE: bit 15, bit 13 = type & 1,
    bit 8 = (type >> 1) & 1, bit 14 = source & 1; both: bit 12 = slope & 1)
    and no other bit is set; the word for SINGLE, EDGE, CH1, RISING is
    0x0000; and when both commands are acknowledged, the second command
    of [configureEdgeTrigger] writes the word to the trigger register
    0x24 as two bytes, low byte first. *)
Theorem configureEdgeTrigger_trigger_word
    (options : EdgeTriggerOptions) (level : Z)
    (eps : list USBEndpoint) (ei eo : USBEndpoint) (cal : ndarray.t)
    (fv sn : string) (r1 r2 : list Z) (rs : list (list Z)) (cs : list USBCall) :
  let word := triggerTypeWord options in
  (forall n : Z, Z.testbit word n = triggerTypeBit_spec options n)
  /\ triggerTypeWord {| eo_source := TS_CH1; eo_mode := SINGLE; eo_type := EDGE;
                        eo_slope := RISING; eo_triggerLevel := level |} = 0x0000
  /\ exists levelCalls : list USBCall,
       configureEdgeTrigger options
         (session eps ei eo cal fv sn
            ((AFFIRMATIVE_RESPONSE :: r1) :: (AFFIRMATIVE_RESPONSE :: r2) :: rs) cs)
       = (Ok tt,
          session eps ei eo cal fv sn rs
            (cs ++ levelCalls
                ++ [TransferOut (endpointNumber eo)
                      [0x24; 0; 0; 0; 2; word mod 256; (word / 2 ^ 8) mod 256];
                    TransferIn (endpointNumber ei) 5]))
       /\ length levelCalls = 2%nat.
Proof.
  intros word. split; [apply triggerTypeWord_bits|]. split; [reflexivity|].
  eexists. split; [|shelve].
  rewrite configureEdgeTrigger_run.
  unfold commandCalls at 2. rewrite frameOf_le16. reflexivity.
  Unshelve. reflexivity.
Qed.

(** C1, at the input where the code leaves the claim: for
    triggerLevel = 200 and a RISING slope the bounds are clamped to
    upper = 128 and lower = 118 (not 127 and 117), and the Int8Array
    built from them holds -128 and 118: the edge-level register 0x2e
    receives the bytes 0x80, 0x76. *)
Lemma configureEdgeTrigger_level_200 :
  let options := {| eo_source := TS_CH1; eo_mode := SINGLE; eo_type := EDGE;
                    eo_slope := RISING; eo_triggerLevel := 200 |} in
  edgeLevels options = (128, 118)
  /\ TypedArray.Int8Array_from [128; 118] = [-128; 118]
  /\ configureEdgeTrigger options
       (session [] bulkIn bulkOut blankCalibration EmptyString EmptyString [ack; ack] [])
     = (Ok tt,
        session [] bulkIn bulkOut blankCalibration EmptyString EmptyString []
          [TransferOut 3 [0x2e; 0; 0; 0; 2; 0x80; 0x76]; TransferIn 1 5;
           TransferOut 3 [0x24; 0; 0; 0; 2; 0; 0]; TransferIn 1 5]).
Proof. repeat split. Qed.

(** ** Channel configuration *)

Section Channel.
Variables (eps : list USBEndpoint) (ei eo : USBEndpoint) (fv sn : string).

Lemma configureChannel_run cal r1 r2 r3 rs cs (options : ChannelOptions) :
  let channel := co_channel options in
  let cell field :=
    ndarray.get cal (Channel_code channel) (CalibrationField_code field)
                (Voltage_code (co_voltage options)) in
  configureChannel options
    (session eps ei eo cal fv sn
       ((AFFIRMATIVE_RESPONSE :: r1) :: (AFFIRMATIVE_RESPONSE :: r2)
          :: (AFFIRMATIVE_RESPONSE :: r3) :: rs) cs)
  = (Ok tt,
     session eps ei eo cal fv sn rs
       (cs ++ commandCalls ei eo (CHANNEL_ADDRESS channel)
                (TypedArray.Uint8Array_from [channelBitFieldOf options])
           ++ commandCalls ei eo (VOLT_GAIN_ADDRESS channel)
                (DataView.le16 (cell GAIN))
           ++ commandCalls ei eo (ZERO_OFFSET_ADDRESS channel)
                (DataView.le16 (cell COMPENSATION - cell AMPLITUDE / 100)))).
Proof.
  intros channel cell. unfold configureChannel.
  change (Z.lor (Z.lor (if co_on options then Z.lor 0 0x80 else 0)
                   (Z.shiftl (Coupling_code (co_coupling options)) 5)) 0x2)
    with (channelBitFieldOf options).
  rewrite command_ok.
  rewrite bind_run. unfold get_state at 1. cbn [calibrationData_ session].
  rewrite bind_lift_ok with (a := replicate 2 0) by reflexivity.
  rewrite bind_lift_ok with (a := DataView.le16 (cell GAIN))
    by apply setUint16_alloc.
  rewrite command_ok.
  rewrite bind_run. unfold get_state at 1. cbn [calibrationData_ session].
  rewrite bind_lift_ok with (a := replicate 2 0) by reflexivity.
  rewrite bind_lift_ok
    with (a := DataView.le16 (cell COMPENSATION - cell AMPLITUDE / 100))
    by apply setUint16_alloc.
  rewrite command_ok. unfold ret. now rewrite <- !app_assoc.
Qed.

Lemma blankCalibration_get (channel : Channel) (field : CalibrationField)
    (voltage : Voltage) :
  ndarray.get blankCalibration (Channel_code channel)
    (CalibrationField_code field) (Voltage_code voltage) = 0.
Proof. destruct channel, field, voltage; reflexivity. Qed.

End Channel.

(** C2 (as amended): on a driver object whose calibration table is still
    the zero-filled one of the constructor, [configureChannel] raises no
    precondition error: when the device acknowledges the three
    commands it resolves, having written the channel bit field, then a
    gain of 0x0000 to the channel's gain register, then a zero offset of
    0x0000 to its offset register. *)
Theorem configureChannel_blank_table_writes_zero
    (options : ChannelOptions)
    (eps : list USBEndpoint) (ei eo : USBEndpoint) (fv sn : string)
    (r1 r2 r3 : list Z) (rs : list (list Z)) (cs : list USBCall) :
  let channel := co_channel options in
  calibrationData_ (Owon_new {| endpoints := eps; responses := rs; calls := cs |})
  = blankCalibration
  /\ configureChannel options
       (session eps ei eo blankCalibration fv sn
          ((AFFIRMATIVE_RESPONSE :: r1) :: (AFFIRMATIVE_RESPONSE :: r2)
             :: (AFFIRMATIVE_RESPONSE :: r3) :: rs) cs)
     = (Ok tt,
        session eps ei eo blankCalibration fv sn rs
          (cs ++ [TransferOut (endpointNumber eo)
                    (DataView.le32 (CHANNEL_ADDRESS channel)
                       ++ [1; channelBitFieldOf options mod 256]);
                  TransferIn (endpointNumber ei) 5;
                  TransferOut (endpointNumber eo)
                    (DataView.le32 (VOLT_GAIN_ADDRESS channel) ++ [2; 0; 0]);
                  TransferIn (endpointNumber ei) 5;
                  TransferOut (endpointNumber eo)
                    (DataView.le32 (ZERO_OFFSET_ADDRESS channel) ++ [2; 0; 0]);
                  TransferIn (endpointNumber ei) 5])).
Proof.
  intros channel. split; [reflexivity|].
  rewrite configureChannel_run. fold channel.
  rewrite !blankCalibration_get.
  unfold commandCalls, frameOf, TypedArray.Uint8Array_from. cbn [map].
  rewrite toUint8_idem. reflexivity.
Qed.

(** C2, the claim as stated fails: a driver object is constructed and
    opened, and [configureChannel] is called with no [readFlash] before
    it; nothing is thrown, and the gain register 0x116 of channel 1
    receives the value 0x0000 of the unpopulated table. *)
Lemma configureChannel_before_readFlash :
  let device := {| endpoints := [bulkIn; bulkOut];
                   responses := [[DEVICE_TYPE; 0; 0; 0; 0]; ack; ack; ack];
                   calls := [] |} in
  let options := {| co_channel := CH1; co_on := true;
                    co_voltage := V2; co_coupling := DC |} in
  let '(outcome, this) := (open ;;; configureChannel options) (Owon_new device) in
  outcome = Ok tt
  /\ calls (device_ this)
     = [DeviceOpen; SelectConfiguration 1; ClaimInterface 0;
        TransferOut 3 [0x01; 0x40; 0; 0; 1; 0x56]; TransferIn 1 5;
        TransferOut 3 [0x11; 0x01; 0; 0; 1; 0xa2]; TransferIn 1 5;
        TransferOut 3 [0x16; 0x01; 0; 0; 2; 0x00; 0x00]; TransferIn 1 5;
        TransferOut 3 [0x0a; 0x01; 0; 0; 2; 0x00; 0x00]; TransferIn 1 5].
Proof. vm_compute. split; reflexivity. Qed.

(** ** The acquisition loop *)

Section Sampling.
Variables (eps : list USBEndpoint) (ei eo : USBEndpoint)
          (cal : ndarray.t) (fv sn : string).
Variable gotData : list Z -> Outcome unit.

Lemma sampleCycle_run r1 r2 frame rs cs :
  sampleCycle gotData
    (session eps ei eo cal fv sn
       ((AFFIRMATIVE_RESPONSE :: r1) :: (AFFIRMATIVE_RESPONSE :: r2) :: frame :: rs) cs)
  = (gotData (take (Z.to_nat 5211) frame),
     session eps ei eo cal fv sn rs (cs ++ cycleCalls ei eo)).
Proof.
  unfold sampleCycle. rewrite !command_ok.
  rewrite bind_run, sendCommand_run, bind_run, transferIn_run.
  unfold lift, cycleCalls. now rewrite <- !app_assoc.
Qed.

(** The second reset of a cycle refused: the cycle stops there. *)
Lemma sampleCycle_reject r1 b r2 rs cs :
  b <> AFFIRMATIVE_RESPONSE ->
  sampleCycle gotData
    (session eps ei eo cal fv sn
       ((AFFIRMATIVE_RESPONSE :: r1) :: (b :: r2) :: rs) cs)
  = (Throw (ResponseError AFFIRMATIVE_RESPONSE b),
     session eps ei eo cal fv sn rs
       (cs ++ commandCalls ei eo Address.TRIGGER_D (TypedArray.Uint8Array_from [0x00])
           ++ commandCalls ei eo Address.DATA_FINISHED
                (TypedArray.Uint8Array_from [0x00]))).
Proof.
  intros Hb. unfold sampleCycle. rewrite command_ok.
  rewrite command_reject by assumption. now rewrite <- !app_assoc.
Qed.

Lemma sampleSetup_run tails rs cs :
  length tails = 8%nat ->
  sampleSetup
    (session eps ei eo cal fv sn (map (cons AFFIRMATIVE_RESPONSE) tails ++ rs) cs)
  = (Ok tt, session eps ei eo cal fv sn rs (cs ++ setupCalls ei eo)).
Proof.
  intros Hlen.
  do 8 (destruct tails as [|? tails]; [discriminate|]).
  destruct tails; [|discriminate].
  unfold sampleSetup. cbn [map app]. rewrite !command_ok.
  unfold ret, setupCalls. now rewrite <- !app_assoc.
Qed.

Hypothesis gotData_returns : forall data : list Z, gotData data = Ok tt.

Lemma sampleLoop_run cycles i rs cs :
  for_ (length cycles) i (fun _ (_ : unit) => sampleCycle gotData) tt
    (session eps ei eo cal fv sn (flat_map cycleResponses cycles ++ rs) cs)
  = (Ok tt,
     session eps ei eo cal fv sn rs
       (cs ++ flat_map (fun _ => cycleCalls ei eo) cycles)).
Proof.
  revert i cs. induction cycles as [|[[r1 r2] frame] cycles IH]; intros i cs.
  - cbn. now rewrite app_nil_r.
  - cbn [length for_ flat_map cycleResponses app].
    rewrite bind_run, sampleCycle_run, gotData_returns, IH.
    now rewrite <- app_assoc.
Qed.

Lemma sampleLoop_reject cycles more i r1 b r2 rs cs :
  b <> AFFIRMATIVE_RESPONSE ->
  for_ (length cycles + Datatypes.S more) i
    (fun _ (_ : unit) => sampleCycle gotData) tt
    (session eps ei eo cal fv sn
       (flat_map cycleResponses cycles
          ++ (AFFIRMATIVE_RESPONSE :: r1) :: (b :: r2) :: rs) cs)
  = (Throw (ResponseError AFFIRMATIVE_RESPONSE b),
     session eps ei eo cal fv sn rs
       (cs ++ flat_map (fun _ => cycleCalls ei eo) cycles
           ++ commandCalls ei eo Address.TRIGGER_D (TypedArray.Uint8Array_from [0x00])
           ++ commandCalls ei eo Address.DATA_FINISHED
                (TypedArray.Uint8Array_from [0x00]))).
Proof.
  intros Hb. revert i cs.
  induction cycles as [|[[r1' r2'] frame] cycles IH]; intros i cs.
  - cbn [length Nat.add for_ flat_map app].
    rewrite bind_run, sampleCycle_reject by assumption. reflexivity.
  - cbn [length Nat.add for_ flat_map cycleResponses app].
    rewrite bind_run, sampleCycle_run, gotData_returns, IH.
    now rewrite <- !app_assoc.
Qed.

Lemma sampleInfinitely_run tails cycles rs cs :
  length tails = 8%nat ->
  length cycles = Z.to_nat 5000 ->
  sampleInfinitely gotData
    (session eps ei eo cal fv sn
       (map (cons AFFIRMATIVE_RESPONSE) tails ++ flat_map cycleResponses cycles ++ rs) cs)
  = (Ok tt,
     session eps ei eo cal fv sn rs
       (cs ++ setupCalls ei eo ++ flat_map (fun _ => cycleCalls ei eo) cycles)).
Proof.
  intros Htails Hcycles. unfold sampleInfinitely.
  rewrite bind_run, sampleSetup_run by assumption.
  rewrite <- Hcycles, sampleLoop_run. now rewrite <- app_assoc.
Qed.

Lemma sampleInfinitely_reject tails cycles r1 b r2 rs cs :
  length tails = 8%nat ->
  (length cycles < Z.to_nat 5000)%nat ->
  b <> AFFIRMATIVE_RESPONSE ->
  sampleInfinitely gotData
    (session eps ei eo cal fv sn
       (map (cons AFFIRMATIVE_RESPONSE) tails ++ flat_map cycleResponses cycles
          ++ (AFFIRMATIVE_RESPONSE :: r1) :: (b :: r2) :: rs) cs)
  = (Throw (ResponseError AFFIRMATIVE_RESPONSE b),
     session eps ei eo cal fv sn rs
       (cs ++ setupCalls ei eo ++ flat_map (fun _ => cycleCalls ei eo) cycles
           ++ commandCalls ei eo Address.TRIGGER_D (TypedArray.Uint8Array_from [0x00])
           ++ commandCalls ei eo Address.DATA_FINISHED
                (TypedArray.Uint8Array_from [0x00]))).
Proof.
  intros Htails Hcycles Hb. unfold sampleInfinitely.
  rewrite bind_run, sampleSetup_run by assumption.
  replace (Z.to_nat 5000)
    with (length cycles + Datatypes.S (Z.to_nat 5000 - length cycles - 1))%nat by lia.
  rewrite sampleLoop_reject by assumption. now rewrite <- app_assoc.
Qed.

End Sampling.

(** ** A bound on the data requests of any run *)

Section Requests.

Lemma dataRequests_app (cs cs' : list USBCall) :
  dataRequests (cs ++ cs') = (dataRequests cs + dataRequests cs')%nat.
Proof. unfold dataRequests. now rewrite List.filter_app, length_app. Qed.

Lemma requests_ret {A : Type} (a : A) : requestsAtMost 0 (ret a).
Proof. intros this. cbn. lia. Qed.

Lemma requests_throw {A : Type} (e : Exn) : requestsAtMost 0 (throw e : Promise A).
Proof. intros this. cbn. lia. Qed.

Lemma requests_lift {A : Type} (r : Outcome A) : requestsAtMost 0 (lift r : Promise A).
Proof. intros this. cbn. lia. Qed.

Lemma requests_bind {A B : Type} (k1 k2 : nat) (m : Promise A) (f : A -> Promise B) :
  requestsAtMost k1 m ->
  (forall a : A, requestsAtMost k2 (f a)) ->
  requestsAtMost (k1 + k2) (bind m f).
Proof.
  intros Hm Hf this. specialize (Hm this). unfold bind.
  destruct (m this) as [[a|e| |] this']; cbn [snd] in *; try lia.
  specialize (Hf a this'). lia.
Qed.

Lemma requests_transferIn (len : Z) : requestsAtMost 0 (transferIn len).
Proof.
  intros this. unfold transferIn, bind, get_state, throw, USB.transferIn.
  destruct (inEndpoint_ this) as [ep|]; cbn [snd]; [|lia].
  cbn [responses logged].
  destruct (responses (device_ this)) as [|r rs];
    cbn [snd device_ set_device calls logged answered];
    rewrite dataRequests_app; cbn; lia.
Qed.

Lemma requests_transferOut (packedCommand : list Z) :
  requestsAtMost 1 (transferOut packedCommand).
Proof.
  intros this. unfold transferOut, bind, get_state, throw.
  destruct (outEndpoint_ this) as [ep|]; cbn [snd]; [|lia].
  unfold USB.transferOut, USB.call, modify.
  cbn [snd device_ set_device calls logged].
  rewrite dataRequests_app. unfold dataRequests at 2. cbn [List.filter].
  destruct (isDataRequest _); cbn; lia.
Qed.

Lemma requests_transferOut_other (packedCommand : list Z) :
  (forall ep, isDataRequest (TransferOut ep packedCommand) = false) ->
  requestsAtMost 0 (transferOut packedCommand).
Proof.
  intros Hother this. unfold transferOut, bind, get_state, throw.
  destruct (outEndpoint_ this) as [ep|]; cbn [snd]; [|lia].
  unfold USB.transferOut, USB.call, modify.
  cbn [snd device_ set_device calls logged].
  rewrite dataRequests_app. unfold dataRequests at 2. cbn [List.filter].
  rewrite Hother. cbn. lia.
Qed.

Lemma requests_expectResponse (expected : Z) :
  requestsAtMost 0 (expectResponse expected).
Proof.
  unfold expectResponse.
  apply (requests_bind 0 0); [apply requests_transferIn|]. intros data.
  apply (requests_bind 0 0); [apply requests_lift|]. intros actual.
  destruct (negb (actual =? expected)); [apply requests_throw | apply requests_ret].
Qed.

Lemma requests_sendCommand (address : Z) (data : list Z) :
  requestsAtMost 1 (sendCommand address data).
Proof.
  unfold sendCommand.
  apply (requests_bind 0 1); [apply requests_lift|]. intros frame.
  apply requests_transferOut.
Qed.

(** A command to a register other than 0x1000 is no data request. *)
Lemma requests_sendCommand_other (address : Z) (data : list Z) :
  DataView.le32 address <> [0x00; 0x10; 0x00; 0x00] ->
  requestsAtMost 0 (sendCommand address data).
Proof.
  intros Haddress this. unfold sendCommand. rewrite bind_run. unfold lift.
  rewrite packCommand_frameOf.
  apply requests_transferOut_other. intros ep.
  unfold frameOf, DataView.le32 in *. cbn [app isDataRequest].
  repeat match goal with
         | |- context [match ?b with _ => _ end] =>
             let E := fresh "E" in destruct b eqn:E; try reflexivity
         end.
  exfalso. apply Haddress. congruence.
Qed.

Lemma requests_command (address expected : Z) (data : list Z) {A : Type}
    (k : nat) (rest : Promise A) :
  DataView.le32 address <> [0x00; 0x10; 0x00; 0x00] ->
  requestsAtMost k rest ->
  requestsAtMost k (sendCommand address data ;;; expectResponse expected ;;; rest).
Proof.
  intros Haddress Hrest.
  apply (requests_bind 0 k); [now apply requests_sendCommand_other|]. intros _.
  apply (requests_bind 0 k); [apply requests_expectResponse|]. intros _.
  exact Hrest.
Qed.

Lemma requests_for {V : Type} (k count : nat) (body : Z -> V -> Promise V) :
  (forall i v, requestsAtMost k (body i v)) ->
  forall i v, requestsAtMost (count * k) (for_ count i body v).
Proof.
  intros Hbody. induction count as [|count IH]; intros i v.
  - apply requests_ret.
  - cbn [for_ Nat.mul]. apply requests_bind; [apply Hbody|]. intros v'. apply IH.
Qed.

Lemma requests_sampleSetup : requestsAtMost 0 sampleSetup.
Proof.
  unfold sampleSetup.
  repeat (apply requests_command; [vm_compute; discriminate|]).
  apply requests_ret.
Qed.

Lemma requests_sampleCycle (gotData : list Z -> Outcome unit) :
  requestsAtMost 1 (sampleCycle gotData).
Proof.
  unfold sampleCycle.
  repeat (apply requests_command; [vm_compute; discriminate|]).
  apply (requests_bind 1 0); [apply requests_sendCommand|]. intros _.
  apply (requests_bind 0 0); [apply requests_transferIn|]. intros receivedData.
  apply requests_lift.
Qed.

Lemma requests_sampleInfinitely (gotData : list Z -> Outcome unit) :
  requestsAtMost (Z.to_nat 5000) (sampleInfinitely gotData).
Proof.
  unfold sampleInfinitely.
  apply (requests_bind 0 (Z.to_nat 5000)); [apply requests_sampleSetup|]. intros _.
  rewrite <- (Nat.mul_1_r (Z.to_nat 5000)) at 1.
  apply requests_for. intros i v. apply requests_sampleCycle.
Qed.

End Requests.

(** C3, at the input where the code leaves the claim: in a cycle of the
    acquisition loop the data request written to register 0x1000 carries
    the payload 0x05, 0x04 (the claim: 0x05, 0x05, which is what
    [getData] sends); the frame is read next with no status check: the
    cycle completes on a frame whose first byte is 0. *)
Lemma sampleCycle_data_request :
  let frame := replicate (Z.to_nat 5211) 0 in
  let this rs := session [] bulkIn bulkOut blankCalibration EmptyString EmptyString rs [] in
  sampleCycle HelloWorld.callback (this [ack; ack; frame])
  = (Ok tt,
     session [] bulkIn bulkOut blankCalibration EmptyString EmptyString []
       [TransferOut 3 [0x01; 0; 0; 0; 1; 0x00]; TransferIn 1 5;
        TransferOut 3 [0x7a; 0; 0; 0; 1; 0x00]; TransferIn 1 5;
        TransferOut 3 [0x00; 0x10; 0; 0; 2; 0x05; 0x04]; TransferIn 1 5211])
  /\ getData (this [frame])
     = (Ok tt,
        session [] bulkIn bulkOut blankCalibration EmptyString EmptyString []
          [TransferOut 3 [0x00; 0x10; 0; 0; 2; 0x05; 0x05]; TransferIn 1 5211]).
Proof. split; vm_compute; reflexivity. Qed.

(** C9 (as amended): the loop of [sampleInfinitely] has a bound fixed in
    the code, 5000 cycles, and no stop condition supplied by the caller
    nor any cancellation check.  For a callback that returns normally:
    when the device acknowledges the eight commands of the arm sequence
    and then serves 5000 cycles, the call resolves after exactly those
    5000 cycles and leaves whatever the device would say next unread;
    when instead, after fewer than 5000 cycles, the device refuses the
    second reset of a cycle, the call is rejected there, in the middle
    of that cycle, its data request never written.  Whatever the device
    answers, one call writes at most 5000 data requests. *)
Theorem sampleInfinitely_fixed_5000_cycles
    (gotData : list Z -> Outcome unit)
    (eps : list USBEndpoint) (ei eo : USBEndpoint) (cal : ndarray.t)
    (fv sn : string) (tails : list (list Z))
    (cycles : list (list Z * list Z * list Z))
    (rs : list (list Z)) (cs : list USBCall) :
  (forall data : list Z, gotData data = Ok tt) ->
  length tails = 8%nat ->
  let run rs' := sampleInfinitely gotData
                   (session eps ei eo cal fv sn
                      (map (cons AFFIRMATIVE_RESPONSE) tails
                         ++ flat_map cycleResponses cycles ++ rs') cs) in
  let served := cs ++ setupCalls ei eo ++ flat_map (fun _ => cycleCalls ei eo) cycles in
  (length cycles = Z.to_nat 5000 ->
   run rs = (Ok tt, session eps ei eo cal fv sn rs served))
  /\ (forall (r1 r2 : list Z) (b : Z),
        (length cycles < Z.to_nat 5000)%nat ->
        b <> AFFIRMATIVE_RESPONSE ->
        run ((AFFIRMATIVE_RESPONSE :: r1) :: (b :: r2) :: rs)
        = (Throw (ResponseError AFFIRMATIVE_RESPONSE b),
           session eps ei eo cal fv sn rs
             (served
                ++ commandCalls ei eo Address.TRIGGER_D
                     (TypedArray.Uint8Array_from [0x00])
                ++ commandCalls ei eo Address.DATA_FINISHED
                     (TypedArray.Uint8Array_from [0x00]))))
  /\ (forall this : Owon,
        (dataRequests (calls (device_ (snd (sampleInfinitely gotData this))))
         <= dataRequests (calls (device_ this)) + Z.to_nat 5000)%nat).
Proof.
  intros Hcb Htails run served. split; [|split].
  - intros Hcycles. unfold run, served.
    now apply sampleInfinitely_run.
  - intros r1 r2 b Hlt Hb. unfold run, served.
    rewrite sampleInfinitely_reject by assumption.
    now rewrite <- !app_assoc.
  - apply requests_sampleInfinitely.
Qed.

(** An instance: a device that acknowledges everything and serves 5000
    one-byte frames, and one that refuses the second reset of the first
    cycle. *)
Lemma sampleInfinitely_fixed_5000_cycles_witness :
  let this := session [] bulkIn bulkOut blankCalibration EmptyString EmptyString in
  let tails := replicate 8 [0; 0; 0; 0] in
  let cycles := replicate (Z.to_nat 5000) ([0; 0; 0; 0], [0; 0; 0; 0], [0]) in
  sampleInfinitely HelloWorld.callback
    (this (map (cons AFFIRMATIVE_RESPONSE) tails
             ++ flat_map cycleResponses cycles ++ [ack]) [])
  = (Ok tt,
     this [ack]
       ([] ++ setupCalls bulkIn bulkOut
           ++ flat_map (fun _ => cycleCalls bulkIn bulkOut) cycles))
  /\ sampleInfinitely HelloWorld.callback
       (this (map (cons AFFIRMATIVE_RESPONSE) tails
                ++ flat_map cycleResponses [] ++ [ack; [0x00]; ack]) [])
     = (Throw (ResponseError AFFIRMATIVE_RESPONSE 0x00),
        this [ack]
          (([] ++ setupCalls bulkIn bulkOut ++ [])
             ++ commandCalls bulkIn bulkOut Address.TRIGGER_D
                  (TypedArray.Uint8Array_from [0x00])
             ++ commandCalls bulkIn bulkOut Address.DATA_FINISHED
                  (TypedArray.Uint8Array_from [0x00]))).
Proof.
  intros this tails cycles. split.
  - exact (proj1 (sampleInfinitely_fixed_5000_cycles HelloWorld.callback
                    [] bulkIn bulkOut blankCalibration EmptyString EmptyString
                    tails cycles [ack] [] (fun data => eq_refl) eq_refl)
                 (length_replicate _ _)).
  - refine (proj1 (proj2 (sampleInfinitely_fixed_5000_cycles HelloWorld.callback
                     [] bulkIn bulkOut blankCalibration EmptyString EmptyString
                     tails [] [ack] [] (fun data => eq_refl) eq_refl))
                  [0; 0; 0; 0] [] 0x00 _ _).
    + vm_compute. lia.
    + discriminate.
Defined.

(** C9, the claim as stated fails.  The only thing the caller supplies
    is the callback, and the bound is not its to set: served 5001
    cycles' worth of answers, [sampleInfinitely] resolves with three
    answers left unread, after 5000 data requests.  And a cycle can be
    left in its middle: a refused second reset ends the call after the
    first reset was acknowledged, with no data request written. *)
Lemma sampleInfinitely_stops_at_5000 :
  let this rs := session [] bulkIn bulkOut blankCalibration EmptyString EmptyString rs [] in
  (let '(outcome, after) :=
     sampleInfinitely HelloWorld.callback
       (this (replicate (Z.to_nat (8 + 3 * 5001)) ack)) in
   outcome = Ok tt
   /\ responses (device_ after) = [ack; ack; ack]
   /\ dataRequests (calls (device_ after)) = Z.to_nat 5000)
  /\ (let '(outcome, after) :=
        sampleInfinitely HelloWorld.callback
          (this (replicate 8 ack ++ [ack; [0x00; 0; 0; 0; 0]; ack])) in
      outcome = Throw (ResponseError AFFIRMATIVE_RESPONSE 0x00)
      /\ responses (device_ after) = [ack]
      /\ dataRequests (calls (device_ after)) = 0%nat
      /\ drop 16 (calls (device_ after))
         = [TransferOut 3 [0x01; 0; 0; 0; 1; 0x00]; TransferIn 1 5;
            TransferOut 3 [0x7a; 0; 0; 0; 1; 0x00]; TransferIn 1 5]).
Proof.
  intros this. split.
  - replace (replicate (Z.to_nat (8 + 3 * 5001)) ack)
      with (map (cons AFFIRMATIVE_RESPONSE) (replicate 8 [0; 0; 0; 0])
              ++ flat_map cycleResponses
                   (replicate (Z.to_nat 5000) ([0; 0; 0; 0], [0; 0; 0; 0], ack))
              ++ [ack; ack; ack])
      by (vm_compute; reflexivity).
    unfold this.
    rewrite (sampleInfinitely_run [] bulkIn bulkOut blankCalibration
               EmptyString EmptyString HelloWorld.callback (fun _ => eq_refl));
      [|reflexivity|apply length_replicate].
    split; [reflexivity|]. split; [reflexivity|].
    vm_compute. reflexivity.
  - vm_compute. repeat split.
Qed.

(** ** Parsing the flash dump *)

Lemma getUint16_le_ok (buf : list Z) (byteOffset : Z) :
  0 <= byteOffset -> byteOffset + 2 <= DataView.byteLength buf ->
  DataView.getUint16 buf byteOffset true = Ok (u16le buf byteOffset).
Proof.
  intros H0 H1. unfold DataView.getUint16, DataView.in_bounds.
  destruct (Z.leb_spec 0 byteOffset); [|lia].
  destruct (Z.leb_spec (byteOffset + 2) (DataView.byteLength buf)); [|lia].
  reflexivity.
Qed.

Lemma view_ok (buf : list Z) (byteOffset len : Z) :
  0 <= byteOffset -> 0 <= len -> byteOffset + len <= DataView.byteLength buf ->
  TypedArray.view buf byteOffset len
  = Ok (take (Z.to_nat len) (drop (Z.to_nat byteOffset) buf)).
Proof.
  intros H0 H1 H2. unfold TypedArray.view.
  destruct (Z.leb_spec 0 byteOffset); [|lia].
  destruct (Z.leb_spec 0 len); [|lia].
  destruct (Z.leb_spec (byteOffset + len) (DataView.byteLength buf)); [|lia].
  reflexivity.
Qed.

Section Flash.
Variables (eps : list USBEndpoint) (ei eo : USBEndpoint) (fv sn : string).
Variable dump : list Z.

Lemma voltbase_step {A : Type} cal rs cs (info ch k off : Z) (K : Z -> Promise A) :
  0 <= off -> off + 2 <= DataView.byteLength dump ->
  bind (value <- lift (DataView.getUint16 dump off true) ;;
        modify (fun this =>
          set_calibrationData
            (ndarray.set (calibrationData_ this) ch info k value) this) ;;;
        ret (off + 2)) K
    (session eps ei eo cal fv sn rs cs)
  = K (off + 2)
      (session eps ei eo (ndarray.set cal ch info k (u16le dump off)) fv sn rs cs).
Proof.
  intros H0 H1. rewrite bind_run, bind_run. unfold lift.
  rewrite getUint16_le_ok by assumption. reflexivity.
Qed.

Lemma set_cell_ext (c c' : ndarray.t) (ch info k k' a a' : Z) :
  c = c' -> k = k' -> a = a' ->
  ndarray.set c ch info k (u16le dump a) = ndarray.set c' ch info k' (u16le dump a').
Proof. now intros -> -> ->. Qed.

Lemma readVoltbases_run cal rs cs (info ch off : Z) :
  off = 6 + 2 * (20 * info + 10 * ch) ->
  0 <= off -> off + 20 <= DataView.byteLength dump ->
  readVoltbases dump info ch off (session eps ei eo cal fv sn rs cs)
  = (Ok (off + 20), session eps ei eo (loadRow dump info ch cal) fv sn rs cs).
Proof.
  intros Hoff H0 H1. unfold readVoltbases.
  change (Z.to_nat VOLTBASE_COUNT) with 10%nat. cbn [for_].
  do 10 (rewrite voltbase_step by lia).
  unfold ret, loadRow, zrange, flashCell. cbn [seq map fold_left].
  cbn [Z.of_nat Pos.of_succ_nat Pos.succ].
  apply f_equal2; [apply f_equal; lia|].
  apply (f_equal (fun c => session eps ei eo c fv sn rs cs)).
  repeat (apply set_cell_ext; [|lia|lia]). reflexivity.
Qed.

Lemma readChannels_run cal rs cs (info off : Z) :
  off = 6 + 2 * (20 * info) ->
  0 <= off -> off + 40 <= DataView.byteLength dump ->
  readChannels dump info off (session eps ei eo cal fv sn rs cs)
  = (Ok (off + 40), session eps ei eo (loadField dump info cal) fv sn rs cs).
Proof.
  intros Hoff H0 H1. unfold readChannels.
  change (Z.to_nat CHANNEL_COUNT) with 2%nat. cbn [for_].
  change (0 + 1) with 1.
  rewrite bind_run, readVoltbases_run by lia.
  rewrite bind_run, readVoltbases_run by lia.
  unfold ret, loadField, zrange. cbn [seq map fold_left].
  change (Z.of_nat 0) with 0. change (Z.of_nat 1) with 1.
  apply f_equal2; [apply f_equal; lia|]. reflexivity.
Qed.

Lemma readCalibrationInfos_run cal rs cs :
  126 <= DataView.byteLength dump ->
  readCalibrationInfos dump 6 (session eps ei eo cal fv sn rs cs)
  = (Ok 126, session eps ei eo (loadTable dump cal) fv sn rs cs).
Proof.
  intros H1. unfold readCalibrationInfos.
  change (Z.to_nat CALIBRATION_INFO_COUNT) with 3%nat. cbn [for_].
  change (0 + 1 + 1) with 2. change (0 + 1) with 1.
  rewrite bind_run, readChannels_run by lia.
  rewrite bind_run, readChannels_run by lia.
  rewrite bind_run, readChannels_run by lia.
  unfold ret, loadTable, zrange. cbn [seq map fold_left].
  change (Z.of_nat 0) with 0. change (Z.of_nat 1) with 1.
  change (Z.of_nat 2) with 2.
  apply f_equal2; reflexivity.
Qed.

Lemma readFlash_header_run cal response rs cs (magic : Z) :
  DataView.getUint16 (take (Z.to_nat 2002) response) 0 false = Ok magic ->
  magic <> FLASH_HEADER ->
  readFlash (session eps ei eo cal fv sn (response :: rs) cs)
  = (Throw (FlashHeaderError magic),
     session eps ei eo cal fv sn rs
       (cs ++ [TransferOut (endpointNumber eo) [0xb0; 0x01; 0; 0; 1; 0x01];
               TransferIn (endpointNumber ei) 2002])).
Proof.
  intros Hmagic Hne. unfold readFlash.
  rewrite bind_run, sendCommand_run, bind_run, transferIn_run.
  rewrite (bind_lift_ok _ _ _ _ Hmagic).
  destruct (Z.eqb_spec magic FLASH_HEADER); [contradiction|].
  cbn [negb]. unfold throw. now rewrite <- app_assoc.
Qed.

Lemma readFlash_version_run cal response rs cs (version : Z) :
  DataView.getUint16 (take (Z.to_nat 2002) response) 0 false = Ok FLASH_HEADER ->
  DataView.getUint32 (take (Z.to_nat 2002) response) 2 true = Ok version ->
  version <> 2 ->
  readFlash (session eps ei eo cal fv sn (response :: rs) cs)
  = (Throw (FlashVersionError version),
     session eps ei eo cal fv sn rs
       (cs ++ [TransferOut (endpointNumber eo) [0xb0; 0x01; 0; 0; 1; 0x01];
               TransferIn (endpointNumber ei) 2002])).
Proof.
  intros Hmagic Hversion Hne. unfold readFlash.
  rewrite bind_run, sendCommand_run, bind_run, transferIn_run.
  rewrite (bind_lift_ok _ _ _ _ Hmagic).
  change (negb (FLASH_HEADER =? FLASH_HEADER)) with false. cbv iota.
  rewrite (bind_lift_ok _ _ _ _ Hversion).
  destruct (Z.eqb_spec version 2); [contradiction|].
  cbn [negb]. unfold throw. now rewrite <- app_assoc.
Qed.

End Flash.

Lemma readFlash_run eps ei eo fv sn cal response rs cs :
  let receivedData := take (Z.to_nat 2002) response in
  DataView.getUint16 receivedData 0 false = Ok FLASH_HEADER ->
  DataView.getUint32 receivedData 2 true = Ok 2 ->
  227 <= DataView.byteLength receivedData ->
  readFlash (session eps ei eo cal fv sn (response :: rs) cs)
  = (Ok receivedData,
     session eps ei eo (loadTable receivedData cal)
       (fromCharCodes (take 4 (drop 207 receivedData)))
       (fromCharCodes (take 15 (drop 212 receivedData)))
       rs
       (cs ++ [TransferOut (endpointNumber eo) [0xb0; 0x01; 0; 0; 1; 0x01];
               TransferIn (endpointNumber ei) 2002])).
Proof.
  intros receivedData Hmagic Hversion Hlen. unfold readFlash.
  rewrite bind_run, sendCommand_run, bind_run, transferIn_run.
  fold receivedData.
  rewrite (bind_lift_ok _ _ _ _ Hmagic).
  change (negb (FLASH_HEADER =? FLASH_HEADER)) with false. cbv iota.
  rewrite (bind_lift_ok _ _ _ _ Hversion).
  change (negb (2 =? 2)) with false. cbv iota zeta.
  rewrite bind_run, readCalibrationInfos_run by lia.
  rewrite bind_lift_ok with (a := take 4 (drop 207 receivedData))
    by (now apply view_ok; lia).
  rewrite bind_run. unfold modify at 1. cbv beta.
  rewrite bind_lift_ok with (a := take 15 (drop 212 receivedData))
    by (now apply view_ok; lia).
  rewrite bind_run. unfold modify at 1. cbv beta.
  unfold ret. now rewrite <- app_assoc.
Qed.


Lemma loadTable_get (dump data : list Z) (field channel range : Z) :
  length data = 60%nat ->
  0 <= field < CALIBRATION_INFO_COUNT ->
  0 <= channel < CHANNEL_COUNT ->
  0 <= range < VOLTBASE_COUNT ->
  ndarray.get
    (loadTable dump
       (ndarray.make data (CHANNEL_COUNT, CALIBRATION_INFO_COUNT, VOLTBASE_COUNT)))
    channel field range
  = flashCell dump field channel range mod 0x10000.
Proof.
  intros Hlen Hf Hc Hr.
  do 60 (destruct data as [|? data]; [discriminate|]).
  destruct data; [|discriminate]. clear Hlen.
  unfold CALIBRATION_INFO_COUNT in Hf. unfold CHANNEL_COUNT in Hc.
  unfold VOLTBASE_COUNT in Hr.
  assert (Hf' : field = 0 \/ field = 1 \/ field = 2) by lia.
  assert (Hc' : channel = 0 \/ channel = 1) by lia.
  assert (Hr' : range = 0 \/ range = 1 \/ range = 2 \/ range = 3 \/ range = 4
                \/ range = 5 \/ range = 6 \/ range = 7 \/ range = 8 \/ range = 9)
    by lia.
  clear Hf Hc Hr.
  destruct Hf' as [->|[->| ->]]; destruct Hc' as [->| ->];
    repeat (destruct Hr' as [->|Hr']; [cbv -[flashCell Z.modulo]; reflexivity|]);
    subst range; cbv -[flashCell Z.modulo]; reflexivity.
Qed.

(** C7: [readFlash] checks the 16-bit magic field (bytes 0 and 1, read
    most significant byte first) against 0xAA55 and fails with the
    flash-header error when it differs; it then checks the 32-bit
    little-endian version field at offset 2 against 2 and fails with the
    flash-version error when it differs; on a dump that passes both and
    has the 227 bytes the parser reads, it fills each of the 60 cells
    of the table, cell (channel, field, range) from the little-endian
    16-bit value at offset 6 + 2 * (20 * field + 10 * channel + range)
    (field outermost, voltage range innermost), and takes the firmware
    version from the 4 bytes at offset 207 and the serial number from
    the 15 bytes at offset 212. *)
Theorem readFlash_parses_dump
    (eps : list USBEndpoint) (ei eo : USBEndpoint) (fv sn : string)
    (data response : list Z) (rs : list (list Z)) (cs : list USBCall) :
  let receivedData := take (Z.to_nat 2002) response in
  let cal := ndarray.make data (CHANNEL_COUNT, CALIBRATION_INFO_COUNT, VOLTBASE_COUNT) in
  let start := session eps ei eo cal fv sn (response :: rs) cs in
  let log := cs ++ [TransferOut (endpointNumber eo) [0xb0; 0x01; 0; 0; 1; 0x01];
                    TransferIn (endpointNumber ei) 2002] in
  length data = 60%nat ->
  (forall magic : Z,
     DataView.getUint16 receivedData 0 false = Ok magic ->
     magic <> 0xAA55 ->
     readFlash start
     = (Throw (FlashHeaderError magic), session eps ei eo cal fv sn rs log))
  /\ (forall version : Z,
        DataView.getUint16 receivedData 0 false = Ok 0xAA55 ->
        DataView.getUint32 receivedData 2 true = Ok version ->
        version <> 2 ->
        readFlash start
        = (Throw (FlashVersionError version), session eps ei eo cal fv sn rs log))
  /\ (DataView.getUint16 receivedData 0 false = Ok 0xAA55 ->
      DataView.getUint32 receivedData 2 true = Ok 2 ->
      227 <= DataView.byteLength receivedData ->
      exists cal' : ndarray.t,
        readFlash start
        = (Ok receivedData,
           session eps ei eo cal'
             (fromCharCodes (take 4 (drop 207 receivedData)))
             (fromCharCodes (take 15 (drop 212 receivedData)))
             rs log)
        /\ forall field channel range : Z,
             0 <= field < 3 -> 0 <= channel < 2 -> 0 <= range < 10 ->
             ndarray.get cal' channel field range
             = u16le receivedData (6 + 2 * (20 * field + 10 * channel + range))
                 mod 0x10000).
Proof.
  intros receivedData cal start log Hlen. split; [|split].
  - intros magic Hmagic Hne. now apply readFlash_header_run.
  - intros version Hmagic Hversion Hne. now apply readFlash_version_run.
  - intros Hmagic Hversion Hsize.
    exists (loadTable receivedData cal). split.
    + now apply readFlash_run.
    + intros field channel range Hf Hc Hr.
      now apply loadTable_get.
Qed.

(** An instance: a 227-byte dump with the values 0x0100 .. 0x013b, the
    version string V2.5 and a serial number, and the same dump with a
    wrong magic and with version 3. *)
Lemma readFlash_parses_dump_witness :
  let body := flat_map (fun n => [n; 0x01]) (zrange 60) ++ replicate 81 0
                ++ [86; 50; 46; 53] ++ [0]
                ++ [86; 68; 83; 49; 48; 50; 50; 73; 49; 50; 51; 52; 53; 54; 55] in
  let this response :=
    session [] bulkIn bulkOut blankCalibration EmptyString EmptyString [response] [] in
  let after cal fv sn :=
    session [] bulkIn bulkOut cal fv sn []
      ([] ++ [TransferOut 3 [0xb0; 0x01; 0; 0; 1; 0x01]; TransferIn 1 2002]) in
  readFlash (this ([0x55; 0xAA; 2; 0; 0; 0] ++ body))
  = (Throw (FlashHeaderError 0x55AA), after blankCalibration EmptyString EmptyString)
  /\ readFlash (this ([0xAA; 0x55; 3; 0; 0; 0] ++ body))
     = (Throw (FlashVersionError 3), after blankCalibration EmptyString EmptyString)
  /\ exists cal' : ndarray.t,
       readFlash (this ([0xAA; 0x55; 2; 0; 0; 0] ++ body))
       = (Ok (take (Z.to_nat 2002) ([0xAA; 0x55; 2; 0; 0; 0] ++ body)),
          after cal' "V2.5"%string "VDS1022I1234567"%string)
       /\ forall field channel range : Z,
            0 <= field < 3 -> 0 <= channel < 2 -> 0 <= range < 10 ->
            ndarray.get cal' channel field range
            = u16le (take (Z.to_nat 2002) ([0xAA; 0x55; 2; 0; 0; 0] ++ body))
                (6 + 2 * (20 * field + 10 * channel + range)) mod 0x10000.
Proof.
  intros body this after. split; [|split].
  - refine (proj1 (readFlash_parses_dump [] bulkIn bulkOut EmptyString EmptyString
                     (replicate 60 0) ([0x55; 0xAA; 2; 0; 0; 0] ++ body) [] []
                     eq_refl) 0x55AA _ _).
    + vm_compute. reflexivity.
    + vm_compute. discriminate.
  - refine (proj1 (proj2 (readFlash_parses_dump [] bulkIn bulkOut EmptyString
                     EmptyString (replicate 60 0)
                     ([0xAA; 0x55; 3; 0; 0; 0] ++ body) [] [] eq_refl)) 3 _ _ _).
    + vm_compute. reflexivity.
    + vm_compute. reflexivity.
    + vm_compute. discriminate.
  - refine (proj2 (proj2 (readFlash_parses_dump [] bulkIn bulkOut EmptyString
                     EmptyString (replicate 60 0)
                     ([0xAA; 0x55; 2; 0; 0; 0] ++ body) [] [] eq_refl)) _ _ _).
    + vm_compute. reflexivity.
    + vm_compute. reflexivity.
    + vm_compute. discriminate.
Defined.

(** ** The firmware upload *)

Lemma while_unfold {St V : Type} (fuel : nat) (cond : V -> bool)
    (body : V -> Eff St V) (v : V) :
  while_ fuel cond body v
  = if cond v then
      match fuel with
      | O => fun s => (OutOfFuel, s)
      | Datatypes.S fuel' => bind (body v) (while_ fuel' cond body)
      end
    else ret v.
Proof. destruct fuel; reflexivity. Qed.

Lemma take_min_drop (l : list Z) (a n : nat) (size : Z) :
  size = Z.of_nat (length l) ->
  (a <= length l)%nat ->
  take (Z.to_nat (Z.min (Z.of_nat n) (size - Z.of_nat a))) (drop a l)
  = take n (drop a l).
Proof.
  intros -> Ha.
  destruct (Z.min_spec (Z.of_nat n) (Z.of_nat (length l) - Z.of_nat a))
    as [[Hlt ->]|[Hge ->]].
  - now rewrite Nat2Z.id.
  - rewrite !take_ge; [reflexivity| |]; rewrite length_drop; lia.
Qed.

Lemma frameCount_lt (len D : Z) (j : nat) :
  0 < D -> 0 <= len ->
  (j < frameCount len D)%nat <-> Z.of_nat j * D < len.
Proof.
  intros HD Hlen. unfold frameCount.
  assert (Hq : 0 <= (len + D - 1) / D) by (apply Z.div_pos; lia).
  split.
  - intros Hj.
    assert (Hj' : Z.of_nat j + 1 <= (len + D - 1) / D) by lia.
    pose proof (Z.mul_div_le (len + D - 1) D HD) as Hle.
    nia.
  - intros Hj.
    assert (Hj' : Z.of_nat j + 1 <= (len + D - 1) / D).
    { apply Z.div_le_lower_bound; [assumption|]. nia. }
    lia.
Qed.

Section Upload.
Variables (eps : list USBEndpoint) (ei eo : USBEndpoint)
          (cal : ndarray.t) (fv sn : string).

Lemma transferChunk_run (frame : list Z) rs cs (c : nat) :
  (64 * c < length frame)%nat ->
  transferChunk frame (Z.of_nat (length frame)) (64 * Z.of_nat c)
    (session eps ei eo cal fv sn rs cs)
  = (Ok (64 * Z.of_nat (Datatypes.S c)),
     session eps ei eo cal fv sn rs
       (cs ++ [TransferOut (endpointNumber eo) (take 64 (drop (64 * c) frame))])).
Proof.
  intros Hc. unfold transferChunk.
  rewrite bind_lift_ok with (a := take 64 (drop (64 * c) frame)).
  - rewrite bind_run, transferOut_run. unfold ret. do 2 f_equal. lia.
  - rewrite view_ok by (unfold DataView.byteLength; lia).
    f_equal. replace (64 * Z.of_nat c) with (Z.of_nat (64 * c)) by lia.
    rewrite Nat2Z.id.
    apply (take_min_drop frame (64 * c) 64); [reflexivity | lia].
Qed.

Lemma transferChunks_from (frame : list Z) rs (k : nat) :
  forall (c fuel : nat) cs,
    (c + k = Nat.div (length frame + 63) 64)%nat ->
    (k <= fuel)%nat ->
    while_ fuel (fun chunkOffset => chunkOffset <? Z.of_nat (length frame))
      (transferChunk frame (Z.of_nat (length frame))) (64 * Z.of_nat c)
      (session eps ei eo cal fv sn rs cs)
    = (Ok (64 * Z.of_nat (c + k)),
       session eps ei eo cal fv sn rs
         (cs ++ map (TransferOut (endpointNumber eo))
                  (map (fun c' => take 64 (drop (64 * c') frame)) (seq c k)))).
Proof.
  induction k as [|k IH]; intros c fuel cs Hn Hfuel.
  - rewrite while_unfold.
    destruct (Z.ltb_spec (64 * Z.of_nat c) (Z.of_nat (length frame))) as [Hlt|Hge].
    + exfalso.
      pose proof (Nat.div_mod_eq (length frame + 63) 64) as Hdm.
      pose proof (Nat.mod_upper_bound (length frame + 63) 64) as Hub.
      lia.
    + cbn [seq map]. rewrite app_nil_r, Nat.add_0_r. reflexivity.
  - rewrite while_unfold.
    assert (Hc : (64 * c < length frame)%nat).
    { pose proof (Nat.div_mod_eq (length frame + 63) 64) as Hdm.
      pose proof (Nat.mod_upper_bound (length frame + 63) 64) as Hub.
      lia. }
    destruct (Z.ltb_spec (64 * Z.of_nat c) (Z.of_nat (length frame))); [|lia].
    destruct fuel as [|fuel]; [lia|].
    rewrite bind_run, transferChunk_run by assumption.
    rewrite IH by lia.
    cbn [seq map]. rewrite <- app_assoc.
    do 3 f_equal. lia.
Qed.

Lemma transferChunks_run (fuel : nat) (frame : list Z) rs cs :
  (Nat.div (length frame + 63) 64 <= fuel)%nat ->
  transferChunks fuel frame (Z.of_nat (length frame))
    (session eps ei eo cal fv sn rs cs)
  = (Ok (64 * Z.of_nat (Nat.div (length frame + 63) 64)),
     session eps ei eo cal fv sn rs
       (cs ++ map (TransferOut (endpointNumber eo)) (subChunks frame))).
Proof.
  intros Hfuel. unfold transferChunks, subChunks.
  change 0 with (64 * Z.of_nat 0).
  now rewrite (transferChunks_from frame rs (Nat.div (length frame + 63) 64) 0%nat).
Qed.

Section Frames.
Variables (fuel : nat) (fpgaFirmware : list Z) (D : Z).
Hypothesis D_pos : 0 < D.
Hypothesis enough_fuel : (length fpgaFirmware + 4 <= fuel)%nat.

Lemma uploadFrame_built (j : nat) :
  Z.of_nat j * D < DataView.byteLength fpgaFirmware ->
  let i := Z.of_nat j * D in
  let transmitDataSize := Z.min D (DataView.byteLength fpgaFirmware - i) in
  exists slice : list Z,
    TypedArray.view fpgaFirmware i transmitDataSize = Ok slice
    /\ TypedArray.set (DataView.le32 (Z.of_nat j) ++ replicate (Z.to_nat transmitDataSize) 0)
         slice 4
       = Ok (uploadFrame fpgaFirmware D j)
    /\ Z.of_nat (length (uploadFrame fpgaFirmware D j)) = transmitDataSize + 4.
Proof.
  intros Hi i tds. unfold DataView.byteLength in *.
  assert (Hi0 : 0 <= i) by (unfold i; nia).
  assert (Htds : 0 < tds) by (unfold tds; lia).
  assert (Hslice : take (Z.to_nat tds) (drop (Z.to_nat i) fpgaFirmware)
                   = take (Z.to_nat D) (drop (Z.to_nat i) fpgaFirmware)).
  { unfold tds. replace D with (Z.of_nat (Z.to_nat D)) at 1 by lia.
    replace i with (Z.of_nat (Z.to_nat i)) at 1 by lia.
    apply take_min_drop; [reflexivity | lia]. }
  assert (Hlen : length (take (Z.to_nat tds) (drop (Z.to_nat i) fpgaFirmware))
                 = Z.to_nat tds).
  { rewrite length_take, length_drop. unfold tds. lia. }
  exists (take (Z.to_nat tds) (drop (Z.to_nat i) fpgaFirmware)).
  split; [apply view_ok; unfold DataView.byteLength, tds; lia|].
  split.
  - unfold TypedArray.set, DataView.byteLength.
    rewrite length_app, length_replicate, Hlen. cbn [length DataView.le32].
    destruct (Z.leb_spec (4 + Z.of_nat (Z.to_nat tds))
                (Z.of_nat (4 + Z.to_nat tds))); [|lia].
    cbn [andb Z.leb Z.compare]. f_equal.
    change (Z.to_nat 4) with (length (DataView.le32 (Z.of_nat j))).
    rewrite <- (app_nil_r (replicate (Z.to_nat tds) 0)).
    rewrite store_app by (now rewrite length_replicate, length_map).
    rewrite app_nil_r, Hslice. reflexivity.
  - unfold uploadFrame. rewrite length_app, length_map.
    fold i. rewrite <- Hslice, Hlen. cbn [length DataView.le32]. lia.
Qed.

Lemma uploadFrame_chunks (j : nat) :
  (Nat.div (length (uploadFrame fpgaFirmware D j) + 63) 64 <= fuel)%nat.
Proof.
  assert (Hlen : (length (uploadFrame fpgaFirmware D j) <= length fpgaFirmware + 4)%nat).
  { unfold uploadFrame. rewrite length_app, length_map, length_take, length_drop.
    cbn [length DataView.le32]. lia. }
  pose proof (Nat.div_mod_eq (length (uploadFrame fpgaFirmware D j) + 63) 64) as Hdm.
  pose proof (Nat.mod_upper_bound (length (uploadFrame fpgaFirmware D j) + 63) 64) as Hub.
  destruct (length (uploadFrame fpgaFirmware D j)) as [|n] eqn:E.
  - cbn. lia.
  - lia.
Qed.

(** What one turn of the frame loop does up to the status read. *)
Lemma uploadFrameStep_sent (j : nat) rs cs :
  Z.of_nat j * D < DataView.byteLength fpgaFirmware ->
  uploadFrameStep fuel fpgaFirmware D (Z.of_nat j * D, Z.of_nat j)
    (session eps ei eo cal fv sn rs cs)
  = (expectResponse AFFIRMATIVE_RESPONSE ;;;
     ret (Z.of_nat j * D + D, Z.of_nat j + 1))
      (session eps ei eo cal fv sn rs
         (cs ++ map (TransferOut (endpointNumber eo))
                  (subChunks (uploadFrame fpgaFirmware D j)))).
Proof.
  intros Hi. destruct (uploadFrame_built j Hi) as (slice & Hview & Hset & Hlen).
  unfold uploadFrameStep.
  set (tds := Z.min D (DataView.byteLength fpgaFirmware - Z.of_nat j * D)) in *.
  assert (Htds : 0 < tds) by (unfold tds; lia).
  rewrite bind_lift_ok with (a := replicate (Z.to_nat (tds + 4)) 0)
    by (apply alloc_ok; lia).
  rewrite bind_lift_ok
    with (a := DataView.le32 (Z.of_nat j) ++ replicate (Z.to_nat tds) 0).
  2:{ replace (Z.to_nat (tds + 4)) with (4 + Z.to_nat tds)%nat by lia.
      rewrite replicate_add.
      unfold DataView.setUint32, DataView.in_bounds, DataView.byteLength.
      rewrite length_app, !length_replicate.
      destruct (Z.leb_spec (0 + 4) (Z.of_nat (4 + Z.to_nat tds))); [|lia].
      cbn [andb Z.leb Z.compare]. apply f_equal.
      exact (store_at_0 (DataView.le32 (Z.of_nat j)) (replicate 4 0) _ eq_refl). }
  rewrite (bind_lift_ok _ _ _ _ Hview), (bind_lift_ok _ _ _ _ Hset).
  rewrite <- Hlen.
  rewrite bind_run, transferChunks_run by apply uploadFrame_chunks.
  reflexivity.
Qed.

Lemma uploadFrameStep_ok (j : nat) r rs cs :
  Z.of_nat j * D < DataView.byteLength fpgaFirmware ->
  uploadFrameStep fuel fpgaFirmware D (Z.of_nat j * D, Z.of_nat j)
    (session eps ei eo cal fv sn ((AFFIRMATIVE_RESPONSE :: r) :: rs) cs)
  = (Ok (Z.of_nat (Datatypes.S j) * D, Z.of_nat (Datatypes.S j)),
     session eps ei eo cal fv sn rs
       (cs ++ frameCalls ei eo (uploadFrame fpgaFirmware D j))).
Proof.
  intros Hi. rewrite uploadFrameStep_sent by assumption.
  rewrite bind_run, expectResponse_ok. unfold ret, frameCalls.
  rewrite <- app_assoc. do 2 f_equal. f_equal; lia.
Qed.


Lemma uploadFrames_from (tails : list (list Z)) :
  forall (j f : nat) rs cs,
    (j + length tails = frameCount (DataView.byteLength fpgaFirmware) D)%nat ->
    (length tails <= f)%nat ->
    while_ f (fun v => fst v <? DataView.byteLength fpgaFirmware)
      (uploadFrameStep fuel fpgaFirmware D) (Z.of_nat j * D, Z.of_nat j)
      (session eps ei eo cal fv sn (map (cons AFFIRMATIVE_RESPONSE) tails ++ rs) cs)
    = (Ok (Z.of_nat (j + length tails) * D, Z.of_nat (j + length tails)),
       session eps ei eo cal fv sn rs
         (cs ++ flat_map (fun j' => frameCalls ei eo (uploadFrame fpgaFirmware D j'))
                  (seq j (length tails)))).
Proof.
  assert (Hlen0 : 0 <= DataView.byteLength fpgaFirmware)
    by (unfold DataView.byteLength; lia).
  induction tails as [|t tails IH]; intros j f rs cs Hn Hf.
  - rewrite while_unfold. cbn [fst length].
    destruct (Z.ltb_spec (Z.of_nat j * D) (DataView.byteLength fpgaFirmware)) as [Hlt|Hge].
    + apply frameCount_lt in Hlt; [|assumption|assumption]. cbn [length] in Hn. lia.
    + cbn [seq flat_map map app]. rewrite app_nil_r, Nat.add_0_r. reflexivity.
  - rewrite while_unfold. cbn [fst length] in *.
    assert (Hi : Z.of_nat j * D < DataView.byteLength fpgaFirmware)
      by (apply frameCount_lt; [assumption|assumption|lia]).
    destruct (Z.ltb_spec (Z.of_nat j * D) (DataView.byteLength fpgaFirmware)); [|lia].
    destruct f as [|f]; [lia|].
    cbn [map app].
    rewrite bind_run, uploadFrameStep_ok by assumption.
    rewrite IH by lia.
    cbn [seq flat_map]. rewrite <- app_assoc.
    replace (Datatypes.S j + length tails)%nat
      with (j + Datatypes.S (length tails))%nat by lia.
    reflexivity.
Qed.


Lemma frameCount_le_length :
  (frameCount (DataView.byteLength fpgaFirmware) D <= length fpgaFirmware)%nat.
Proof.
  destruct (Nat.le_gt_cases (frameCount (DataView.byteLength fpgaFirmware) D)
              (length fpgaFirmware)) as [H|H]; [assumption|].
  apply frameCount_lt in H; unfold DataView.byteLength in *; [nia|assumption|lia].
Qed.

Lemma uploadFpgaBitstream_run r0 tails rs cs :
  DataView.getUint32 (take 5 (FPGA_ACCEPTING_UPLOAD_RESPONSE :: r0)) 1 true
  = Ok (D + 4) ->
  length tails = frameCount (DataView.byteLength fpgaFirmware) D ->
  uploadFpgaBitstream fuel fpgaFirmware
    (session eps ei eo cal fv sn
       ((FPGA_ACCEPTING_UPLOAD_RESPONSE :: r0)
          :: map (cons AFFIRMATIVE_RESPONSE) tails ++ rs) cs)
  = (Ok tt,
     session eps ei eo cal fv sn rs
       (cs ++ commandCalls ei eo Address.FPGA_UPLOAD
                (DataView.le32 (DataView.byteLength fpgaFirmware))
           ++ flat_map (fun j => frameCalls ei eo (uploadFrame fpgaFirmware D j))
                (seq 0 (length tails)))).
Proof.
  intros Hhandshake Htails. unfold uploadFpgaBitstream.
  rewrite bind_lift_ok with (a := replicate 4 0) by reflexivity.
  rewrite bind_lift_ok with (a := DataView.le32 (DataView.byteLength fpgaFirmware))
    by apply setUint32_alloc.
  rewrite bind_run, sendCommand_run, bind_run, expectResponse_ok.
  rewrite (bind_lift_ok _ _ _ _ Hhandshake).
  replace (D + 4 - 4) with D by lia.
  unfold uploadFrames. change (0, 0) with (Z.of_nat 0 * D, Z.of_nat 0).
  pose proof frameCount_le_length as Hle.
  rewrite bind_run, uploadFrames_from by lia.
  unfold ret, commandCalls. now rewrite <- !app_assoc.
Qed.


End Frames.

End Upload.


Lemma uploadFrame_length (fpgaFirmware : list Z) (D : Z) (j : nat) :
  0 < D ->
  Z.of_nat (length (uploadFrame fpgaFirmware D j))
  = 4 + Z.max 0 (Z.min D (DataView.byteLength fpgaFirmware - Z.of_nat j * D)).
Proof.
  intros HD. unfold uploadFrame, DataView.byteLength.
  rewrite length_app, length_map, length_take, length_drop.
  cbn [length DataView.le32]. nia.
Qed.





(** ** The sample decoder *)

Lemma getInt16_le_ok (buf : list Z) (byteOffset : Z) :
  0 <= byteOffset -> byteOffset + 2 <= DataView.byteLength buf ->
  DataView.getInt16 buf byteOffset true = Ok (i16le buf byteOffset).
Proof.
  intros H0 H1. unfold DataView.getInt16.
  now rewrite getUint16_le_ok by assumption.
Qed.

Lemma getInt16_le_out (buf : list Z) (byteOffset : Z) :
  DataView.byteLength buf < byteOffset + 2 ->
  DataView.getInt16 buf byteOffset true = Throw RangeError.
Proof.
  intros H. unfold DataView.getInt16, DataView.getUint16, DataView.in_bounds.
  destruct (Z.leb_spec (byteOffset + 2) (DataView.byteLength buf)); [lia|].
  now rewrite andb_false_r.
Qed.

Section Decoder.
Variable dataView : list Z.

Lemma decodeLoop_spec (fuel : nat) :
  forall (t : nat) (floatData : list float),
    (length dataView <= fuel + (111 + 4 * t))%nat ->
    exists (completion : Outcome (Z * Z)) (floatData' : list float),
      HelloWorld.decodeLoop fuel dataView (111 + 4 * Z.of_nat t, Z.of_nat t) floatData
      = (completion, floatData')
      /\ ((exists v, completion = Ok v) \/ completion = Throw RangeError)
      /\ length floatData' = length floatData
      /\ forall k : nat,
           floatData' !! k
           = if (t <=? k)%nat && sampleInside dataView k && (k <? length floatData)%nat
             then Some (sampleOf (i16le dataView (111 + 4 * Z.of_nat k)))
             else floatData !! k.
Proof.
  unfold HelloWorld.decodeLoop.
  induction fuel as [|fuel IH]; intros t floatData Hfuel.
  - rewrite while_unfold.
    destruct (Z.ltb_spec (111 + 4 * Z.of_nat t) (DataView.byteLength dataView)) as [Hlt|Hge];
      [unfold DataView.byteLength in Hlt; lia|].
    exists (Ok (111 + 4 * Z.of_nat t, Z.of_nat t)), floatData.
    split; [reflexivity|]. split; [left; eauto|]. split; [reflexivity|].
    intros k. unfold sampleInside.
    destruct (Nat.leb_spec t k); [|reflexivity].
    destruct (Z.leb_spec (111 + 4 * Z.of_nat k + 2) (DataView.byteLength dataView));
      [lia | reflexivity].
  - rewrite while_unfold.
    destruct (Z.ltb_spec (111 + 4 * Z.of_nat t) (DataView.byteLength dataView)) as [Hlt|Hge].
    + destruct (Z.le_gt_cases (111 + 4 * Z.of_nat t + 2) (DataView.byteLength dataView))
        as [Hin|Hout].
      * rewrite bind_run, bind_run. unfold lift.
        rewrite getInt16_le_ok by lia.
        cbn [modify ret]. cbv beta iota.
        rewrite Nat2Z.id.
        fold (sampleOf (i16le dataView (111 + 4 * Z.of_nat t))).
        replace (111 + 4 * Z.of_nat t + 4) with (111 + 4 * Z.of_nat (Datatypes.S t)) by lia.
        replace (Z.of_nat t + 1) with (Z.of_nat (Datatypes.S t)) by lia.
        destruct (IH (Datatypes.S t)
                    (<[t := sampleOf (i16le dataView (111 + 4 * Z.of_nat t))]> floatData))
          as (completion & floatData' & Hrun & Hcompl & Hlen & Hget); [lia|].
        exists completion, floatData'. split; [exact Hrun|].
        split; [exact Hcompl|]. rewrite length_insert in Hlen, Hget.
        split; [exact Hlen|].
        intros k. rewrite Hget.
        destruct (Nat.eq_dec k t) as [->|Hne].
        -- destruct (Nat.leb_spec (Datatypes.S t) t); [lia|].
           destruct (Nat.leb_spec t t); [|lia]. cbn [andb].
           unfold sampleInside.
           destruct (Z.leb_spec (111 + 4 * Z.of_nat t + 2) (DataView.byteLength dataView));
             [|lia].
           cbn [andb].
           destruct (Nat.ltb_spec t (length floatData)).
           ++ now apply list_lookup_insert_eq.
           ++ now rewrite list_insert_ge by lia.
        -- rewrite list_lookup_insert_ne by lia.
           destruct (Nat.leb_spec (Datatypes.S t) k), (Nat.leb_spec t k);
             try lia; reflexivity.
      * rewrite bind_run, bind_run. unfold lift.
        rewrite getInt16_le_out by lia.
        exists (Throw RangeError), floatData.
        split; [reflexivity|]. split; [now right|]. split; [reflexivity|].
        intros k. unfold sampleInside.
        destruct (Nat.leb_spec t k); [|reflexivity].
        destruct (Z.leb_spec (111 + 4 * Z.of_nat k + 2) (DataView.byteLength dataView));
          [lia | reflexivity].
    + exists (Ok (111 + 4 * Z.of_nat t, Z.of_nat t)), floatData.
      split; [reflexivity|]. split; [left; eauto|]. split; [reflexivity|].
      intros k. unfold sampleInside.
      destruct (Nat.leb_spec t k); [|reflexivity].
      destruct (Z.leb_spec (111 + 4 * Z.of_nat k + 2) (DataView.byteLength dataView));
        [lia | reflexivity].
Qed.

End Decoder.

Lemma gotData_run (fuel : nat) (dataView : list Z) :
  dataView <> [] ->
  (length dataView <= fuel)%nat ->
  exists floatData : list float,
    HelloWorld.gotData fuel dataView = Ok floatData
    /\ length floatData = 1275%nat
    /\ forall k : nat,
         (k < 1275)%nat ->
         floatData !! k
         = Some (if sampleInside dataView k
                 then sampleOf (i16le dataView (111 + 4 * Z.of_nat k))
                 else 0%float).
Proof.
  intros Hne Hfuel. destruct dataView as [|channel rest]; [contradiction|].
  unfold HelloWorld.gotData. rewrite getUint8_head. cbn [obind].
  rewrite alloc_ok by lia. cbn [obind].
  destruct (decodeLoop_spec (channel :: rest) fuel 0 (replicate (Z.to_nat 1275) 0%float))
    as (completion & floatData & Hrun & Hcompl & Hlen & Hget); [lia|].
  change (111 + 4 * Z.of_nat 0, Z.of_nat 0) with (11 + 100, 0) in Hrun.
  unfold try_catch. rewrite bind_run, Hrun.
  rewrite length_replicate in Hlen, Hget.
  assert (Hfinal : forall k : nat,
             (k < 1275)%nat ->
             floatData !! k
             = Some (if sampleInside (channel :: rest) k
                     then sampleOf (i16le (channel :: rest) (111 + 4 * Z.of_nat k))
                     else 0%float)).
  { intros k Hk. rewrite Hget. cbn [Nat.leb andb].
    destruct (Nat.ltb_spec k (Z.to_nat 1275)); [|lia].
    rewrite andb_true_r.
    destruct (sampleInside (channel :: rest) k); [reflexivity|].
    apply lookup_replicate_2. lia. }
  destruct Hcompl as [[v ->]| ->]; cbn [ret obind];
    exists floatData; (split; [reflexivity|]); (split; [lia|exact Hfinal]).
Qed.

(** C8, at the input where the code leaves the claim: on an empty
    buffer [gotData] throws a RangeError, whatever the fuel: the channel
    byte is read at offset 0 before the guarded loop is entered. *)
Lemma gotData_empty_buffer_throws (fuel : nat) :
  HelloWorld.gotData fuel [] = Throw RangeError.
Proof. reflexivity. Qed.

(** On every non-empty buffer, given fuel for its length, [gotData]
    resolves with 1275 single-precision samples and throws nothing:
    sample [k] is the signed little-endian 16-bit value at offset
    111 + 4 * k times 1/3096 when those two bytes lie inside the buffer,
    and is left at 0 otherwise. *)
Theorem gotData_decodes_nonempty (fuel : nat) (dataView : list Z) :
  dataView <> [] ->
  (length dataView <= fuel)%nat ->
  exists floatData : list float,
    HelloWorld.gotData fuel dataView = Ok floatData
    /\ length floatData = 1275%nat
    /\ forall k : nat,
         (k < 1275)%nat ->
         floatData !! k
         = Some (if sampleInside dataView k
                 then sampleOf (i16le dataView (111 + 4 * Z.of_nat k))
                 else 0%float).
Proof. apply gotData_run. Qed.

(** An instance: the 5211-byte unit frame. *)
Lemma gotData_decodes_nonempty_witness :
  exists floatData : list float,
    HelloWorld.gotData (Z.to_nat 5211) unitFrame = Ok floatData
    /\ length floatData = 1275%nat
    /\ forall k : nat,
         (k < 1275)%nat ->
         floatData !! k
         = Some (if sampleInside unitFrame k
                 then sampleOf (i16le unitFrame (111 + 4 * Z.of_nat k))
                 else 0%float).
Proof.
  apply (gotData_decodes_nonempty (Z.to_nat 5211) unitFrame).
  - vm_compute. discriminate.
  - vm_compute. lia.
Defined.

(** The 5211-byte frame of zeros with the 16-bit value 3096 at offset
    111 decodes to a first sample of exactly 1.0, the others 0. *)
Lemma gotData_unit_frame :
  HelloWorld.gotData (Z.to_nat 5211) unitFrame
  = Ok (1%float :: replicate 1274 0%float).
Proof. vm_compute. reflexivity. Qed.

(** A frame one byte short of its last sample: the read of that sample
    throws inside the loop, the error is caught, and the decoder still
    resolves. *)
Lemma gotData_short_frame :
  HelloWorld.gotData (Z.to_nat 5211) (take 120 unitFrame)
  = Ok (1%float :: replicate 1274 0%float).
Proof. vm_compute. reflexivity. Qed.

(** ** Edge levels *)

(** Where the clamp at 128 is not reached, the edge levels are those of
    the specification: the level oriented by the slope, and the lower
    clamp at -128. *)
Lemma edgeLevels_spec (options : EdgeTriggerOptions) :
  let level := eo_triggerLevel options in
  let upper := match eo_slope options with RISING => level | FALLING => level + 10 end in
  let lower := match eo_slope options with RISING => level - 10 | FALLING => level end in
  upper <= 127 ->
  edgeLevels options
  = if lower <? -128 then (-118, -128) else (upper, lower).
Proof.
  destruct options as [source mode type [] level]; cbn [eo_slope eo_triggerLevel];
    intros Hupper; unfold edgeLevels; cbn [eo_slope eo_triggerLevel];
    repeat match goal with
           | |- context [?a <? ?b] => destruct (Z.ltb_spec a b)
           end; try lia; reflexivity.
Qed.

(** Two instances: the lower clamp, and no clamp. *)
Lemma edgeLevels_spec_witness :
  edgeLevels {| eo_source := TS_CH1; eo_mode := SINGLE; eo_type := EDGE;
                eo_slope := FALLING; eo_triggerLevel := -200 |} = (-118, -128)
  /\ edgeLevels {| eo_source := TS_CH1; eo_mode := SINGLE; eo_type := EDGE;
                   eo_slope := RISING; eo_triggerLevel := 50 |} = (50, 40).
Proof.
  split.
  - apply (edgeLevels_spec {| eo_source := TS_CH1; eo_mode := SINGLE; eo_type := EDGE;
                              eo_slope := FALLING; eo_triggerLevel := -200 |}).
    vm_compute. discriminate.
  - apply (edgeLevels_spec {| eo_source := TS_CH1; eo_mode := SINGLE; eo_type := EDGE;
                              eo_slope := RISING; eo_triggerLevel := 50 |}).
    vm_compute. discriminate.
Defined.

(** Whatever the callback does and whatever the device answers, from
    any driver object, one call of [sampleInfinitely] writes at most 5000
    data requests: the bound of the loop is the constant of the code. *)
Theorem sampleInfinitely_at_most_5000_requests
    (gotData : list Z -> Outcome unit) (this : Owon) :
  (dataRequests (calls (device_ (snd (sampleInfinitely gotData this))))
   <= dataRequests (calls (device_ this)) + Z.to_nat 5000)%nat.
Proof. apply requests_sampleInfinitely. Qed.

(** ** Further properties of the calibration table and its use *)

Lemma loadTable_idempotent (dump data : list Z) :
  length data = 60%nat ->
  let cal := ndarray.make data (CHANNEL_COUNT, CALIBRATION_INFO_COUNT, VOLTBASE_COUNT) in
  loadTable dump (loadTable dump cal) = loadTable dump cal.
Proof.
  intros Hlen.
  do 60 (destruct data as [|? data]; [discriminate|]).
  destruct data; [|discriminate]. clear Hlen.
  cbv -[flashCell Z.modulo]. reflexivity.
Qed.

(** Parsing the same valid flash dump twice gives the same table, the
    same firmware version and the same serial number as parsing it
    once. *)
Theorem readFlash_twice_same_table
    (eps : list USBEndpoint) (ei eo : USBEndpoint) (fv sn : string)
    (data response : list Z) (rs : list (list Z)) (cs : list USBCall) :
  let receivedData := take (Z.to_nat 2002) response in
  let cal := ndarray.make data (CHANNEL_COUNT, CALIBRATION_INFO_COUNT, VOLTBASE_COUNT) in
  length data = 60%nat ->
  DataView.getUint16 receivedData 0 false = Ok FLASH_HEADER ->
  DataView.getUint32 receivedData 2 true = Ok 2 ->
  227 <= DataView.byteLength receivedData ->
  exists (cal' : ndarray.t) (fv' sn' : string) (cs1 cs2 : list USBCall),
    readFlash (session eps ei eo cal fv sn (response :: response :: rs) cs)
    = (Ok receivedData, session eps ei eo cal' fv' sn' (response :: rs) cs1)
    /\ readFlash (session eps ei eo cal' fv' sn' (response :: rs) cs1)
       = (Ok receivedData, session eps ei eo cal' fv' sn' rs cs2).
Proof.
  intros receivedData cal Hlen Hmagic Hversion Hsize.
  do 5 eexists. split.
  - apply readFlash_run; assumption.
  - rewrite readFlash_run by assumption. fold receivedData.
    unfold cal. rewrite loadTable_idempotent by assumption. reflexivity.
Qed.

(** An instance: a 227-byte dump read twice. *)
Lemma readFlash_twice_same_table_witness :
  let dump := [0xAA; 0x55; 2; 0; 0; 0] ++ flat_map (fun n => [n; 0x01]) (zrange 60)
                ++ replicate 101 0 in
  exists (cal' : ndarray.t) (fv' sn' : string) (cs1 cs2 : list USBCall),
    readFlash (session [] bulkIn bulkOut blankCalibration EmptyString EmptyString
                 [dump; dump] [])
    = (Ok (take (Z.to_nat 2002) dump),
       session [] bulkIn bulkOut cal' fv' sn' [dump] cs1)
    /\ readFlash (session [] bulkIn bulkOut cal' fv' sn' [dump] cs1)
       = (Ok (take (Z.to_nat 2002) dump),
          session [] bulkIn bulkOut cal' fv' sn' [] cs2).
Proof.
  intros dump.
  refine (readFlash_twice_same_table [] bulkIn bulkOut EmptyString EmptyString
            (replicate 60 0) dump [] [] eq_refl _ _ _).
  - vm_compute. reflexivity.
  - vm_compute. reflexivity.
  - vm_compute. discriminate.
Defined.

(** With whatever table is loaded, [configureChannel], when its three
    commands are acknowledged, writes the channel bit field (bit 7 the
    on flag, bits 6-5 the coupling, bit 1 set) to the channel register,
    then the gain cell as 16 bits little-endian to the gain register,
    then compensation - floor(amplitude / 100) as 16 bits little-endian
    to the offset register, each write followed by one status read. *)
Theorem configureChannel_three_writes
    (options : ChannelOptions)
    (eps : list USBEndpoint) (ei eo : USBEndpoint) (cal : ndarray.t)
    (fv sn : string) (r1 r2 r3 : list Z) (rs : list (list Z)) (cs : list USBCall) :
  let channel := co_channel options in
  let cell field :=
    ndarray.get cal (Channel_code channel) (CalibrationField_code field)
                (Voltage_code (co_voltage options)) in
  configureChannel options
    (session eps ei eo cal fv sn
       ((AFFIRMATIVE_RESPONSE :: r1) :: (AFFIRMATIVE_RESPONSE :: r2)
          :: (AFFIRMATIVE_RESPONSE :: r3) :: rs) cs)
  = (Ok tt,
     session eps ei eo cal fv sn rs
       (cs ++ commandCalls ei eo (CHANNEL_ADDRESS channel)
                (TypedArray.Uint8Array_from [channelBitFieldOf options])
           ++ commandCalls ei eo (VOLT_GAIN_ADDRESS channel)
                (DataView.le16 (cell GAIN))
           ++ commandCalls ei eo (ZERO_OFFSET_ADDRESS channel)
                (DataView.le16 (cell COMPENSATION - cell AMPLITUDE / 100))))
  /\ Z.testbit (channelBitFieldOf options) 7 = co_on options
  /\ Z.testbit (channelBitFieldOf options) 1 = true
  /\ Z.land (Z.shiftr (channelBitFieldOf options) 5) 3
     = Coupling_code (co_coupling options).
Proof.
  intros channel cell. split; [apply configureChannel_run|].
  destruct options as [ch [] v []]; repeat split.
Qed.

(** ** Opening the device *)

(** [open] on a freshly constructed driver object finds the first
    endpoint of each direction, asks for the device type and compares
    the answer's first byte with 0x56: on a match the object is the
    session the other statements start from, with the zero-filled
    table of the constructor; otherwise the call is rejected with the
    device-type error. *)
Theorem open_makes_session
    (eps : list USBEndpoint) (ei eo : USBEndpoint)
    (b : Z) (r : list Z) (rs : list (list Z)) (cs : list USBCall) :
  head (filter (fun endpoint => Direction_eqb (direction endpoint) dir_in = true) eps)
  = Some ei ->
  head (filter (fun endpoint => Direction_eqb (direction endpoint) dir_out = true) eps)
  = Some eo ->
  open (Owon_new {| endpoints := eps; responses := (b :: r) :: rs; calls := cs |})
  = (if b =? DEVICE_TYPE then Ok tt else Throw (DeviceTypeError b),
     session eps ei eo blankCalibration EmptyString EmptyString rs
       (cs ++ [DeviceOpen; SelectConfiguration 1; ClaimInterface 0;
               TransferOut (endpointNumber eo) [0x01; 0x40; 0; 0; 1; 0x56];
               TransferIn (endpointNumber ei) 5])).
Proof.
  intros Hin Hout. unfold open, USB.call, modify.
  do 4 (rewrite bind_run; cbv beta iota).
  cbn [Owon_new device_ endpoints set_device logged].
  rewrite Hin, Hout.
  match goal with
  | |- _ ?s = _ =>
      change s
        with (session eps ei eo blankCalibration EmptyString EmptyString
                ((b :: r) :: rs)
                (((cs ++ [DeviceOpen]) ++ [SelectConfiguration 1])
                   ++ [ClaimInterface 0]))
  end.
  unfold getDeviceType.
  rewrite bind_run, bind_run, sendCommand_run, bind_run, transferIn_run.
  change (Z.to_nat 5) with 5%nat. cbn [take]. unfold lift.
  rewrite getUint8_head.
  rewrite <- !app_assoc. cbn [app].
  destruct (b =? DEVICE_TYPE); reflexivity.
Qed.

(** An instance: the device with one endpoint each way answers 0x56. *)
Lemma open_makes_session_witness :
  open (Owon_new {| endpoints := [bulkIn; bulkOut];
                    responses := [[DEVICE_TYPE; 0; 0; 0; 0]; ack];
                    calls := [] |})
  = (Ok tt,
     session [bulkIn; bulkOut] bulkIn bulkOut blankCalibration EmptyString EmptyString
       [ack]
       ([] ++ [DeviceOpen; SelectConfiguration 1; ClaimInterface 0;
               TransferOut 3 [0x01; 0x40; 0; 0; 1; 0x56]; TransferIn 1 5])).
Proof.
  exact (open_makes_session [bulkIn; bulkOut] bulkIn bulkOut DEVICE_TYPE
           [0; 0; 0; 0] [ack] [] eq_refl eq_refl).
Defined.

(* ================================================================== *)
(** * Further properties: errors, edges and the whole session *)

(** ** Status reads *)

Lemma getUint8_nil (byteOffset : Z) : DataView.getUint8 [] byteOffset = Throw RangeError.
Proof.
  unfold DataView.getUint8, DataView.in_bounds, DataView.byteLength. cbn [length].
  destruct (0 <=? byteOffset) eqn:H0; [|reflexivity].
  destruct (byteOffset + 1 <=? Z.of_nat 0) eqn:H1; [|reflexivity].
  apply Z.leb_le in H0, H1. lia.
Qed.

(** [expectResponse] reads one answer of at most five bytes and looks at
    its first byte only: equal to the expected status, the answer is
    returned; different, the error names both bytes; an empty answer is
    a RangeError of the DataView; a silent device leaves the call
    pending; without an in endpoint nothing is read. *)
Theorem expectResponse_decides
    (expected : Z) (eps : list USBEndpoint) (ei eo : USBEndpoint) (cal : ndarray.t)
    (fv sn : string) (response : list Z) (rs : list (list Z)) (cs : list USBCall) :
  let read := cs ++ [TransferIn (endpointNumber ei) 5] in
  expectResponse expected (session eps ei eo cal fv sn (response :: rs) cs)
  = (match response with
     | [] => Throw RangeError
     | actual :: _ =>
         if actual =? expected then Ok (take 5 response)
         else Throw (ResponseError expected actual)
     end,
     session eps ei eo cal fv sn rs read)
  /\ expectResponse expected (session eps ei eo cal fv sn [] cs)
     = (Pending, session eps ei eo cal fv sn [] read)
  /\ forall this : Owon,
       inEndpoint_ this = None ->
       expectResponse expected this = (Throw MissingInEndpoint, this).
Proof.
  intros read. split; [|split].
  - unfold expectResponse. rewrite bind_run, transferIn_run.
    change (Z.to_nat 5) with 5%nat.
    destruct response as [|actual r].
    + cbn [take]. rewrite bind_run. unfold lift. rewrite getUint8_nil. reflexivity.
    + cbn [take]. rewrite bind_run. unfold lift. rewrite getUint8_head.
      destruct (actual =? expected); reflexivity.
  - unfold expectResponse. rewrite bind_run, transferIn_pending. reflexivity.
  - intros this Hin. unfold expectResponse, transferIn.
    rewrite !bind_run. unfold get_state. rewrite Hin. reflexivity.
Qed.

(** ** Before [open] *)

Lemma sendCommand_unopened (this : Owon) (address : Z) (data : list Z) :
  outEndpoint_ this = None ->
  sendCommand address data this = (Throw MissingOutEndpoint, this).
Proof.
  intros Hout. unfold sendCommand.
  rewrite (bind_lift_ok _ _ _ _ (packCommand_frameOf address data)).
  unfold transferOut. rewrite bind_run. unfold get_state. rewrite Hout. reflexivity.
Qed.

(** On a driver object that has no out endpoint (one that [open] has
    not been called on), every method that talks to the device is
    rejected with the missing-endpoint error before anything is written:
    the object, the log of the device included, is left as it was. *)
Theorem methods_before_open
    (this : Owon) (fuel : nat) (fpgaFirmware : list Z)
    (channelOptions : ChannelOptions) (timebase : Timebase)
    (triggerOptions : EdgeTriggerOptions) (gotData : list Z -> Outcome unit) :
  outEndpoint_ this = None ->
  let rejected {A : Type} (m : Promise A) := m this = (Throw MissingOutEndpoint, this) in
  rejected getDeviceType
  /\ rejected readFlash
  /\ rejected (uploadFpgaBitstream fuel fpgaFirmware)
  /\ rejected configurePhaseFine
  /\ rejected (configureChannel channelOptions)
  /\ rejected (configureTimebase timebase)
  /\ rejected (configureEdgeTrigger triggerOptions)
  /\ rejected turnOnChannel1
  /\ rejected getData
  /\ rejected (sampleInfinitely gotData).
Proof.
  intros Hout rejected. unfold rejected.
  repeat split.
  - unfold getDeviceType. now rewrite bind_run, sendCommand_unopened.
  - unfold readFlash. now rewrite bind_run, sendCommand_unopened.
  - unfold uploadFpgaBitstream.
    rewrite (bind_lift_ok _ _ _ _ (alloc_ok 0 4 ltac:(lia))).
    change (Z.to_nat 4) with 4%nat.
    rewrite (bind_lift_ok _ _ _ _ (setUint32_alloc _)).
    now rewrite bind_run, sendCommand_unopened.
  - unfold configurePhaseFine. now rewrite bind_run, sendCommand_unopened.
  - unfold configureChannel. now rewrite bind_run, sendCommand_unopened.
  - unfold configureTimebase.
    rewrite (bind_lift_ok _ _ _ _ (alloc_ok 0 4 ltac:(lia))).
    change (Z.to_nat 4) with 4%nat.
    rewrite (bind_lift_ok _ _ _ _ (setUint32_alloc _)).
    now rewrite bind_run, sendCommand_unopened.
  - unfold configureEdgeTrigger. destruct (edgeLevels triggerOptions) as [upper lower].
    now rewrite bind_run, sendCommand_unopened.
  - unfold turnOnChannel1. now rewrite bind_run, sendCommand_unopened.
  - unfold getData. now rewrite bind_run, sendCommand_unopened.
  - unfold sampleInfinitely, sampleSetup. now rewrite !bind_run, sendCommand_unopened.
Qed.

(** An instance: the object the constructor makes. *)
Lemma methods_before_open_witness :
  let this := Owon_new {| endpoints := [bulkIn; bulkOut]; responses := [ack]; calls := [] |} in
  let rejected {A : Type} (m : Promise A) := m this = (Throw MissingOutEndpoint, this) in
  rejected getDeviceType
  /\ rejected readFlash
  /\ rejected (uploadFpgaBitstream 8 [1; 2; 3])
  /\ rejected configurePhaseFine
  /\ rejected (configureChannel
                 {| co_channel := CH1; co_on := true; co_voltage := V2; co_coupling := DC |})
  /\ rejected (configureTimebase msps1)
  /\ rejected (configureEdgeTrigger
                 {| eo_source := TS_CH1; eo_mode := SINGLE; eo_type := EDGE;
                    eo_slope := RISING; eo_triggerLevel := 36 |})
  /\ rejected turnOnChannel1
  /\ rejected getData
  /\ rejected (sampleInfinitely HelloWorld.callback).
Proof.
  exact (methods_before_open
           (Owon_new {| endpoints := [bulkIn; bulkOut]; responses := [ack]; calls := [] |})
           8 [1; 2; 3]
           {| co_channel := CH1; co_on := true; co_voltage := V2; co_coupling := DC |}
           msps1
           {| eo_source := TS_CH1; eo_mode := SINGLE; eo_type := EDGE;
              eo_slope := RISING; eo_triggerLevel := 36 |}
           HelloWorld.callback eq_refl).
Defined.

(** ** [open] on a device that lacks an endpoint or an answer *)

(** [open] takes the first endpoint of each direction after it has
    opened the device, selected configuration 1 and claimed interface 0,
    and it has no [try] around what follows.  With no out endpoint the
    type query is rejected before it is written; with no in endpoint it
    is written and the read of the answer is rejected; a device that
    does not answer leaves [open] pending; an empty answer is a
    RangeError.  In each case the device stays open and claimed. *)
Theorem open_failures (eps : list USBEndpoint) (rs : list (list Z)) (cs : list USBCall) :
  let ins := filter (fun endpoint => Direction_eqb (direction endpoint) dir_in = true) eps in
  let outs := filter (fun endpoint => Direction_eqb (direction endpoint) dir_out = true) eps in
  let this := Owon_new {| endpoints := eps; responses := rs; calls := cs |} in
  let opened := cs ++ [DeviceOpen; SelectConfiguration 1; ClaimInterface 0] in
  let after (log : list USBCall) (rs' : list (list Z)) :=
    {| device_ := {| endpoints := eps; responses := rs'; calls := log |};
       inEndpoint_ := head ins;
       outEndpoint_ := head outs;
       calibrationData_ := blankCalibration;
       firmwareVersion_ := EmptyString;
       serialNumber_ := EmptyString |} in
  let query eo := TransferOut (endpointNumber eo) [0x01; 0x40; 0; 0; 1; 0x56] in
  (head outs = None -> open this = (Throw MissingOutEndpoint, after opened rs))
  /\ (forall eo : USBEndpoint,
        head outs = Some eo -> head ins = None ->
        open this = (Throw MissingInEndpoint, after (opened ++ [query eo]) rs))
  /\ (forall ei eo : USBEndpoint,
        head ins = Some ei -> head outs = Some eo ->
        (rs = [] ->
         open this
         = (Pending,
            after (opened ++ [query eo; TransferIn (endpointNumber ei) 5]) []))
        /\ (forall rs' : list (list Z),
              rs = [] :: rs' ->
              open this
              = (Throw RangeError,
                 after (opened ++ [query eo; TransferIn (endpointNumber ei) 5]) rs'))).
Proof.
  intros ins outs this opened after query.
  assert (Hstart : forall K : Promise unit,
             (USB.call DeviceOpen ;;; USB.call (SelectConfiguration 1) ;;;
              USB.call (ClaimInterface 0) ;;;
              modify (fun this =>
                let eps := endpoints (device_ this) in
                set_endpoints
                  (head (filter (fun endpoint => Direction_eqb (direction endpoint) dir_in = true) eps))
                  (head (filter (fun endpoint => Direction_eqb (direction endpoint) dir_out = true) eps))
                  this) ;;; K) this
             = K (after opened rs)).
  { intros K. unfold USB.call, modify. do 4 (rewrite bind_run; cbv beta iota).
    apply (f_equal K). unfold after, opened, this, set_endpoints, set_device, logged, Owon_new.
    cbn [device_ endpoints responses calls inEndpoint_ outEndpoint_ calibrationData_
         firmwareVersion_ serialNumber_].
    rewrite <- !app_assoc. reflexivity. }
  unfold open. rewrite Hstart. clear Hstart.
  split; [|split].
  - intros Hout. unfold getDeviceType. rewrite !bind_run.
    rewrite sendCommand_unopened; [reflexivity|exact Hout].
  - intros eo Hout Hin. unfold getDeviceType, sendCommand.
    rewrite bind_run, bind_run.
    rewrite (bind_lift_ok _ _ _ _ (packCommand_frameOf _ _)).
    unfold transferOut at 1. rewrite bind_run. unfold get_state at 1.
    cbn [outEndpoint_ after]. rewrite Hout.
    unfold USB.transferOut, USB.call, modify. cbv beta iota.
    unfold transferIn. rewrite !bind_run. unfold get_state.
    cbn [inEndpoint_ set_device after]. rewrite Hin. cbv beta iota.
    unfold throw. cbn [logged device_ after calls endpoints responses].
    unfold after. rewrite Hin, Hout. reflexivity.
  - intros ei eo Hin Hout.
    assert (Hsession : forall log rs', after log rs'
              = session eps ei eo blankCalibration EmptyString EmptyString rs' log).
    { intros log rs'. unfold after, session. now rewrite Hin, Hout. }
    rewrite !Hsession. unfold getDeviceType.
    split.
    + intros ->. rewrite bind_run, bind_run, sendCommand_run, bind_run, transferIn_pending.
      rewrite <- !app_assoc. reflexivity.
    + intros rs' ->. rewrite ?Hsession.
      rewrite bind_run, bind_run, sendCommand_run, bind_run, transferIn_run.
      change (Z.to_nat 5) with 5%nat. cbn [take]. unfold lift.
      rewrite getUint8_nil. rewrite <- !app_assoc. reflexivity.
Qed.

(** An instance: a device with an in endpoint only. *)
Lemma open_failures_witness :
  open (Owon_new {| endpoints := [bulkIn]; responses := [ack]; calls := [] |})
  = (Throw MissingOutEndpoint,
     {| device_ :=
          {| endpoints := [bulkIn]; responses := [ack];
             calls := [] ++ [DeviceOpen; SelectConfiguration 1; ClaimInterface 0] |};
        inEndpoint_ :=
          head (filter (fun endpoint => Direction_eqb (direction endpoint) dir_in = true)
                  [bulkIn]);
        outEndpoint_ :=
          head (filter (fun endpoint => Direction_eqb (direction endpoint) dir_out = true)
                  [bulkIn]);
        calibrationData_ := blankCalibration;
        firmwareVersion_ := EmptyString;
        serialNumber_ := EmptyString |}).
Proof. exact (proj1 (open_failures [bulkIn] [ack] []) eq_refl). Defined.

(** ** The window of the edge levels *)

(** Whatever the trigger level and the slope, the edge levels keep a
    distance of 10 and lie between -128 and 128 (lower between -128 and
    118); the lower one is stored unchanged in the Int8Array, the upper
    one too unless it is 128, which is stored as -128; and it is 128
    exactly when the slope-oriented level is at least 128. *)
Theorem edgeLevels_window (options : EdgeTriggerOptions) :
  let upperBound := fst (edgeLevels options) in
  let lowerBound := snd (edgeLevels options) in
  let oriented :=
    match eo_slope options with
    | RISING => eo_triggerLevel options
    | FALLING => eo_triggerLevel options + 10
    end in
  upperBound = lowerBound + 10
  /\ -128 <= lowerBound <= 118
  /\ TypedArray.Int8Array_from [upperBound; lowerBound]
     = [if upperBound =? 128 then -128 else upperBound; lowerBound]
  /\ (upperBound = 128 <-> 128 <= oriented).
Proof.
  destruct options as [source mode type slope level].
  cbn [eo_slope eo_triggerLevel]. unfold edgeLevels. cbn [eo_slope eo_triggerLevel].
  set (upper0 := match slope with RISING => level | FALLING => level + 10 end).
  assert (Hlower : match slope with RISING => level - 10 | FALLING => level end
                   = upper0 - 10)
    by (unfold upper0; destruct slope; lia).
  rewrite Hlower. clear Hlower. generalize upper0. clear. intros u.
  destruct (Z.ltb_spec 128 u) as [Hhigh|Hhigh].
  - cbv beta iota zeta. change (128 - 10 <? -128) with false. cbv iota.
    cbn [fst snd]. repeat split; try lia; try reflexivity.
  - cbv beta iota zeta. destruct (Z.ltb_spec (u - 10) (-128)) as [Hlow|Hlow].
    + cbn [fst snd]. repeat split; try lia; try reflexivity.
    + cbn [fst snd]. unfold TypedArray.Int8Array_from, TypedArray.toInt8. cbn [map].
      repeat split; try lia.
      destruct (Z.eqb_spec u 128) as [->|Hne]; [reflexivity|].
      rewrite !Z.mod_small by lia. f_equal; [lia|f_equal; lia].
Qed.

(** ** Refused commands *)

Section Refused.
Variables (eps : list USBEndpoint) (ei eo : USBEndpoint) (cal : ndarray.t)
          (fv sn : string).

Lemma command_pending {A : Type} cs (address expected : Z) (data : list Z)
    (k : Promise A) :
  (sendCommand address data ;;; expectResponse expected ;;; k)
    (session eps ei eo cal fv sn [] cs)
  = (Pending, session eps ei eo cal fv sn [] (cs ++ commandCalls ei eo address data)).
Proof.
  rewrite bind_run, sendCommand_run, bind_run.
  unfold expectResponse. rewrite bind_run, transferIn_pending.
  unfold commandCalls. rewrite <- app_assoc. reflexivity.
Qed.

End Refused.

(** A status other than 0x53 after the edge levels stops
    [configureEdgeTrigger] there: the trigger-type word is not written.
    After the trigger-type word it stops with both registers written.  A
    device that does not answer leaves the call pending after the first
    write. *)
Theorem configureEdgeTrigger_refused
    (options : EdgeTriggerOptions)
    (eps : list USBEndpoint) (ei eo : USBEndpoint) (cal : ndarray.t)
    (fv sn : string) (b : Z) (r r1 : list Z) (rs : list (list Z)) (cs : list USBCall) :
  b <> AFFIRMATIVE_RESPONSE ->
  let levels :=
    commandCalls ei eo (TRIGGER_EDGE_LEVEL_ADDRESS (eo_source options))
      (TypedArray.Int8Array_from [fst (edgeLevels options); snd (edgeLevels options)]) in
  let word := commandCalls ei eo Address.TRIGGER (DataView.le16 (triggerTypeWord options)) in
  configureEdgeTrigger options (session eps ei eo cal fv sn ((b :: r) :: rs) cs)
  = (Throw (ResponseError AFFIRMATIVE_RESPONSE b),
     session eps ei eo cal fv sn rs (cs ++ levels))
  /\ configureEdgeTrigger options
       (session eps ei eo cal fv sn ((AFFIRMATIVE_RESPONSE :: r1) :: (b :: r) :: rs) cs)
     = (Throw (ResponseError AFFIRMATIVE_RESPONSE b),
        session eps ei eo cal fv sn rs (cs ++ levels ++ word))
  /\ configureEdgeTrigger options (session eps ei eo cal fv sn [] cs)
     = (Pending, session eps ei eo cal fv sn [] (cs ++ levels)).
Proof.
  intros Hb levels word. unfold levels, word, configureEdgeTrigger.
  destruct (edgeLevels options) as [upperBound lowerBound]. cbn [fst snd].
  split; [|split].
  - now rewrite command_reject.
  - rewrite command_ok.
    rewrite (bind_lift_ok _ _ _ _ (alloc_ok 0 2 ltac:(lia))).
    change (Z.to_nat 2) with 2%nat.
    rewrite (bind_lift_ok _ _ _ _ (setUint16_alloc _)).
    rewrite command_reject by exact Hb. now rewrite <- app_assoc.
  - now rewrite command_pending.
Qed.

(** An instance: the level command for channel 2 answered by 0x45. *)
Lemma configureEdgeTrigger_refused_witness :
  let options := {| eo_source := TS_CH2; eo_mode := SINGLE; eo_type := EDGE;
                    eo_slope := FALLING; eo_triggerLevel := 20 |} in
  let this rs := session [] bulkIn bulkOut blankCalibration EmptyString EmptyString rs [] in
  configureEdgeTrigger options (this [[0x45]; ack])
  = (Throw (ResponseError AFFIRMATIVE_RESPONSE 0x45),
     session [] bulkIn bulkOut blankCalibration EmptyString EmptyString [ack]
       [TransferOut 3 [0x30; 0; 0; 0; 2; 30; 20]; TransferIn 1 5]).
Proof.
  intros options this.
  refine (proj1 (configureEdgeTrigger_refused options [] bulkIn bulkOut blankCalibration
                   EmptyString EmptyString 0x45 [] [] [ack] [] _)).
  vm_compute. discriminate.
Defined.

(** The first status other than 0x53 stops [configureChannel]: after the
    bit field neither gain nor offset is written, after the gain the
    offset is not written. *)
Theorem configureChannel_refused
    (options : ChannelOptions)
    (eps : list USBEndpoint) (ei eo : USBEndpoint) (cal : ndarray.t)
    (fv sn : string) (b : Z) (r r1 r2 : list Z) (rs : list (list Z))
    (cs : list USBCall) :
  b <> AFFIRMATIVE_RESPONSE ->
  let channel := co_channel options in
  let cell field :=
    ndarray.get cal (Channel_code channel) (CalibrationField_code field)
                (Voltage_code (co_voltage options)) in
  let bits := commandCalls ei eo (CHANNEL_ADDRESS channel)
                (TypedArray.Uint8Array_from [channelBitFieldOf options]) in
  let gain := commandCalls ei eo (VOLT_GAIN_ADDRESS channel) (DataView.le16 (cell GAIN)) in
  let offset := commandCalls ei eo (ZERO_OFFSET_ADDRESS channel)
                  (DataView.le16 (cell COMPENSATION - cell AMPLITUDE / 100)) in
  let refused answers written :=
    configureChannel options (session eps ei eo cal fv sn (answers ++ (b :: r) :: rs) cs)
    = (Throw (ResponseError AFFIRMATIVE_RESPONSE b),
       session eps ei eo cal fv sn rs (cs ++ written)) in
  refused [] bits
  /\ refused [AFFIRMATIVE_RESPONSE :: r1] (bits ++ gain)
  /\ refused [AFFIRMATIVE_RESPONSE :: r1; AFFIRMATIVE_RESPONSE :: r2]
       (bits ++ gain ++ offset).
Proof.
  intros Hb channel cell bits gain offset refused.
  unfold refused, bits, gain, offset, cell, channel, configureChannel. cbn [app].
  fold (channelBitFieldOf options).
  split; [|split].
  - now rewrite command_reject.
  - rewrite command_ok. rewrite bind_run. unfold get_state at 1. cbv beta iota.
    cbn [calibrationData_ session].
    rewrite (bind_lift_ok _ _ _ _ (alloc_ok 0 2 ltac:(lia))).
    change (Z.to_nat 2) with 2%nat.
    rewrite (bind_lift_ok _ _ _ _ (setUint16_alloc _)).
    rewrite command_reject by exact Hb. now rewrite <- app_assoc.
  - rewrite command_ok. rewrite bind_run. unfold get_state at 1. cbv beta iota.
    cbn [calibrationData_ session].
    rewrite (bind_lift_ok _ _ _ _ (alloc_ok 0 2 ltac:(lia))).
    change (Z.to_nat 2) with 2%nat.
    rewrite (bind_lift_ok _ _ _ _ (setUint16_alloc _)).
    rewrite command_ok. rewrite bind_run. unfold get_state at 1. cbv beta iota.
    cbn [calibrationData_ session].
    rewrite (bind_lift_ok _ _ _ _ (alloc_ok 0 2 ltac:(lia))).
    change (Z.to_nat 2) with 2%nat.
    rewrite (bind_lift_ok _ _ _ _ (setUint16_alloc _)).
    rewrite command_reject by exact Hb. now rewrite <- !app_assoc.
Qed.

(** An instance: the gain command of channel 2 answered by 0x00. *)
Lemma configureChannel_refused_witness :
  let options := {| co_channel := CH2; co_on := false; co_voltage := MV50;
                    co_coupling := AC |} in
  configureChannel options
    (session [] bulkIn bulkOut blankCalibration EmptyString EmptyString [ack; [0x00]; ack] [])
  = (Throw (ResponseError AFFIRMATIVE_RESPONSE 0x00),
     session [] bulkIn bulkOut blankCalibration EmptyString EmptyString [ack]
       [TransferOut 3 [0x10; 0x01; 0; 0; 1; 0x02]; TransferIn 1 5;
        TransferOut 3 [0x14; 0x01; 0; 0; 2; 0; 0]; TransferIn 1 5]).
Proof.
  intros options.
  refine (proj1 (proj2 (configureChannel_refused options [] bulkIn bulkOut blankCalibration
                          EmptyString EmptyString 0x00 [] [0; 0; 0; 0] [] [ack] [] _))).
  vm_compute. discriminate.
Defined.

(** A status other than 0x53 after one of the eight commands of the arm
    sequence stops [sampleInfinitely] there: the commands after it are
    not written, no cycle is run and no data is requested. *)
Theorem sampleInfinitely_arm_refused
    (gotData : list Z -> Outcome unit)
    (eps : list USBEndpoint) (ei eo : USBEndpoint) (cal : ndarray.t)
    (fv sn : string) (tails : list (list Z)) (b : Z) (r : list Z)
    (rs : list (list Z)) (cs : list USBCall) :
  (length tails < 8)%nat ->
  b <> AFFIRMATIVE_RESPONSE ->
  let written := take (2 * Datatypes.S (length tails)) (setupCalls ei eo) in
  sampleInfinitely gotData
    (session eps ei eo cal fv sn
       (map (cons AFFIRMATIVE_RESPONSE) tails ++ (b :: r) :: rs) cs)
  = (Throw (ResponseError AFFIRMATIVE_RESPONSE b),
     session eps ei eo cal fv sn rs (cs ++ written))
  /\ dataRequests written = 0%nat.
Proof.
  intros Hlen Hb written. unfold written. clear written.
  unfold sampleInfinitely. rewrite bind_run. unfold sampleSetup.
  do 8 (destruct tails as [|? tails];
        [ cbn [map app length];
          rewrite ?command_ok; rewrite command_reject by exact Hb;
          split; [rewrite <- ?app_assoc; reflexivity | reflexivity]
        | ]).
  cbn [length] in Hlen. lia.
Qed.

(** An instance: the third command of the arm sequence answered by
    0x00. *)
Lemma sampleInfinitely_arm_refused_witness :
  sampleInfinitely HelloWorld.callback
    (session [] bulkIn bulkOut blankCalibration EmptyString EmptyString
       (map (cons AFFIRMATIVE_RESPONSE) [[]; []] ++ [0x00] :: [ack]) [])
  = (Throw (ResponseError AFFIRMATIVE_RESPONSE 0x00),
     session [] bulkIn bulkOut blankCalibration EmptyString EmptyString [ack]
       ([] ++ take (2 * 3) (setupCalls bulkIn bulkOut))).
Proof.
  refine (proj1 (sampleInfinitely_arm_refused HelloWorld.callback [] bulkIn bulkOut
                   blankCalibration EmptyString EmptyString [[]; []] 0x00 [] [ack] [] _ _)).
  - vm_compute. lia.
  - vm_compute. discriminate.
Defined.

(** ** Reading back what was stored *)

Lemma testbit_byteOf_shiftl (v k s n : Z) :
  0 <= k -> s = 8 * k -> 0 <= n ->
  Z.testbit (Z.shiftl (DataView.byteOf v k) s) n
  = if (s <=? n) && (n <? s + 8) then Z.testbit v n else false.
Proof.
  intros Hk -> Hn. rewrite Z.shiftl_spec by lia. unfold DataView.byteOf.
  destruct (Z.leb_spec (8 * k) n) as [Hle|Hlt]; cbn [andb].
  - change 0xff with (Z.ones 8).
    rewrite Z.land_spec, Z.shiftr_spec, Z.testbit_ones_nonneg by lia.
    replace (n - 8 * k + 8 * k) with n by lia.
    destruct (Z.ltb_spec (n - 8 * k) 8), (Z.ltb_spec n (8 * k + 8));
      try lia; first [apply andb_true_r | apply andb_false_r].
  - apply Z.testbit_neg_r. lia.
Qed.

Lemma testbit_above (v n m : Z) :
  0 <= v < 2 ^ m -> 0 <= m <= n -> Z.testbit v n = false.
Proof.
  intros Hv Hn. destruct (Z.eq_dec v 0) as [->|Hne]; [apply Z.testbit_0_l|].
  apply Z.bits_above_log2; [lia|].
  assert (Z.log2 v < m) by (apply Z.log2_lt_pow2; lia). lia.
Qed.

Lemma le32_value (v : Z) :
  0 <= v < 2 ^ 32 ->
  Z.lor (Z.lor (DataView.byteOf v 0) (Z.shiftl (DataView.byteOf v 1) 8))
        (Z.lor (Z.shiftl (DataView.byteOf v 2) 16) (Z.shiftl (DataView.byteOf v 3) 24))
  = v.
Proof.
  intros Hv. apply Z.bits_inj'. intros n Hn.
  rewrite <- (Z.shiftl_0_r (DataView.byteOf v 0)).
  rewrite !Z.lor_spec.
  rewrite (testbit_byteOf_shiftl v 0 0 n), (testbit_byteOf_shiftl v 1 8 n),
    (testbit_byteOf_shiftl v 2 16 n), (testbit_byteOf_shiftl v 3 24 n) by lia.
  destruct (Z.leb_spec 0 n), (Z.ltb_spec n (0 + 8)), (Z.leb_spec 8 n),
    (Z.ltb_spec n (8 + 8)), (Z.leb_spec 16 n), (Z.ltb_spec n (16 + 8)),
    (Z.leb_spec 24 n), (Z.ltb_spec n (24 + 8));
    try lia; cbn [andb orb]; rewrite ?orb_false_r; try reflexivity.
  symmetry. apply (testbit_above v n 32); lia.
Qed.

Lemma getUint32_le32 (v : Z) (rest : list Z) :
  0 <= v < 2 ^ 32 ->
  DataView.getUint32 (DataView.le32 v ++ rest) 0 true = Ok v.
Proof.
  intros Hv. unfold DataView.getUint32, DataView.in_bounds, DataView.byteLength.
  rewrite length_app. cbn [DataView.le32 length].
  replace ((0 <=? 0) && (0 + 4 <=? Z.of_nat (4 + length rest))) with true
    by (symmetry; apply andb_true_intro; split; apply Z.leb_le; lia).
  cbv beta iota zeta. apply (f_equal Ok). exact (le32_value v Hv).
Qed.

Lemma map_toUint8_bytes (data : list Z) :
  Forall (fun b => 0 <= b < 256) data -> map TypedArray.toUint8 data = data.
Proof.
  induction 1 as [|b data Hb _ IH]; [reflexivity|].
  cbn [map]. rewrite IH. unfold TypedArray.toUint8. now rewrite Z.mod_small.
Qed.

Lemma le32_inj (v v' : Z) :
  0 <= v < 2 ^ 32 -> 0 <= v' < 2 ^ 32 -> DataView.le32 v = DataView.le32 v' -> v = v'.
Proof.
  intros Hv Hv' Heq. rewrite <- (le32_value v), <- (le32_value v') by assumption.
  unfold DataView.le32 in Heq. injection Heq as -> -> -> ->. reflexivity.
Qed.

(** ** The frame of a command read back *)

(** A frame built by [packCommand] from an address below 2^32 and at
    most 255 bytes gives them back: the address is the 32-bit
    little-endian value at offset 0, the byte at offset 4 is the number
    of payload bytes and the payload is what follows; so two commands
    with the same frame have the same address and the same payload. *)
Theorem packCommand_round_trip (address : Z) (data : list Z) :
  0 <= address < 2 ^ 32 ->
  (length data <= 255)%nat ->
  Forall (fun b => 0 <= b < 256) data ->
  exists frame : list Z,
    packCommand address data = Ok frame
    /\ DataView.getUint32 frame 0 true = Ok address
    /\ DataView.getUint8 frame 4 = Ok (DataView.byteLength data)
    /\ TypedArray.view frame 5 (DataView.byteLength data) = Ok data
    /\ forall (address' : Z) (data' : list Z),
         0 <= address' < 2 ^ 32 ->
         Forall (fun b => 0 <= b < 256) data' ->
         packCommand address' data' = Ok frame ->
         address' = address /\ data' = data.
Proof.
  intros Haddress Hlen Hbytes. exists (frameOf address data).
  split; [apply packCommand_frameOf|].
  unfold frameOf. rewrite (map_toUint8_bytes data Hbytes).
  split; [now apply getUint32_le32|].
  split; [|split].
  - unfold DataView.getUint8, DataView.in_bounds, DataView.byteLength.
    rewrite !length_app. cbn [DataView.le32 length].
    replace ((0 <=? 4) && (4 + 1 <=? Z.of_nat (4 + (1 + length data)))) with true
      by (symmetry; apply andb_true_intro; split; apply Z.leb_le; lia).
    cbv beta iota zeta. apply (f_equal Ok).
    change (DataView.byteOf (Z.of_nat (length data)) 0 = Z.of_nat (length data)).
    rewrite byteOf_0. apply Z.mod_small. lia.
  - rewrite view_ok.
    + unfold DataView.byteLength. rewrite Nat2Z.id. cbn.
      now rewrite firstn_all.
    + lia.
    + unfold DataView.byteLength. lia.
    + unfold DataView.byteLength. rewrite !length_app. cbn [DataView.le32 length]. lia.
  - intros address' data' Haddress' Hbytes' Hpack.
    rewrite packCommand_frameOf in Hpack.
    assert (Hframe : DataView.le32 address'
                       ++ [DataView.byteOf (DataView.byteLength data') 0] ++ data'
                     = DataView.le32 address
                       ++ [DataView.byteOf (DataView.byteLength data) 0] ++ data).
    { rewrite <- (map_toUint8_bytes data' Hbytes') at 2.
      change (frameOf address' data'
              = DataView.le32 address
                  ++ [DataView.byteOf (DataView.byteLength data) 0] ++ data).
      congruence. }
    apply app_inj_1 in Hframe; [|reflexivity].
    destruct Hframe as [Hhead Htail]. apply (f_equal (drop 1)) in Htail.
    split; [now apply le32_inj|exact Htail].
Qed.

(** An instance: the deep-memory command of the arm sequence. *)
Lemma packCommand_round_trip_witness :
  exists frame : list Z,
    packCommand Address.DEEP_MEMORY [0xec; 0x13] = Ok frame
    /\ DataView.getUint32 frame 0 true = Ok Address.DEEP_MEMORY
    /\ DataView.getUint8 frame 4 = Ok (DataView.byteLength [0xec; 0x13])
    /\ TypedArray.view frame 5 (DataView.byteLength [0xec; 0x13]) = Ok [0xec; 0x13]
    /\ forall (address' : Z) (data' : list Z),
         0 <= address' < 2 ^ 32 ->
         Forall (fun b => 0 <= b < 256) data' ->
         packCommand address' data' = Ok frame ->
         address' = Address.DEEP_MEMORY /\ data' = [0xec; 0x13].
Proof.
  refine (packCommand_round_trip Address.DEEP_MEMORY [0xec; 0x13] _ _ _).
  - vm_compute. split; [discriminate | reflexivity].
  - vm_compute. lia.
  - repeat constructor; vm_compute; discriminate.
Defined.

(** ** The timebase *)

(** [configureTimebase] writes the code of the timebase as 32 bits
    little-endian to register 0x52 and reads one status: 0x53 resolves
    the call, any other byte rejects it.  The four bytes read back as
    the code, for each of the thirteen timebases; the upper two are 0. *)
Theorem configureTimebase_writes_code
    (timebase : Timebase)
    (eps : list USBEndpoint) (ei eo : USBEndpoint) (cal : ndarray.t)
    (fv sn : string) (b : Z) (r : list Z) (rs : list (list Z)) (cs : list USBCall) :
  let code := Timebase_code timebase in
  configureTimebase timebase (session eps ei eo cal fv sn ((b :: r) :: rs) cs)
  = (if b =? AFFIRMATIVE_RESPONSE then Ok tt
     else Throw (ResponseError AFFIRMATIVE_RESPONSE b),
     session eps ei eo cal fv sn rs
       (cs ++ [TransferOut (endpointNumber eo) ([0x52; 0; 0; 0; 4] ++ DataView.le32 code);
               TransferIn (endpointNumber ei) 5]))
  /\ DataView.getUint32 (DataView.le32 code) 0 true = Ok code
  /\ DataView.le32 code = [code mod 256; code / 256; 0; 0].
Proof.
  intros code. split; [|split].
  - unfold configureTimebase.
    rewrite (bind_lift_ok _ _ _ _ (alloc_ok 0 4 ltac:(lia))).
    change (Z.to_nat 4) with 4%nat.
    rewrite (bind_lift_ok _ _ _ _ (setUint32_alloc _)). fold code.
    assert (Hframe : commandCalls ei eo Address.TIMEBASE (DataView.le32 code)
                     = [TransferOut (endpointNumber eo)
                          ([0x52; 0; 0; 0; 4] ++ DataView.le32 code);
                        TransferIn (endpointNumber ei) 5]).
    { unfold commandCalls, frameOf. cbn [map DataView.le32].
      rewrite !toUint8_byteOf. reflexivity. }
    rewrite <- Hframe.
    destruct (Z.eqb_spec b AFFIRMATIVE_RESPONSE) as [->|Hb].
    + now rewrite command_ok.
    + now rewrite command_reject.
  - rewrite <- (app_nil_r (DataView.le32 code)). apply getUint32_le32.
    unfold code. destruct timebase; vm_compute; (split; [discriminate | reflexivity]).
  - unfold code. destruct timebase; reflexivity.
Qed.

(** ** [getData] *)

(** [getData] writes its request and reads one frame of at most 5211
    bytes without looking for a status: it resolves on every answer of
    at least one byte, throws a RangeError on an empty one, and stays
    pending when the device does not answer. *)
Theorem getData_outcome
    (eps : list USBEndpoint) (ei eo : USBEndpoint) (cal : ndarray.t)
    (fv sn : string) (frame : list Z) (rs : list (list Z)) (cs : list USBCall) :
  let asked := cs ++ [TransferOut (endpointNumber eo) [0x00; 0x10; 0; 0; 2; 0x05; 0x05];
                      TransferIn (endpointNumber ei) 5211] in
  getData (session eps ei eo cal fv sn (frame :: rs) cs)
  = (match frame with [] => Throw RangeError | _ :: _ => Ok tt end,
     session eps ei eo cal fv sn rs asked)
  /\ getData (session eps ei eo cal fv sn [] cs)
     = (Pending, session eps ei eo cal fv sn [] asked).
Proof.
  intros asked. unfold asked, getData. split.
  - rewrite bind_run, sendCommand_run, bind_run, transferIn_run.
    rewrite <- app_assoc. destruct frame as [|channel frame].
    + rewrite take_nil. rewrite bind_run. unfold lift. rewrite getUint8_nil. reflexivity.
    + change (Z.to_nat 5211) with (Datatypes.S (Z.to_nat 5210)). cbn [take].
      rewrite bind_run. unfold lift. rewrite getUint8_head. reflexivity.
  - rewrite bind_run, sendCommand_run, bind_run, transferIn_pending.
    rewrite <- app_assoc. reflexivity.
Qed.

(** ** A flash dump that is too short *)

Lemma getUint16_out (buf : list Z) (byteOffset : Z) (littleEndian : bool) :
  DataView.byteLength buf < byteOffset + 2 ->
  DataView.getUint16 buf byteOffset littleEndian = Throw RangeError.
Proof.
  intros H. unfold DataView.getUint16, DataView.in_bounds.
  destruct (Z.leb_spec (byteOffset + 2) (DataView.byteLength buf)); [lia|].
  now rewrite andb_false_r.
Qed.

Lemma view_out (buf : list Z) (byteOffset len : Z) :
  DataView.byteLength buf < byteOffset + len ->
  TypedArray.view buf byteOffset len = Throw RangeError.
Proof.
  intros H. unfold TypedArray.view.
  destruct (Z.leb_spec (byteOffset + len) (DataView.byteLength buf)); [lia|].
  now rewrite andb_false_r.
Qed.

Section ShortFlash.
Variables (eps : list USBEndpoint) (ei eo : USBEndpoint) (fv sn : string).
Variable dump : list Z.

Lemma voltbase_out {A : Type} cal rs cs (info ch k off : Z) (K : Z -> Promise A) :
  DataView.byteLength dump < off + 2 ->
  bind (value <- lift (DataView.getUint16 dump off true) ;;
        modify (fun this =>
          set_calibrationData
            (ndarray.set (calibrationData_ this) ch info k value) this) ;;;
        ret (off + 2)) K
    (session eps ei eo cal fv sn rs cs)
  = (Throw RangeError, session eps ei eo cal fv sn rs cs).
Proof.
  intros H. rewrite bind_run, bind_run. unfold lift.
  rewrite getUint16_out by assumption. reflexivity.
Qed.

Lemma readVoltbases_short cal rs cs (info ch off : Z) :
  0 <= off -> DataView.byteLength dump < off + 20 ->
  exists cal' : ndarray.t,
    readVoltbases dump info ch off (session eps ei eo cal fv sn rs cs)
    = (Throw RangeError, session eps ei eo cal' fv sn rs cs).
Proof.
  intros H0 H1. unfold readVoltbases.
  change (Z.to_nat VOLTBASE_COUNT) with 10%nat. cbn [for_].
  do 10 (match goal with
         | |- context [DataView.getUint16 dump ?o true] =>
             destruct (Z_lt_le_dec (DataView.byteLength dump) (o + 2));
             [ rewrite voltbase_out by lia; eexists; reflexivity
             | rewrite (voltbase_step eps ei eo fv sn dump) by lia ]
         end).
  lia.
Qed.

Lemma readChannels_short cal rs cs (info off : Z) :
  off = 6 + 2 * (20 * info) ->
  0 <= off -> DataView.byteLength dump < off + 40 ->
  exists cal' : ndarray.t,
    readChannels dump info off (session eps ei eo cal fv sn rs cs)
    = (Throw RangeError, session eps ei eo cal' fv sn rs cs).
Proof.
  intros Hoff H0 H1. unfold readChannels.
  change (Z.to_nat CHANNEL_COUNT) with 2%nat. cbn [for_].
  change (0 + 1) with 1. rewrite bind_run.
  destruct (Z_lt_le_dec (DataView.byteLength dump) (off + 20)) as [Hrow|Hrow].
  - destruct (readVoltbases_short cal rs cs info 0 off H0 Hrow) as [cal' ->].
    now exists cal'.
  - rewrite (readVoltbases_run eps ei eo fv sn dump) by lia.
    rewrite bind_run.
    destruct (readVoltbases_short (loadRow dump info 0 cal) rs cs info 1 (off + 20))
      as [cal' ->]; [lia|lia|].
    now exists cal'.
Qed.

Lemma readCalibrationInfos_short cal rs cs :
  DataView.byteLength dump < 126 ->
  exists cal' : ndarray.t,
    readCalibrationInfos dump 6 (session eps ei eo cal fv sn rs cs)
    = (Throw RangeError, session eps ei eo cal' fv sn rs cs).
Proof.
  intros H1. unfold readCalibrationInfos.
  change (Z.to_nat CALIBRATION_INFO_COUNT) with 3%nat. cbn [for_].
  change (0 + 1 + 1) with 2. change (0 + 1) with 1.
  rewrite bind_run.
  destruct (Z_lt_le_dec (DataView.byteLength dump) (6 + 40)) as [Hgain|Hgain].
  { destruct (readChannels_short cal rs cs 0 6) as [cal' ->]; [lia|lia|lia|].
    now exists cal'. }
  rewrite (readChannels_run eps ei eo fv sn dump) by lia. rewrite bind_run.
  destruct (Z_lt_le_dec (DataView.byteLength dump) (6 + 40 + 40)) as [Hamp|Hamp].
  { destruct (readChannels_short (loadField dump 0 cal) rs cs 1 (6 + 40))
      as [cal' ->]; [lia|lia|lia|].
    now exists cal'. }
  rewrite (readChannels_run eps ei eo fv sn dump) by lia. rewrite bind_run.
  destruct (readChannels_short (loadField dump 1 (loadField dump 0 cal)) rs cs 2
              (6 + 40 + 40)) as [cal' ->]; [lia|lia|lia|].
  now exists cal'.
Qed.

End ShortFlash.

(** [readFlash] is not atomic.  On a dump with the right magic and
    version but fewer than 227 bytes it throws a RangeError, and what it
    had stored before stays stored: from 126 bytes on the whole
    calibration table has been replaced by the values of the dump, and
    from 211 bytes on the firmware version too; the serial number is
    never reached. *)
Theorem readFlash_short_dump
    (eps : list USBEndpoint) (ei eo : USBEndpoint) (fv sn : string)
    (data response : list Z) (rs : list (list Z)) (cs : list USBCall) :
  let receivedData := take (Z.to_nat 2002) response in
  let cal := ndarray.make data (CHANNEL_COUNT, CALIBRATION_INFO_COUNT, VOLTBASE_COUNT) in
  length data = 60%nat ->
  DataView.getUint16 receivedData 0 false = Ok FLASH_HEADER ->
  DataView.getUint32 receivedData 2 true = Ok 2 ->
  DataView.byteLength receivedData < 227 ->
  exists (cal' : ndarray.t) (fv' : string),
    readFlash (session eps ei eo cal fv sn (response :: rs) cs)
    = (Throw RangeError, session eps ei eo cal' fv' sn rs (cs ++ flashCalls ei eo))
    /\ fv' = (if 211 <=? DataView.byteLength receivedData
              then fromCharCodes (take 4 (drop 207 receivedData)) else fv)
    /\ (126 <= DataView.byteLength receivedData ->
        forall field channel range : Z,
          0 <= field < 3 -> 0 <= channel < 2 -> 0 <= range < 10 ->
          ndarray.get cal' channel field range
          = flashCell receivedData field channel range mod 0x10000).
Proof.
  intros receivedData cal Hdata Hmagic Hversion Hlen.
  assert (Hstart :
    readFlash (session eps ei eo cal fv sn (response :: rs) cs)
    = bind (readCalibrationInfos receivedData 6)
        (fun bufferOffset =>
           firmwareVersion <- lift (TypedArray.view receivedData 207 4) ;;
           modify (set_firmwareVersion (fromCharCodes firmwareVersion)) ;;;
           serialNumber <- lift (TypedArray.view receivedData 212 15) ;;
           modify (set_serialNumber (fromCharCodes serialNumber)) ;;;
           ret receivedData)
        (session eps ei eo cal fv sn rs (cs ++ flashCalls ei eo))).
  { unfold readFlash.
    rewrite bind_run, sendCommand_run, bind_run, transferIn_run.
    fold receivedData.
    rewrite (bind_lift_ok _ _ _ _ Hmagic).
    change (negb (FLASH_HEADER =? FLASH_HEADER)) with false. cbv iota.
    rewrite (bind_lift_ok _ _ _ _ Hversion).
    change (negb (2 =? 2)) with false. cbv iota zeta.
    now rewrite <- app_assoc. }
  rewrite Hstart. clear Hstart. rewrite bind_run.
  destruct (Z_lt_le_dec (DataView.byteLength receivedData) 126) as [Hshort|Htable].
  - destruct (readCalibrationInfos_short eps ei eo fv sn receivedData cal rs
                (cs ++ flashCalls ei eo) Hshort) as [cal' ->].
    exists cal', fv. split; [reflexivity|]. split; [|lia].
    destruct (Z.leb_spec 211 (DataView.byteLength receivedData)); [lia|reflexivity].
  - rewrite readCalibrationInfos_run by exact Htable.
    exists (loadTable receivedData cal).
    destruct (Z.leb_spec 211 (DataView.byteLength receivedData)) as [Hfv|Hfv].
    + exists (fromCharCodes (take 4 (drop 207 receivedData))).
      split; [|split; [reflexivity|]].
      * rewrite bind_lift_ok with (a := take 4 (drop 207 receivedData))
          by (now apply view_ok; lia).
        rewrite bind_run. unfold modify at 1. cbv beta.
        rewrite bind_run. unfold lift. rewrite view_out by lia. reflexivity.
      * intros _ field channel range Hf Hc Hr. now apply loadTable_get.
    + exists fv. split; [|split; [reflexivity|]].
      * rewrite bind_run. unfold lift. rewrite view_out by lia. reflexivity.
      * intros _ field channel range Hf Hc Hr. now apply loadTable_get.
Qed.

(** An instance: a dump of 150 bytes, which holds the 60 cells and
    stops before the firmware version. *)
Lemma readFlash_short_dump_witness :
  let dump := [0xAA; 0x55; 2; 0; 0; 0] ++ flat_map (fun n => [n; 0x01]) (zrange 60)
                ++ replicate 24 0 in
  exists (cal' : ndarray.t) (fv' : string),
    readFlash (session [] bulkIn bulkOut blankCalibration EmptyString EmptyString [dump] [])
    = (Throw RangeError,
       session [] bulkIn bulkOut cal' fv' EmptyString []
         ([] ++ flashCalls bulkIn bulkOut))
    /\ fv' = (if 211 <=? DataView.byteLength (take (Z.to_nat 2002) dump)
              then fromCharCodes (take 4 (drop 207 (take (Z.to_nat 2002) dump)))
              else EmptyString)
    /\ (126 <= DataView.byteLength (take (Z.to_nat 2002) dump) ->
        forall field channel range : Z,
          0 <= field < 3 -> 0 <= channel < 2 -> 0 <= range < 10 ->
          ndarray.get cal' channel field range
          = flashCell (take (Z.to_nat 2002) dump) field channel range mod 0x10000).
Proof.
  intros dump.
  refine (readFlash_short_dump [] bulkIn bulkOut EmptyString EmptyString
            (replicate 60 0) dump [] [] eq_refl _ _ _).
  - vm_compute. reflexivity.
  - vm_compute. reflexivity.
  - vm_compute. reflexivity.
Defined.

(** ** From the flash dump to the channel registers *)

(** [readFlash] followed by [configureChannel]: the gain written to the
    channel's gain register is the 16-bit value the dump holds for that
    channel and voltage range, and the zero offset is the dump's
    compensation minus floor(amplitude / 100) for them. *)
Theorem configureChannel_after_readFlash
    (options : ChannelOptions)
    (eps : list USBEndpoint) (ei eo : USBEndpoint) (fv sn : string)
    (data response r1 r2 r3 : list Z) (rs : list (list Z)) (cs : list USBCall) :
  let receivedData := take (Z.to_nat 2002) response in
  let cal := ndarray.make data (CHANNEL_COUNT, CALIBRATION_INFO_COUNT, VOLTBASE_COUNT) in
  let channel := co_channel options in
  let cell field :=
    flashCell receivedData (CalibrationField_code field) (Channel_code channel)
      (Voltage_code (co_voltage options)) mod 0x10000 in
  length data = 60%nat ->
  DataView.getUint16 receivedData 0 false = Ok FLASH_HEADER ->
  DataView.getUint32 receivedData 2 true = Ok 2 ->
  227 <= DataView.byteLength receivedData ->
  (readFlash ;;; configureChannel options)
    (session eps ei eo cal fv sn
       (response :: (AFFIRMATIVE_RESPONSE :: r1) :: (AFFIRMATIVE_RESPONSE :: r2)
          :: (AFFIRMATIVE_RESPONSE :: r3) :: rs) cs)
  = (Ok tt,
     session eps ei eo (loadTable receivedData cal)
       (fromCharCodes (take 4 (drop 207 receivedData)))
       (fromCharCodes (take 15 (drop 212 receivedData)))
       rs
       (cs ++ flashCalls ei eo
           ++ commandCalls ei eo (CHANNEL_ADDRESS channel)
                (TypedArray.Uint8Array_from [channelBitFieldOf options])
           ++ commandCalls ei eo (VOLT_GAIN_ADDRESS channel) (DataView.le16 (cell GAIN))
           ++ commandCalls ei eo (ZERO_OFFSET_ADDRESS channel)
                (DataView.le16 (cell COMPENSATION - cell AMPLITUDE / 100)))).
Proof.
  intros receivedData cal channel cell Hdata Hmagic Hversion Hlen.
  rewrite bind_run, readFlash_run by assumption. fold receivedData.
  pose proof (configureChannel_run eps ei eo
                (fromCharCodes (take 4 (drop 207 receivedData)))
                (fromCharCodes (take 15 (drop 212 receivedData)))
                (loadTable receivedData cal) r1 r2 r3 rs
                (cs ++ flashCalls ei eo) options) as Hrun.
  cbv zeta in Hrun. unfold flashCalls in Hrun at 1. rewrite Hrun. clear Hrun.
  assert (Hcell : forall field : CalibrationField,
             ndarray.get (loadTable receivedData cal) (Channel_code channel)
               (CalibrationField_code field) (Voltage_code (co_voltage options))
             = cell field).
  { intros field. unfold cell, cal. apply loadTable_get; [exact Hdata| | |].
    - destruct field; vm_compute; (split; [discriminate|reflexivity]).
    - destruct channel; vm_compute; (split; [discriminate|reflexivity]).
    - destruct (co_voltage options); vm_compute; (split; [discriminate|reflexivity]). }
  fold channel. rewrite !Hcell. now rewrite <- !app_assoc.
Qed.

(** An instance: cell n of the dump holds 256 + n; channel 1 at 2 V
    has gain 264 and zero offset 304 - floor(284 / 100) = 302. *)
Lemma configureChannel_after_readFlash_witness :
  let dump := [0xAA; 0x55; 2; 0; 0; 0] ++ flat_map (fun n => [n; 0x01]) (zrange 60)
                ++ replicate 101 0 in
  let options := {| co_channel := CH1; co_on := true; co_voltage := V2;
                    co_coupling := DC |} in
  exists this : Owon,
    (readFlash ;;; configureChannel options)
      (session [] bulkIn bulkOut blankCalibration EmptyString EmptyString
         [dump; ack; ack; ack] [])
    = (Ok tt, this)
    /\ calls (device_ this)
       = [TransferOut 3 [0xb0; 0x01; 0; 0; 1; 0x01]; TransferIn 1 2002;
          TransferOut 3 [0x11; 0x01; 0; 0; 1; 0xa2]; TransferIn 1 5;
          TransferOut 3 [0x16; 0x01; 0; 0; 2; 8; 1]; TransferIn 1 5;
          TransferOut 3 [0x0a; 0x01; 0; 0; 2; 46; 1]; TransferIn 1 5].
Proof.
  intros dump options. eexists. split.
  - refine (configureChannel_after_readFlash options [] bulkIn bulkOut EmptyString
              EmptyString (replicate 60 0) dump [0; 0; 0; 0] [0; 0; 0; 0] [0; 0; 0; 0]
              [] [] eq_refl _ _ _).
    + vm_compute. reflexivity.
    + vm_compute. reflexivity.
    + vm_compute. discriminate.
  - vm_compute. reflexivity.
Defined.

(** ** The handshake of the firmware upload *)


Lemma getUint32_out (buf : list Z) (byteOffset : Z) (littleEndian : bool) :
  DataView.byteLength buf < byteOffset + 4 ->
  DataView.getUint32 buf byteOffset littleEndian = Throw RangeError.
Proof.
  intros H. unfold DataView.getUint32, DataView.in_bounds.
  destruct (Z.leb_spec (byteOffset + 4) (DataView.byteLength buf)); [lia|].
  now rewrite andb_false_r.
Qed.

Lemma setUint32_out (buf : list Z) (byteOffset value : Z) (littleEndian : bool) :
  DataView.byteLength buf < byteOffset + 4 ->
  DataView.setUint32 buf byteOffset value littleEndian = Throw RangeError.
Proof.
  intros H. unfold DataView.setUint32, DataView.in_bounds.
  destruct (Z.leb_spec (byteOffset + 4) (DataView.byteLength buf)); [lia|].
  now rewrite andb_false_r.
Qed.

Section Handshake.
Variables (eps : list USBEndpoint) (ei eo : USBEndpoint)
          (cal : ndarray.t) (fv sn : string).
Variables (fuel : nat) (fpgaFirmware : list Z).

Lemma uploadFpgaBitstream_announced (response : list Z) rs cs :
  uploadFpgaBitstream fuel fpgaFirmware
    (session eps ei eo cal fv sn (response :: rs) cs)
  = (uploadResponseData <- expectResponse FPGA_ACCEPTING_UPLOAD_RESPONSE ;;
     mcuBufferSize <- lift (DataView.getUint32 uploadResponseData 1 true) ;;
     uploadFrames fuel fpgaFirmware (mcuBufferSize - 4) (0, 0) ;;;
     ret tt)
      (session eps ei eo cal fv sn (response :: rs)
         (cs ++ [TransferOut (endpointNumber eo)
                   (frameOf Address.FPGA_UPLOAD
                      (DataView.le32 (DataView.byteLength fpgaFirmware)))])).
Proof.
  unfold uploadFpgaBitstream.
  rewrite bind_lift_ok with (a := replicate 4 0) by reflexivity.
  rewrite bind_lift_ok with (a := DataView.le32 (DataView.byteLength fpgaFirmware))
    by apply setUint32_alloc.
  now rewrite bind_run, sendCommand_run.
Qed.



End Handshake.



(** The answer to the announcement decides the upload.  A first byte
    other than 0x44 rejects it with both bytes named; an answer of fewer
    than five bytes is a RangeError when the buffer size is read; a
    buffer size below 4 is a RangeError when the first frame is built
    (for a non-empty image).  In the three cases nothing is written
    after the announcement.  An empty image needs no frame, whatever the
    buffer size. *)
Theorem uploadFpgaBitstream_handshake
    (fuel : nat) (fpgaFirmware : list Z)
    (eps : list USBEndpoint) (ei eo : USBEndpoint) (cal : ndarray.t)
    (fv sn : string) (b : Z) (r0 : list Z) (rs : list (list Z)) (cs : list USBCall) :
  let run := uploadFpgaBitstream fuel fpgaFirmware
               (session eps ei eo cal fv sn ((b :: r0) :: rs) cs) in
  let announced :=
    session eps ei eo cal fv sn rs
      (cs ++ commandCalls ei eo Address.FPGA_UPLOAD
               (DataView.le32 (DataView.byteLength fpgaFirmware))) in
  (b <> FPGA_ACCEPTING_UPLOAD_RESPONSE ->
   run = (Throw (ResponseError FPGA_ACCEPTING_UPLOAD_RESPONSE b), announced))
  /\ (b = FPGA_ACCEPTING_UPLOAD_RESPONSE ->
      ((length r0 < 4)%nat -> run = (Throw RangeError, announced))
      /\ forall mcuBufferSize : Z,
           DataView.getUint32 (take 5 (b :: r0)) 1 true = Ok mcuBufferSize ->
           (mcuBufferSize < 4 -> fpgaFirmware <> [] -> (0 < fuel)%nat ->
            run = (Throw RangeError, announced))
           /\ (fpgaFirmware = [] -> run = (Ok tt, announced))).
Proof.
  intros run announced. unfold run, announced. clear run announced.
  rewrite uploadFpgaBitstream_announced.
  split.
  - intros Hb. rewrite bind_run, expectResponse_reject by exact Hb.
    unfold commandCalls. now rewrite <- app_assoc.
  - intros ->. rewrite bind_run, expectResponse_ok.
    unfold commandCalls. rewrite <- app_assoc. cbn [app].
    split.
    + intros Hr0. rewrite bind_run. unfold lift.
      rewrite getUint32_out; [reflexivity|].
      unfold DataView.byteLength. rewrite length_take. cbn [length]. lia.
    + intros mcuBufferSize Hsize. rewrite (bind_lift_ok _ _ _ _ Hsize).
      split.
      * intros Hsmall Hfw Hfuel. rewrite bind_run. unfold uploadFrames.
        rewrite while_unfold. cbn [fst].
        assert (Hlen : 0 < DataView.byteLength fpgaFirmware).
        { unfold DataView.byteLength. destruct fpgaFirmware; [contradiction|].
          cbn [length]. lia. }
        destruct (Z.ltb_spec 0 (DataView.byteLength fpgaFirmware)); [|lia].
        destruct fuel as [|fuel']; [lia|].
        rewrite bind_run. unfold uploadFrameStep.
        replace (Z.min (mcuBufferSize - 4) (DataView.byteLength fpgaFirmware - 0))
          with (mcuBufferSize - 4) by lia.
        replace (mcuBufferSize - 4 + 4) with mcuBufferSize by lia.
        rewrite bind_run. unfold lift at 1. unfold TypedArray.alloc.
        destruct (Z.ltb_spec mcuBufferSize 0); [reflexivity|].
        rewrite bind_run. unfold lift at 1.
        rewrite setUint32_out; [reflexivity|].
        unfold DataView.byteLength. rewrite length_replicate. lia.
      * intros ->. rewrite bind_run. unfold uploadFrames.
        rewrite while_unfold. reflexivity.
Qed.

(** Three instances: a refusal, an answer of three bytes, a buffer of
    three bytes. *)
Lemma uploadFpgaBitstream_handshake_witness :
  let this response :=
    session [] bulkIn bulkOut blankCalibration EmptyString EmptyString [response; ack] [] in
  let announced :=
    session [] bulkIn bulkOut blankCalibration EmptyString EmptyString [ack]
      [TransferOut 3 [0x00; 0x40; 0; 0; 4; 3; 0; 0; 0]; TransferIn 1 5] in
  uploadFpgaBitstream 7 [1; 2; 3] (this [0x45; 0; 1; 0; 0])
  = (Throw (ResponseError FPGA_ACCEPTING_UPLOAD_RESPONSE 0x45), announced)
  /\ uploadFpgaBitstream 7 [1; 2; 3] (this [0x44; 0; 1])
     = (Throw RangeError, announced)
  /\ uploadFpgaBitstream 7 [1; 2; 3] (this [0x44; 3; 0; 0; 0])
     = (Throw RangeError, announced).
Proof.
  intros this announced. split; [|split].
  - refine (proj1 (uploadFpgaBitstream_handshake 7 [1; 2; 3] [] bulkIn bulkOut
                     blankCalibration EmptyString EmptyString 0x45 [0; 1; 0; 0]
                     [ack] []) _).
    vm_compute. discriminate.
  - refine (proj1 (proj2 (uploadFpgaBitstream_handshake 7 [1; 2; 3] [] bulkIn bulkOut
                            blankCalibration EmptyString EmptyString 0x44 [0; 1]
                            [ack] []) eq_refl) _).
    vm_compute. lia.
  - refine (proj1 (proj2 (proj2 (uploadFpgaBitstream_handshake 7 [1; 2; 3] [] bulkIn
                                   bulkOut blankCalibration EmptyString EmptyString
                                   0x44 [3; 0; 0; 0] [ack] []) eq_refl)
                     3 eq_refl) _ _ _).
    + lia.
    + discriminate.
    + lia.
Defined.



(** ** The image put together again *)

Lemma slices_concat {A : Type} (d : nat) :
  (0 < d)%nat ->
  forall (n : nat) (l : list A),
    (length l <= n * d)%nat ->
    flat_map (fun j => take d (drop (j * d) l)) (seq 0 n) = l.
Proof.
  intros Hd. induction n as [|n IH]; intros l Hlen.
  - destruct l; [reflexivity | cbn [length] in Hlen; lia].
  - cbn [seq flat_map]. rewrite <- seq_shift, flat_map_concat_map, map_map.
    rewrite <- flat_map_concat_map.
    rewrite (flat_map_ext _ (fun j => take d (drop (j * d) (drop d l)))).
    + rewrite IH by (rewrite length_drop; lia).
      change (0 * d)%nat with 0%nat. rewrite drop_0. apply take_drop.
    + intros j. rewrite drop_drop. reflexivity.
Qed.

Lemma frameCount_covers (len D : Z) :
  0 < D -> 0 <= len -> len <= Z.of_nat (frameCount len D) * D.
Proof.
  intros HD Hlen. unfold frameCount.
  rewrite Z2Nat.id by (apply Z.div_pos; lia).
  pose proof (Z.div_mod (len + D - 1) D ltac:(lia)) as Hdm.
  pose proof (Z.mod_pos_bound (len + D - 1) D HD) as Hmod.
  nia.
Qed.

Lemma uploadFrames_data (fpgaFirmware : list Z) (D : Z) :
  0 < D ->
  flat_map (drop 4)
    (map (uploadFrame fpgaFirmware D)
       (seq 0 (frameCount (DataView.byteLength fpgaFirmware) D)))
  = map TypedArray.toUint8 fpgaFirmware.
Proof.
  intros HD.
  rewrite flat_map_concat_map, map_map, <- flat_map_concat_map.
  rewrite (flat_map_ext _
             (fun j => map TypedArray.toUint8
                         (take (Z.to_nat D) (drop (j * Z.to_nat D) fpgaFirmware)))).
  - rewrite flat_map_concat_map, <- map_map, <- concat_map, <- flat_map_concat_map.
    rewrite slices_concat; [reflexivity|lia|].
    pose proof (frameCount_covers (DataView.byteLength fpgaFirmware) D HD) as Hcover.
    unfold DataView.byteLength in *. nia.
  - intros j. unfold uploadFrame. cbn [DataView.le32 app drop].
    do 3 f_equal. rewrite Z2Nat.inj_mul, Nat2Z.id by lia. reflexivity.
Qed.

Lemma flat_map_frames {A B : Type} (f : list Z -> list B) (g : A -> list Z) (l : list A) :
  flat_map (fun j => f (g j)) l = flat_map f (map g l).
Proof. induction l as [|a l IH]; [reflexivity|]. cbn [map flat_map]. now rewrite IH. Qed.

(** The frames of a completed upload carry the image once and whole:
    stripped of their four-byte index and put end to end in the order
    they were written, they are the bytes of the firmware image. *)
Theorem uploadFpgaBitstream_image_arrives
    (fuel : nat) (fpgaFirmware : list Z) (D : Z)
    (eps : list USBEndpoint) (ei eo : USBEndpoint) (cal : ndarray.t)
    (fv sn : string) (r0 : list Z) (tails rs : list (list Z))
    (cs : list USBCall) :
  0 < D ->
  DataView.getUint32 (take 5 (FPGA_ACCEPTING_UPLOAD_RESPONSE :: r0)) 1 true
  = Ok (D + 4) ->
  (length fpgaFirmware + 4 <= fuel)%nat ->
  length tails = frameCount (DataView.byteLength fpgaFirmware) D ->
  exists frames : list (list Z),
    uploadFpgaBitstream fuel fpgaFirmware
      (session eps ei eo cal fv sn
         ((FPGA_ACCEPTING_UPLOAD_RESPONSE :: r0)
            :: map (cons AFFIRMATIVE_RESPONSE) tails ++ rs) cs)
    = (Ok tt,
       session eps ei eo cal fv sn rs
         (cs ++ commandCalls ei eo Address.FPGA_UPLOAD
                  (DataView.le32 (DataView.byteLength fpgaFirmware))
             ++ flat_map (frameCalls ei eo) frames))
    /\ flat_map (drop 4) frames = map TypedArray.toUint8 fpgaFirmware
    /\ Forall (fun frame => (4 < length frame)%nat /\ Z.of_nat (length frame) <= 4 + D)
         frames.
Proof.
  intros HD Hroom Hfuel Htails.
  exists (map (uploadFrame fpgaFirmware D)
            (seq 0 (frameCount (DataView.byteLength fpgaFirmware) D))).
  split; [|split].
  - rewrite (uploadFpgaBitstream_run eps ei eo cal fv sn fuel fpgaFirmware D)
      by assumption.
    rewrite Htails. now rewrite flat_map_frames.
  - now apply uploadFrames_data.
  - apply Forall_map, List.Forall_forall. intros j Hj. apply in_seq in Hj.
    assert (Hlt : Z.of_nat j * D < DataView.byteLength fpgaFirmware).
    { apply frameCount_lt; [exact HD | unfold DataView.byteLength; lia | lia]. }
    pose proof (uploadFrame_length fpgaFirmware D j HD) as Hlen.
    cbn beta. lia.
Qed.

(** An instance: 23 bytes in frames of 8. *)
Lemma uploadFpgaBitstream_image_arrives_witness :
  exists frames : list (list Z),
    uploadFpgaBitstream 27 (zrange 23)
      (session [] bulkIn bulkOut blankCalibration EmptyString EmptyString
         ((FPGA_ACCEPTING_UPLOAD_RESPONSE :: [12; 0; 0; 0])
            :: map (cons AFFIRMATIVE_RESPONSE) [[]; []; []] ++ [ack]) [])
    = (Ok tt,
       session [] bulkIn bulkOut blankCalibration EmptyString EmptyString [ack]
         ([] ++ commandCalls bulkIn bulkOut Address.FPGA_UPLOAD
                  (DataView.le32 (DataView.byteLength (zrange 23)))
             ++ flat_map (frameCalls bulkIn bulkOut) frames))
    /\ flat_map (drop 4) frames = map TypedArray.toUint8 (zrange 23)
    /\ Forall (fun frame => (4 < length frame)%nat /\ Z.of_nat (length frame) <= 4 + 8)
         frames.
Proof.
  refine (uploadFpgaBitstream_image_arrives 27 (zrange 23) 8 [] bulkIn bulkOut
            blankCalibration EmptyString EmptyString [12; 0; 0; 0] [[]; []; []]
            [ack] [] _ eq_refl _ eq_refl).
  - reflexivity.
  - vm_compute. lia.
Defined.

(** ** A callback that throws *)

Section Callback.
Variables (eps : list USBEndpoint) (ei eo : USBEndpoint)
          (cal : ndarray.t) (fv sn : string).
Variable gotData : list Z -> Outcome unit.

(** The frame the callback is given in a cycle: what the device sent,
    cut to 5211 bytes. *)
Lemma sampleLoop_throws (e : Exn) cycles more i r1 r2 frame rs cs :
  Forall (fun c => gotData (take (Z.to_nat 5211) (snd c)) = Ok tt) cycles ->
  gotData (take (Z.to_nat 5211) frame) = Throw e ->
  for_ (length cycles + Datatypes.S more) i
    (fun _ (_ : unit) => sampleCycle gotData) tt
    (session eps ei eo cal fv sn
       (flat_map cycleResponses cycles ++ cycleResponses (r1, r2, frame) ++ rs) cs)
  = (Throw e,
     session eps ei eo cal fv sn rs
       (cs ++ flat_map (fun _ => cycleCalls ei eo) cycles ++ cycleCalls ei eo)).
Proof.
  intros Hcycles Hframe. revert i cs.
  induction Hcycles as [|[[r1' r2'] frame'] cycles Hfirst _ IH]; intros i cs.
  - cbn [length Nat.add for_ flat_map cycleResponses app].
    rewrite bind_run, sampleCycle_run, Hframe. reflexivity.
  - cbn [length Nat.add for_ flat_map cycleResponses app].
    cbn [snd] in Hfirst.
    rewrite bind_run, sampleCycle_run, Hfirst, IH.
    now rewrite <- !app_assoc.
Qed.

End Callback.

(** The callback runs inside the loop with nothing to catch what it
    throws: the first frame on which it throws ends [sampleInfinitely]
    with that error, after the cycles before it and the transfers of
    that cycle; no later cycle is run.  The callback sees each frame cut
    to 5211 bytes. *)
Theorem sampleInfinitely_callback_throws
    (gotData : list Z -> Outcome unit) (e : Exn)
    (eps : list USBEndpoint) (ei eo : USBEndpoint) (cal : ndarray.t)
    (fv sn : string) (tails : list (list Z))
    (cycles : list (list Z * list Z * list Z)) (r1 r2 frame : list Z)
    (rs : list (list Z)) (cs : list USBCall) :
  length tails = 8%nat ->
  (length cycles < Z.to_nat 5000)%nat ->
  Forall (fun c => gotData (take (Z.to_nat 5211) (snd c)) = Ok tt) cycles ->
  gotData (take (Z.to_nat 5211) frame) = Throw e ->
  sampleInfinitely gotData
    (session eps ei eo cal fv sn
       (map (cons AFFIRMATIVE_RESPONSE) tails ++ flat_map cycleResponses cycles
          ++ cycleResponses (r1, r2, frame) ++ rs) cs)
  = (Throw e,
     session eps ei eo cal fv sn rs
       (cs ++ setupCalls ei eo ++ flat_map (fun _ => cycleCalls ei eo) cycles
           ++ cycleCalls ei eo)).
Proof.
  intros Htails Hlen Hcycles Hframe. unfold sampleInfinitely.
  rewrite bind_run, sampleSetup_run by assumption.
  replace (Z.to_nat 5000)
    with (length cycles + Datatypes.S (Z.to_nat 5000 - length cycles - 1))%nat by lia.
  rewrite (sampleLoop_throws eps ei eo cal fv sn gotData e) by assumption.
  now rewrite <- app_assoc.
Qed.

(** An instance: a callback that rejects empty frames, given one good
    frame and then an empty one. *)
Lemma sampleInfinitely_callback_throws_witness :
  let gotData (data : list Z) : Outcome unit :=
    match data with [] => Throw RangeError | _ :: _ => Ok tt end in
  let cycles : list (list Z * list Z * list Z) := [([], [], [1; 2; 3])] in
  sampleInfinitely gotData
    (session [] bulkIn bulkOut blankCalibration EmptyString EmptyString
       (map (cons AFFIRMATIVE_RESPONSE) (replicate 8 [0; 0; 0; 0])
          ++ flat_map cycleResponses cycles
          ++ cycleResponses ([], [], []) ++ [ack]) [])
  = (Throw RangeError,
     session [] bulkIn bulkOut blankCalibration EmptyString EmptyString [ack]
       ([] ++ setupCalls bulkIn bulkOut
           ++ flat_map (fun _ => cycleCalls bulkIn bulkOut) cycles
           ++ cycleCalls bulkIn bulkOut)).
Proof.
  intros gotData cycles.
  refine (sampleInfinitely_callback_throws gotData RangeError [] bulkIn bulkOut
            blankCalibration EmptyString EmptyString (replicate 8 [0; 0; 0; 0])
            cycles [] [] [] [ack] [] eq_refl _ _ eq_refl).
  - vm_compute. lia.
  - repeat constructor.
Defined.

(** ** The trigger word read back *)

(** The trigger-type word tells the mode, the type and the slope, and
    in SINGLE mode the source.  In ALTERNATE mode only bit 0 of the
    source is stored, so the external source (2) gives the word of
    channel 1 (0). *)
Theorem triggerTypeWord_decodes (options options' : EdgeTriggerOptions) :
  triggerTypeWord options = triggerTypeWord options' ->
  eo_mode options = eo_mode options'
  /\ eo_type options = eo_type options'
  /\ eo_slope options = eo_slope options'
  /\ (eo_source options = eo_source options'
      \/ (eo_mode options = ALTERNATE
          /\ eo_source options <> TS_CH2 /\ eo_source options' <> TS_CH2)).
Proof.
  destruct options as [source mode type slope level],
           options' as [source' mode' type' slope' level'].
  cbn [eo_mode eo_type eo_slope eo_source].
  destruct source, mode, type, slope, source', mode', type', slope';
    vm_compute; intros H; try discriminate H;
    repeat split; try reflexivity; first [left; reflexivity | right; repeat split; discriminate].
Qed.

(** An instance: the two sources that share a word in ALTERNATE
    mode. *)
Lemma triggerTypeWord_decodes_witness :
  let options source :=
    {| eo_source := source; eo_mode := ALTERNATE; eo_type := PULSE;
       eo_slope := FALLING; eo_triggerLevel := 0 |} in
  triggerTypeWord (options TS_EXTERNAL) = triggerTypeWord (options TS_CH1)
  /\ (eo_mode (options TS_EXTERNAL) = eo_mode (options TS_CH1)
      /\ eo_type (options TS_EXTERNAL) = eo_type (options TS_CH1)
      /\ eo_slope (options TS_EXTERNAL) = eo_slope (options TS_CH1)
      /\ (eo_source (options TS_EXTERNAL) = eo_source (options TS_CH1)
          \/ (eo_mode (options TS_EXTERNAL) = ALTERNATE
              /\ eo_source (options TS_EXTERNAL) <> TS_CH2
              /\ eo_source (options TS_CH1) <> TS_CH2))).
Proof.
  intros options. split; [reflexivity|].
  apply (triggerTypeWord_decodes (options TS_EXTERNAL) (options TS_CH1)). reflexivity.
Defined.

(** ** What a method leaves of the driver object *)

Section Keeps.
Variable R : Owon -> Owon -> Prop.
Hypothesis R_refl : forall this : Owon, R this this.
Hypothesis R_trans : forall a b c : Owon, R a b -> R b c -> R a c.

Lemma keeps_ret {A : Type} (a : A) : keeps R (ret a).
Proof. intros this. apply R_refl. Qed.

Lemma keeps_throw {A : Type} (e : Exn) : keeps R (throw e : Promise A).
Proof. intros this. apply R_refl. Qed.

Lemma keeps_lift {A : Type} (r : Outcome A) : keeps R (lift r : Promise A).
Proof. intros this. apply R_refl. Qed.

Lemma keeps_get_state : keeps R get_state.
Proof. intros this. apply R_refl. Qed.

Lemma keeps_modify (f : Owon -> Owon) :
  (forall this : Owon, R this (f this)) -> keeps R (modify f).
Proof. intros Hf this. apply Hf. Qed.

Lemma keeps_bind {A B : Type} (m : Promise A) (f : A -> Promise B) :
  keeps R m -> (forall a : A, keeps R (f a)) -> keeps R (bind m f).
Proof.
  intros Hm Hf this. rewrite bind_run. specialize (Hm this).
  destruct (m this) as [[a| | |] this']; cbn [snd] in *; try exact Hm.
  exact (R_trans _ _ _ Hm (Hf a this')).
Qed.

Lemma keeps_for {V : Type} (count : nat) (body : Z -> V -> Promise V) :
  (forall i v, keeps R (body i v)) ->
  forall i v, keeps R (for_ count i body v).
Proof.
  intros Hbody. induction count as [|count IH]; intros i v; cbn [for_].
  - apply keeps_ret.
  - apply keeps_bind; [apply Hbody | intros v'; apply IH].
Qed.

Lemma keeps_while {V : Type} (fuel : nat) (cond : V -> bool) (body : V -> Promise V) :
  (forall v, keeps R (body v)) ->
  forall v, keeps R (while_ fuel cond body v).
Proof.
  intros Hbody. induction fuel as [|fuel IH]; intros v; rewrite while_unfold;
    destruct (cond v); try apply keeps_ret.
  - intros this. apply R_refl.
  - apply keeps_bind; [apply Hbody | intros v'; apply IH].
Qed.

Hypothesis R_out : forall ep data, keeps R (USB.transferOut ep data).
Hypothesis R_in : forall ep len, keeps R (USB.transferIn ep len).

Lemma keeps_transferOut (packedCommand : list Z) : keeps R (transferOut packedCommand).
Proof.
  unfold transferOut. apply keeps_bind; [apply keeps_get_state|].
  intros this. destruct (outEndpoint_ this); [apply R_out | apply keeps_throw].
Qed.

Lemma keeps_transferIn (len : Z) : keeps R (transferIn len).
Proof.
  unfold transferIn. apply keeps_bind; [apply keeps_get_state|].
  intros this. destruct (inEndpoint_ this); [apply R_in | apply keeps_throw].
Qed.

Ltac keeps_step :=
  lazymatch goal with
  | |- keeps _ (bind _ _) => apply keeps_bind; [|intros ?]
  | |- keeps _ (ret _) => apply keeps_ret
  | |- keeps _ (throw _) => apply keeps_throw
  | |- keeps _ (lift _) => apply keeps_lift
  | |- keeps _ get_state => apply keeps_get_state
  | |- keeps _ (transferOut _) => apply keeps_transferOut
  | |- keeps _ (transferIn _) => apply keeps_transferIn
  | |- keeps _ (if ?c then _ else _) => destruct c
  | |- keeps _ (let '(_, _) := ?p in _) => destruct p
  end.

Lemma keeps_expectResponse (expected : Z) : keeps R (expectResponse expected).
Proof. unfold expectResponse. repeat keeps_step. Qed.

Lemma keeps_sendCommand (address : Z) (data : list Z) : keeps R (sendCommand address data).
Proof. unfold sendCommand. repeat keeps_step. Qed.

Ltac keeps_method :=
  repeat first [ apply keeps_expectResponse | apply keeps_sendCommand | keeps_step ].

Lemma keeps_getDeviceType : keeps R getDeviceType.
Proof. unfold getDeviceType. keeps_method. Qed.

Lemma keeps_uploadFpgaBitstream (fuel : nat) (fpgaFirmware : list Z) :
  keeps R (uploadFpgaBitstream fuel fpgaFirmware).
Proof.
  unfold uploadFpgaBitstream. keeps_method.
  unfold uploadFrames. apply keeps_while. intros [i mcuFrameIndex].
  unfold uploadFrameStep. keeps_method.
  unfold transferChunks. apply keeps_while. intros chunkOffset.
  unfold transferChunk. keeps_method.
Qed.

Lemma keeps_configurePhaseFine : keeps R configurePhaseFine.
Proof. unfold configurePhaseFine. keeps_method. Qed.

Lemma keeps_configureChannel (options : ChannelOptions) :
  keeps R (configureChannel options).
Proof. unfold configureChannel. keeps_method. Qed.

Lemma keeps_configureTimebase (timebase : Timebase) : keeps R (configureTimebase timebase).
Proof. unfold configureTimebase. keeps_method. Qed.

Lemma keeps_configureEdgeTrigger (options : EdgeTriggerOptions) :
  keeps R (configureEdgeTrigger options).
Proof. unfold configureEdgeTrigger. keeps_method. Qed.

Lemma keeps_turnOnChannel1 : keeps R turnOnChannel1.
Proof. unfold turnOnChannel1. keeps_method. Qed.

Lemma keeps_getData : keeps R getData.
Proof. unfold getData. keeps_method. Qed.

Lemma keeps_sampleInfinitely (gotData : list Z -> Outcome unit) :
  keeps R (sampleInfinitely gotData).
Proof.
  unfold sampleInfinitely, sampleSetup. keeps_method.
  apply keeps_for. intros i v. unfold sampleCycle. keeps_method.
Qed.

(** [readFlash] and [open] also store into the object and make the
    calls that open the device. *)
Hypothesis R_calibrationData :
  forall (c : ndarray.t) (this : Owon), R this (set_calibrationData c this).
Hypothesis R_firmwareVersion :
  forall (v : string) (this : Owon), R this (set_firmwareVersion v this).
Hypothesis R_serialNumber :
  forall (v : string) (this : Owon), R this (set_serialNumber v this).

Lemma keeps_readFlash : keeps R readFlash.
Proof.
  unfold readFlash. keeps_method.
  - unfold readCalibrationInfos. apply keeps_for. intros calibrationInfoIndex off.
    unfold readChannels. apply keeps_for. intros channelIndex off'.
    unfold readVoltbases. apply keeps_for. intros voltbaseIndex off''.
    keeps_method. apply keeps_modify. intros this. apply R_calibrationData.
  - apply keeps_modify. intros this. apply R_firmwareVersion.
  - apply keeps_modify. intros this. apply R_serialNumber.
Qed.

Hypothesis R_endpoints :
  forall (i o : option USBEndpoint) (this : Owon), R this (set_endpoints i o this).
Hypothesis R_open : keeps R (USB.call DeviceOpen).
Hypothesis R_select : forall v : Z, keeps R (USB.call (SelectConfiguration v)).
Hypothesis R_claim : forall n : Z, keeps R (USB.call (ClaimInterface n)).

Lemma keeps_open : keeps R open.
Proof.
  unfold open.
  repeat first [ apply R_open | apply R_select | apply R_claim
               | apply keeps_getDeviceType | keeps_step ].
  apply keeps_modify. intros this. apply R_endpoints.
Qed.

End Keeps.

(** ** Two relations the methods keep *)

Lemma appended_refl (P : USBCall -> bool) (this : Owon) : appended P this this.
Proof. exists []. now rewrite app_nil_r. Qed.

Lemma appended_trans (P : USBCall -> bool) (a b c : Owon) :
  appended P a b -> appended P b c -> appended P a c.
Proof.
  intros (new1 & H1 & P1) (new2 & H2 & P2). exists (new1 ++ new2).
  rewrite H2, H1, <- app_assoc. split; [reflexivity|].
  rewrite forallb_app, P1, P2. reflexivity.
Qed.

Lemma appended_call (P : USBCall -> bool) (c : USBCall) :
  P c = true -> keeps (appended P) (USB.call c).
Proof.
  intros HP this. exists [c]. split; [reflexivity|]. cbn [forallb]. now rewrite HP.
Qed.

Lemma appended_transferIn (P : USBCall -> bool) (ep len : Z) :
  P (TransferIn ep len) = true -> keeps (appended P) (USB.transferIn ep len).
Proof.
  intros HP this. exists [TransferIn ep len].
  split; [|cbn [forallb]; now rewrite HP].
  unfold USB.transferIn. cbn [responses logged].
  destruct (responses (device_ this)); reflexivity.
Qed.

Lemma appended_same_device (P : USBCall -> bool) (this this' : Owon) :
  device_ this' = device_ this -> appended P this this'.
Proof. intros H. exists []. now rewrite H, app_nil_r. Qed.

Lemma sameFields_refl (this : Owon) : sameFields this this.
Proof. repeat split. Qed.

Lemma sameFields_trans (a b c : Owon) :
  sameFields a b -> sameFields b c -> sameFields a c.
Proof. unfold sameFields. intuition congruence. Qed.

Lemma transfersOnly_refl (this : Owon) : transfersOnly this this.
Proof. split; [apply sameFields_refl | apply appended_refl]. Qed.

Lemma transfersOnly_trans (a b c : Owon) :
  transfersOnly a b -> transfersOnly b c -> transfersOnly a c.
Proof.
  intros [F1 A1] [F2 A2].
  split; [exact (sameFields_trans _ _ _ F1 F2) | exact (appended_trans _ _ _ _ A1 A2)].
Qed.

Lemma transfersOnly_transferOut (ep : Z) (data : list Z) :
  keeps transfersOnly (USB.transferOut ep data).
Proof.
  intros this. split; [repeat split|].
  now apply (appended_call isTransfer (TransferOut ep data)).
Qed.

Lemma transfersOnly_transferIn (ep len : Z) :
  keeps transfersOnly (USB.transferIn ep len).
Proof.
  intros this. split; [|now apply appended_transferIn].
  unfold USB.transferIn. cbn [responses logged].
  destruct (responses (device_ this)); repeat split.
Qed.

(** Whatever the device answers and however the call ends, the methods
    that configure, upload and sample leave the endpoints, the
    calibration table, the firmware version and the serial number of
    the driver object as they were, and add only bulk transfers to the
    log of the device: they never open, reconfigure, claim or close it.
    [readFlash] adds only bulk transfers too, and keeps the endpoints. *)
Theorem methods_only_transfer
    (fuel : nat) (fpgaFirmware : list Z)
    (channelOptions : ChannelOptions) (timebase : Timebase)
    (triggerOptions : EdgeTriggerOptions) (gotData : list Z -> Outcome unit) :
  keeps transfersOnly getDeviceType
  /\ keeps transfersOnly (uploadFpgaBitstream fuel fpgaFirmware)
  /\ keeps transfersOnly configurePhaseFine
  /\ keeps transfersOnly (configureChannel channelOptions)
  /\ keeps transfersOnly (configureTimebase timebase)
  /\ keeps transfersOnly (configureEdgeTrigger triggerOptions)
  /\ keeps transfersOnly turnOnChannel1
  /\ keeps transfersOnly getData
  /\ keeps transfersOnly (sampleInfinitely gotData)
  /\ keeps (fun this this' =>
              appended isTransfer this this'
              /\ inEndpoint_ this' = inEndpoint_ this
              /\ outEndpoint_ this' = outEndpoint_ this) readFlash.
Proof.
  pose proof transfersOnly_refl as Hrefl.
  pose proof transfersOnly_trans as Htrans.
  pose proof transfersOnly_transferOut as Hout.
  pose proof transfersOnly_transferIn as Hin.
  repeat apply conj.
  - now apply keeps_getDeviceType.
  - now apply keeps_uploadFpgaBitstream.
  - now apply keeps_configurePhaseFine.
  - now apply keeps_configureChannel.
  - now apply keeps_configureTimebase.
  - now apply keeps_configureEdgeTrigger.
  - now apply keeps_turnOnChannel1.
  - now apply keeps_getData.
  - now apply keeps_sampleInfinitely.
  - apply keeps_readFlash.
    + intros this. split; [apply appended_refl | split; reflexivity].
    + intros a b c (A1 & I1 & O1) (A2 & I2 & O2).
      split; [exact (appended_trans _ _ _ _ A1 A2) | split; congruence].
    + intros ep data this. split; [|split; reflexivity].
      now apply (appended_call isTransfer (TransferOut ep data)).
    + intros ep len this. split; [now apply appended_transferIn|].
      unfold USB.transferIn. cbn [responses logged].
      destruct (responses (device_ this)); split; reflexivity.
    + intros c this. split; [now apply appended_same_device | split; reflexivity].
    + intros v this. split; [now apply appended_same_device | split; reflexivity].
    + intros v this. split; [now apply appended_same_device | split; reflexivity].
Qed.

(** ** The device is closed exactly when [connect] completes *)

Section StaysOpen.

Lemma staysOpen_refl : forall this : Owon, appended notClose this this.
Proof. apply appended_refl. Qed.

Lemma staysOpen_trans :
  forall a b c : Owon,
    appended notClose a b -> appended notClose b c -> appended notClose a c.
Proof. apply appended_trans. Qed.

Lemma staysOpen_out : forall ep data, keeps (appended notClose) (USB.transferOut ep data).
Proof. intros ep data. now apply (appended_call notClose (TransferOut ep data)). Qed.

Lemma staysOpen_in : forall ep len, keeps (appended notClose) (USB.transferIn ep len).
Proof. intros ep len. now apply appended_transferIn. Qed.

Lemma staysOpen_open : keeps (appended notClose) open.
Proof.
  apply keeps_open.
  - apply staysOpen_refl.
  - apply staysOpen_trans.
  - apply staysOpen_out.
  - apply staysOpen_in.
  - intros i o this. now apply appended_same_device.
  - now apply appended_call.
  - intros v. now apply appended_call.
  - intros n. now apply appended_call.
Qed.

Lemma staysOpen_readFlash : keeps (appended notClose) readFlash.
Proof.
  apply keeps_readFlash.
  - apply staysOpen_refl.
  - apply staysOpen_trans.
  - apply staysOpen_out.
  - apply staysOpen_in.
  - intros c this. now apply appended_same_device.
  - intros v this. now apply appended_same_device.
  - intros v this. now apply appended_same_device.
Qed.

Lemma closed_after {A : Type} (m : Promise A) (k : Promise unit) :
  keeps (appended notClose) m ->
  (forall this : Owon, closedIffCompleted this (k this)) ->
  forall this : Owon, closedIffCompleted this ((m ;;; k) this).
Proof.
  intros Hm Hk this. rewrite bind_run. specialize (Hm this).
  destruct (m this) as [[a| | |] this'] eqn:Hrun; cbn [snd] in Hm;
    destruct Hm as (new & Hcalls & Hnew).
  2-4: exists new; split; [exact Hcalls | exact Hnew].
  destruct (Hk this') as (new' & Hcalls' & Hend).
  exists (new ++ new'). split; [now rewrite Hcalls', Hcalls, <- app_assoc|].
  destruct (fst (k this')).
  - destruct Hend as (before & -> & Hbefore). exists (new ++ before).
    split; [now rewrite <- app_assoc|]. now rewrite forallb_app, Hnew, Hbefore.
  - now rewrite forallb_app, Hnew, Hend.
  - now rewrite forallb_app, Hnew, Hend.
  - now rewrite forallb_app, Hnew, Hend.
Qed.

Lemma closed_by_close (this : Owon) : closedIffCompleted this ((close ;;; ret tt) this).
Proof.
  exists [DeviceClose]. split; [reflexivity|]. cbn [fst]. now exists [].
Qed.

End StaysOpen.

(** [connect] has no [try] around its statements and [close] is its
    last one: the device is closed, as the last call of the run, when
    every step before has completed, and it is left open when any step
    is rejected, stays pending or does not end.  This holds for every
    device, whatever it answers, and every firmware image. *)
Theorem connect_closes_iff_completed
    (fuel : nat) (device : USBDevice) (fpgaFirmware : list Z) :
  closedIffCompleted (Owon_new device) (HelloWorld.connect fuel device fpgaFirmware).
Proof.
  unfold HelloWorld.connect.
  pose proof staysOpen_refl as Hrefl. pose proof staysOpen_trans as Htrans.
  pose proof staysOpen_out as Hout. pose proof staysOpen_in as Hin.
  apply closed_after; [apply staysOpen_open|].
  apply closed_after; [apply staysOpen_readFlash|].
  apply closed_after; [now apply keeps_uploadFpgaBitstream|].
  apply closed_after; [now apply keeps_configurePhaseFine|].
  apply closed_after; [now apply keeps_configureEdgeTrigger|].
  apply closed_after; [now apply keeps_configureTimebase|].
  apply closed_after; [now apply keeps_configureChannel|].
  apply closed_after; [now apply keeps_turnOnChannel1|].
  apply closed_after; [now apply keeps_sampleInfinitely|].
  apply closed_by_close.
Qed.

(** ** The whole session of the page *)

Section Acknowledged.
Variables (eps : list USBEndpoint) (ei eo : USBEndpoint)
          (cal : ndarray.t) (fv sn : string).

Lemma configurePhaseFine_run r rs cs :
  configurePhaseFine (session eps ei eo cal fv sn ((AFFIRMATIVE_RESPONSE :: r) :: rs) cs)
  = (Ok tt,
     session eps ei eo cal fv sn rs
       (cs ++ commandCalls ei eo Address.PHASE_FINE [0; 0])).
Proof. unfold configurePhaseFine. now rewrite command_ok. Qed.

Lemma configureTimebase_run r rs cs (timebase : Timebase) :
  configureTimebase timebase
    (session eps ei eo cal fv sn ((AFFIRMATIVE_RESPONSE :: r) :: rs) cs)
  = (Ok tt,
     session eps ei eo cal fv sn rs
       (cs ++ commandCalls ei eo Address.TIMEBASE (DataView.le32 (Timebase_code timebase)))).
Proof.
  unfold configureTimebase.
  rewrite (bind_lift_ok _ _ _ _ (alloc_ok 0 4 ltac:(lia))).
  change (Z.to_nat 4) with 4%nat.
  rewrite (bind_lift_ok _ _ _ _ (setUint32_alloc _)).
  now rewrite command_ok.
Qed.

Lemma turnOnChannel1_run r rs cs :
  turnOnChannel1 (session eps ei eo cal fv sn ((AFFIRMATIVE_RESPONSE :: r) :: rs) cs)
  = (Ok tt,
     session eps ei eo cal fv sn rs
       (cs ++ commandCalls ei eo Address.CHANNEL_ON [1])).
Proof. unfold turnOnChannel1. now rewrite command_ok. Qed.

Lemma close_run rs cs :
  close (session eps ei eo cal fv sn rs cs)
  = (Ok tt, session eps ei eo cal fv sn rs (cs ++ [DeviceClose])).
Proof. reflexivity. Qed.

End Acknowledged.

Lemma open_run (eps : list USBEndpoint) (ei eo : USBEndpoint)
    (r : list Z) (rs : list (list Z)) (cs : list USBCall) :
  head (filter (fun endpoint => Direction_eqb (direction endpoint) dir_in = true) eps)
  = Some ei ->
  head (filter (fun endpoint => Direction_eqb (direction endpoint) dir_out = true) eps)
  = Some eo ->
  open (Owon_new {| endpoints := eps; responses := (DEVICE_TYPE :: r) :: rs; calls := cs |})
  = (Ok tt,
     session eps ei eo blankCalibration EmptyString EmptyString rs
       (cs ++ openCalls ei eo)).
Proof.
  intros Hin Hout. unfold open, USB.call, modify.
  do 4 (rewrite bind_run; cbv beta iota).
  cbn [Owon_new device_ endpoints set_device logged].
  rewrite Hin, Hout.
  match goal with
  | |- _ ?s = _ =>
      change s
        with (session eps ei eo blankCalibration EmptyString EmptyString
                ((DEVICE_TYPE :: r) :: rs)
                (((cs ++ [DeviceOpen]) ++ [SelectConfiguration 1])
                   ++ [ClaimInterface 0]))
  end.
  unfold getDeviceType.
  rewrite bind_run, bind_run, sendCommand_run, bind_run, transferIn_run.
  change (Z.to_nat 5) with 5%nat. cbn [take]. unfold lift.
  rewrite getUint8_head.
  rewrite <- !app_assoc. reflexivity.
Qed.

(** [connect] on a device that plays its part: it has an endpoint each
    way, answers the type query with 0x56, sends a flash dump with the
    right magic and version and at least 227 bytes, accepts the upload
    with room for [D] > 0 data bytes per frame and acknowledges every
    frame, every configuration command and the arm sequence, and serves
    5000 cycles.  Then [connect] completes, and the log of the device is
    the concatenation of the steps in the order of the source: open,
    flash read, upload, phase fine, edge trigger (levels 36 and 26, word
    0), timebase 0x50, channel 1 (bit field 0xa2, the gain and the zero
    offset the dump holds for channel 1 at 2 V), channel on, arm
    sequence, 5000 cycles, close. *)
Theorem connect_cooperative
    (fuel : nat) (fpgaFirmware : list Z) (D : Z)
    (eps : list USBEndpoint) (ei eo : USBEndpoint)
    (t0 response r0 : list Z) (frameTails configTails armTails : list (list Z))
    (cycles : list (list Z * list Z * list Z))
    (rs : list (list Z)) (cs : list USBCall) :
  let receivedData := take (Z.to_nat 2002) response in
  let cell field :=
    flashCell receivedData (CalibrationField_code field) (Channel_code CH1)
      (Voltage_code V2) mod 0x10000 in
  head (filter (fun endpoint => Direction_eqb (direction endpoint) dir_in = true) eps)
  = Some ei ->
  head (filter (fun endpoint => Direction_eqb (direction endpoint) dir_out = true) eps)
  = Some eo ->
  DataView.getUint16 receivedData 0 false = Ok FLASH_HEADER ->
  DataView.getUint32 receivedData 2 true = Ok 2 ->
  227 <= DataView.byteLength receivedData ->
  0 < D ->
  DataView.getUint32 (take 5 (FPGA_ACCEPTING_UPLOAD_RESPONSE :: r0)) 1 true
  = Ok (D + 4) ->
  (length fpgaFirmware + 4 <= fuel)%nat ->
  length frameTails = frameCount (DataView.byteLength fpgaFirmware) D ->
  length configTails = 8%nat ->
  length armTails = 8%nat ->
  length cycles = Z.to_nat 5000 ->
  HelloWorld.connect fuel
    {| endpoints := eps;
       responses :=
         (DEVICE_TYPE :: t0) :: response :: (FPGA_ACCEPTING_UPLOAD_RESPONSE :: r0)
           :: map (cons AFFIRMATIVE_RESPONSE) frameTails
           ++ map (cons AFFIRMATIVE_RESPONSE) configTails
           ++ map (cons AFFIRMATIVE_RESPONSE) armTails
           ++ flat_map cycleResponses cycles ++ rs;
       calls := cs |}
    fpgaFirmware
  = (Ok tt,
     session eps ei eo (loadTable receivedData blankCalibration)
       (fromCharCodes (take 4 (drop 207 receivedData)))
       (fromCharCodes (take 15 (drop 212 receivedData)))
       rs
       (cs ++ openCalls ei eo
           ++ flashCalls ei eo
           ++ commandCalls ei eo Address.FPGA_UPLOAD
                (DataView.le32 (DataView.byteLength fpgaFirmware))
           ++ flat_map (fun j => frameCalls ei eo (uploadFrame fpgaFirmware D j))
                (seq 0 (length frameTails))
           ++ commandCalls ei eo Address.PHASE_FINE [0; 0]
           ++ commandCalls ei eo Address.CH1_TRIGGER_EDGE_LEVEL [36; 26]
           ++ commandCalls ei eo Address.TRIGGER [0; 0]
           ++ commandCalls ei eo Address.TIMEBASE [0x50; 0; 0; 0]
           ++ commandCalls ei eo Address.CH1 [0xa2]
           ++ commandCalls ei eo Address.CH1_VOLT_GAIN (DataView.le16 (cell GAIN))
           ++ commandCalls ei eo Address.CH1_ZERO_OFFSET
                (DataView.le16 (cell COMPENSATION - cell AMPLITUDE / 100))
           ++ commandCalls ei eo Address.CHANNEL_ON [1]
           ++ setupCalls ei eo
           ++ flat_map (fun _ => cycleCalls ei eo) cycles
           ++ [DeviceClose])).
Proof.
  intros receivedData cell Hin Hout Hmagic Hversion Hdump HD Hroom Hfuel
         Hframes Hconfig Harm Hcycles.
  do 8 (destruct configTails as [|? configTails]; [discriminate|]).
  destruct configTails; [|discriminate]. clear Hconfig. cbn [map app].
  unfold HelloWorld.connect.
  rewrite bind_run, (open_run eps ei eo) by assumption.
  rewrite bind_run, readFlash_run by assumption. fold receivedData.
  rewrite bind_run, (uploadFpgaBitstream_run eps ei eo _ _ _ fuel fpgaFirmware D)
    by assumption.
  rewrite <- !app_assoc. cbn [map app].
  rewrite bind_run, configurePhaseFine_run.
  rewrite bind_run, configureEdgeTrigger_run.
  rewrite bind_run, configureTimebase_run.
  match goal with
  | |- context [configureChannel ?o] =>
      pose proof (fun r1 r2 r3 rs cs =>
                    configureChannel_run eps ei eo
                      (fromCharCodes (take 4 (drop 207 receivedData)))
                      (fromCharCodes (take 15 (drop 212 receivedData)))
                      (loadTable receivedData blankCalibration) r1 r2 r3 rs cs o)
        as Hchannel
  end.
  cbv zeta in Hchannel. rewrite bind_run, Hchannel. clear Hchannel.
  rewrite bind_run, turnOnChannel1_run.
  rewrite bind_run, (sampleInfinitely_run eps ei eo _ _ _ HelloWorld.callback)
    by (assumption || reflexivity).
  rewrite bind_run, close_run.
  assert (Hcell : forall field : CalibrationField,
             ndarray.get (loadTable receivedData blankCalibration) (Channel_code CH1)
               (CalibrationField_code field) (Voltage_code V2)
             = cell field).
  { intros field. unfold cell.
    apply (loadTable_get receivedData (replicate 60 0)); [reflexivity| | |].
    - destruct field; vm_compute; (split; [discriminate|reflexivity]).
    - vm_compute. split; [discriminate|reflexivity].
    - vm_compute. split; [discriminate|reflexivity]. }
  cbn [co_channel co_voltage]. rewrite !Hcell.
  unfold ret. apply f_equal.
  apply (f_equal (session eps ei eo (loadTable receivedData blankCalibration)
                    (fromCharCodes (take 4 (drop 207 receivedData)))
                    (fromCharCodes (take 15 (drop 212 receivedData))) rs)).
  rewrite <- !app_assoc. reflexivity.
Qed.

(** An instance: a 23-byte image in frames of 8 data bytes, a 227-byte
    dump, 5000 cycles. *)
Lemma connect_cooperative_witness :
  let fpgaFirmware := zrange 23 in
  let response := [0xAA; 0x55; 2; 0; 0; 0] ++ flat_map (fun n => [n; 0x01]) (zrange 60)
                    ++ replicate 101 0 in
  let frameTails := replicate 3 [0; 0; 0; 0] in
  let configTails := replicate 8 [0; 0; 0; 0] in
  let armTails := replicate 8 [0; 0; 0; 0] in
  let cycles := replicate (Z.to_nat 5000) ([0; 0; 0; 0], [0; 0; 0; 0], [0]) in
  let receivedData := take (Z.to_nat 2002) response in
  let cell field :=
    flashCell receivedData (CalibrationField_code field) (Channel_code CH1)
      (Voltage_code V2) mod 0x10000 in
  HelloWorld.connect 27
    {| endpoints := [bulkIn; bulkOut];
       responses :=
         (DEVICE_TYPE :: [0; 0; 0; 0]) :: response
           :: (FPGA_ACCEPTING_UPLOAD_RESPONSE :: [12; 0; 0; 0])
           :: map (cons AFFIRMATIVE_RESPONSE) frameTails
           ++ map (cons AFFIRMATIVE_RESPONSE) configTails
           ++ map (cons AFFIRMATIVE_RESPONSE) armTails
           ++ flat_map cycleResponses cycles ++ [];
       calls := [] |}
    fpgaFirmware
  = (Ok tt,
     session [bulkIn; bulkOut] bulkIn bulkOut (loadTable receivedData blankCalibration)
       (fromCharCodes (take 4 (drop 207 receivedData)))
       (fromCharCodes (take 15 (drop 212 receivedData)))
       []
       ([] ++ openCalls bulkIn bulkOut
           ++ flashCalls bulkIn bulkOut
           ++ commandCalls bulkIn bulkOut Address.FPGA_UPLOAD
                (DataView.le32 (DataView.byteLength fpgaFirmware))
           ++ flat_map (fun j => frameCalls bulkIn bulkOut (uploadFrame fpgaFirmware 8 j))
                (seq 0 (length frameTails))
           ++ commandCalls bulkIn bulkOut Address.PHASE_FINE [0; 0]
           ++ commandCalls bulkIn bulkOut Address.CH1_TRIGGER_EDGE_LEVEL [36; 26]
           ++ commandCalls bulkIn bulkOut Address.TRIGGER [0; 0]
           ++ commandCalls bulkIn bulkOut Address.TIMEBASE [0x50; 0; 0; 0]
           ++ commandCalls bulkIn bulkOut Address.CH1 [0xa2]
           ++ commandCalls bulkIn bulkOut Address.CH1_VOLT_GAIN (DataView.le16 (cell GAIN))
           ++ commandCalls bulkIn bulkOut Address.CH1_ZERO_OFFSET
                (DataView.le16 (cell COMPENSATION - cell AMPLITUDE / 100))
           ++ commandCalls bulkIn bulkOut Address.CHANNEL_ON [1]
           ++ setupCalls bulkIn bulkOut
           ++ flat_map (fun _ => cycleCalls bulkIn bulkOut) cycles
           ++ [DeviceClose])).
Proof.
  intros fpgaFirmware response frameTails configTails armTails cycles.
  refine (connect_cooperative 27 fpgaFirmware 8 [bulkIn; bulkOut] bulkIn bulkOut
            [0; 0; 0; 0] response [12; 0; 0; 0] frameTails configTails armTails cycles
            [] [] eq_refl eq_refl _ _ _ _ eq_refl _ _ eq_refl eq_refl
            (length_replicate _ _)).
  - vm_compute. reflexivity.
  - vm_compute. reflexivity.
  - vm_compute. discriminate.
  - reflexivity.
  - vm_compute. lia.
  - vm_compute. reflexivity.
Defined.
